(** * Influencer resolution and enrichment pipeline: a shallow embedding

    The development follows the Python sources module by module:
    [api_clients.py] (name heuristic, spelling-correction resolver),
    [workflow_logic.py] (candidate filter, metrics aggregator, fallback
    scorer), [database.py] (profile store), [fast_semantic_matcher.py]
    (vector index) and the two orchestrators of [main.py] and
    [unified_data_manager.py].

    Conventions.
    - A Python [str] is a list of 8-bit characters.  Character classes and
      case mapping are Python's on the ASCII range; a character above 127 is
      neither a letter, a digit nor white space and has no other case.
    - A Python [float] is an exact rational ([Q]); rounding of the binary
      representation is not modelled.
    - A [dict] whose iteration order the code relies on is an association
      list in insertion order. *)

From Stdlib Require Import Ascii String.
From Stdlib Require Import List Bool Arith ZArith QArith Qround Lia Lqa.
From Stdlib Require Import Permutation Sorted.
Import ListNotations.

Close Scope Q_scope.
Close Scope Z_scope.
Open Scope nat_scope.

(** ** Python strings *)

Module Py.

Definition str := list ascii.

(** Literals are written [s "text"]. *)
Definition s (x : string) : str := list_ascii_of_string x.

Definition code (c : ascii) : nat := nat_of_ascii c.

(** [str.isspace] on one ASCII character: TAB, LF, VT, FF, CR, the four
    separators FS GS RS US, and the blank. *)
Definition is_space (c : ascii) : bool :=
  let n := code c in
  ((9 <=? n) && (n <=? 13)) || ((28 <=? n) && (n <=? 32)).

Definition is_upper (c : ascii) : bool :=
  let n := code c in (65 <=? n) && (n <=? 90).

Definition is_lower (c : ascii) : bool :=
  let n := code c in (97 <=? n) && (n <=? 122).

Definition is_alpha (c : ascii) : bool := is_upper c || is_lower c.

Definition is_digit (c : ascii) : bool :=
  let n := code c in (48 <=? n) && (n <=? 57).

Definition is_alnum (c : ascii) : bool := is_alpha c || is_digit c.

Definition lower_char (c : ascii) : ascii :=
  if is_upper c then ascii_of_nat (code c + 32) else c.

Definition upper_char (c : ascii) : ascii :=
  if is_lower c then ascii_of_nat (code c - 32) else c.

(** [x.lower()] *)
Definition lower (x : str) : str := map lower_char x.

Definition eqb_char (a b : ascii) : bool := Ascii.eqb a b.

(** [a == b] on strings *)
Fixpoint eqb (a b : str) : bool :=
  match a, b with
  | [], [] => true
  | c :: a', d :: b' => eqb_char c d && eqb a' b'
  | _, _ => false
  end.

(** [x.startswith(p)] *)
Fixpoint startswith (p x : str) : bool :=
  match p, x with
  | [], _ => true
  | c :: p', d :: x' => eqb_char c d && startswith p' x'
  | _ :: _, [] => false
  end.

(** [p in x] *)
Fixpoint contains (p x : str) : bool :=
  startswith p x ||
  match x with
  | [] => false
  | _ :: x' => contains p x'
  end.

(** [x.lstrip()], [x.rstrip()] and [x.strip()] without argument. *)
Fixpoint lstrip (x : str) : str :=
  match x with
  | [] => []
  | c :: x' => if is_space c then lstrip x' else x
  end.

Fixpoint rstrip (x : str) : str :=
  match x with
  | [] => []
  | c :: x' =>
      match rstrip x' with
      | [] => if is_space c then [] else [c]
      | r => c :: r
      end
  end.

Definition strip (x : str) : str := rstrip (lstrip x).

(** [x.split()] without argument: the maximal runs of non-blank
    characters, in order. *)
Fixpoint split (x : str) : list str :=
  match x with
  | [] => []
  | c :: x' =>
      if is_space c then split x'
      else
        match x' with
        | [] => [[c]]
        | d :: _ =>
            if is_space d then [c] :: split x'
            else
              match split x' with
              | w :: ws => (c :: w) :: ws
              | [] => [[c]]
              end
        end
  end.

(** [x.split(sep)] on a one-character separator: every field is kept,
    empty ones included. *)
Fixpoint split_on (sep : ascii) (x : str) : list str :=
  match x with
  | [] => [[]]
  | c :: x' =>
      if eqb_char c sep then [] :: split_on sep x'
      else
        match split_on sep x' with
        | w :: ws => (c :: w) :: ws
        | [] => [[c]]
        end
  end.

(** [x.replace(c, "")] for a one-character [c]. *)
Definition remove_char (c : ascii) (x : str) : str :=
  filter (fun d => negb (eqb_char d c)) x.

(** [x.replace(c, d)] for one-character [c] and [d]. *)
Definition replace_char (c d : ascii) (x : str) : str :=
  map (fun e => if eqb_char e c then d else e) x.

(** [x.isalpha()], [x.isalnum()]: false on the empty string. *)
Definition isalpha (x : str) : bool :=
  match x with [] => false | _ => forallb is_alpha x end.

Definition isalnum (x : str) : bool :=
  match x with [] => false | _ => forallb is_alnum x end.

(** [sep.join(xs)] *)
Fixpoint join (sep : str) (xs : list str) : str :=
  match xs with
  | [] => []
  | [x] => x
  | x :: rest => x ++ sep ++ join sep rest
  end.

(** [list(dict.fromkeys(xs))]: first occurrences, in order. *)
Fixpoint dedup_aux (seen : list str) (xs : list str) : list str :=
  match xs with
  | [] => []
  | x :: rest =>
      if existsb (eqb x) seen then dedup_aux seen rest
      else x :: dedup_aux (x :: seen) rest
  end.

Definition dedup (xs : list str) : list str := dedup_aux [] xs.

(** [x.endswith(p)] *)
Definition endswith (p x : str) : bool := startswith (rev p) (rev x).

(** [x.rstrip(c)] and [x.lstrip(c)] for a one-character argument. *)
Fixpoint lstrip_char (c : ascii) (x : str) : str :=
  match x with
  | [] => []
  | d :: x' => if eqb_char d c then lstrip_char c x' else x
  end.

Definition rstrip_char (c : ascii) (x : str) : str :=
  rev (lstrip_char c (rev x)).

(** [x.upper()] and [x.title()]: in a title-cased string a letter that
    follows a letter is in lower case, any other letter in upper case. *)
Definition upper (x : str) : str := map upper_char x.

Fixpoint title_aux (after_letter : bool) (x : str) : str :=
  match x with
  | [] => []
  | c :: x' =>
      (if after_letter then lower_char c else upper_char c)
        :: title_aux (is_alpha c) x'
  end.

Definition title (x : str) : str := title_aux false x.

(** [x.replace(p, r)]: every occurrence of the non-empty [p], left to
    right without overlap. *)
Fixpoint replace_fuel (fuel : nat) (p r x : str) : str :=
  match fuel with
  | O => x
  | S fuel' =>
      match x with
      | [] => []
      | c :: x' =>
          if startswith p x
          then r ++ replace_fuel fuel' p r (skipn (length p) x)
          else c :: replace_fuel fuel' p r x'
      end
  end.

Definition replace (p r x : str) : str :=
  match p with
  | [] => x
  | _ => replace_fuel (length x) p r x
  end.

(** [x in xs] for a list of strings. *)
Definition mem (x : str) (xs : list str) : bool := existsb (eqb x) xs.

(** Truth value of a string: non-empty. *)
Definition truthy (x : str) : bool :=
  match x with [] => false | _ => true end.

(** [x.split(sep, 1)]: the part before the first [sep] and, when there is
    one, the part after it. *)
Fixpoint split_once (sep : ascii) (x : str) : str * option str :=
  match x with
  | [] => ([], None)
  | c :: x' =>
      if eqb_char c sep then ([], Some x')
      else let (a, b) := split_once sep x' in (c :: a, b)
  end.

(** The longest prefix of characters satisfying [f], and the rest. *)
Fixpoint span (f : ascii -> bool) (x : str) : str * str :=
  match x with
  | [] => ([], [])
  | c :: x' =>
      if f c then let (a, b) := span f x' in (c :: a, b) else ([], x)
  end.

End Py.

Import Py.

(** ** Python numbers *)

Module Num.

Definition Qltb (a b : Q) : bool := negb (Qle_bool b a).

(** [max(a, b)] and [min(a, b)]: the first argument is kept on a tie. *)
Definition py_max (a b : Q) : Q := if Qltb a b then b else a.
Definition py_min (a b : Q) : Q := if Qltb b a then b else a.

(** The integer nearest to [x], the even one when two are as near. *)
Definition round_half_even (x : Q) : Z :=
  let f := Qfloor x in
  match (x - inject_Z f ?= 1 # 2)%Q with
  | Lt => f
  | Gt => (f + 1)%Z
  | Eq => if Z.even f then f else (f + 1)%Z
  end.

(** [round(x, ndigits)] *)
Definition py_round (ndigits : nat) (x : Q) : Q :=
  let scale := inject_Z (10 ^ Z.of_nat ndigits) in
  Qred (inject_Z (round_half_even (x * scale)) / scale).

Definition digit_value (c : ascii) : Z := Z.of_nat (code c - 48).

Definition decimal_value (ds : str) : Z :=
  fold_left (fun acc c => (10 * acc + digit_value c)%Z) ds 0%Z.

(** [float(text)] for a text [digits], [digits.digits] or [.digits],
    given as its integer and fractional digits. *)
Definition float_of_decimal (int_part frac_part : str) : Q :=
  Qred (inject_Z (decimal_value int_part)
        + inject_Z (decimal_value frac_part)
          / inject_Z (10 ^ Z.of_nat (length frac_part))).

(** [re.search(r'(\d*\.?\d+)', x)]: the leftmost match, as its integer
    and fractional digits.  A match starts at a digit, or at a point that
    a digit follows; the run of digits is taken whole, and a point after
    it belongs to the match only when a digit follows. *)
Fixpoint search_number (x : str) : option (str * str) :=
  match x with
  | [] => None
  | c :: x' =>
      if is_digit c then
        let (ds, rest) := span is_digit x in
        match rest with
        | "."%char :: r => let (fs, _) := span is_digit r in Some (ds, fs)
        | _ => Some (ds, [])
        end
      else if eqb_char c "."%char then
        let (fs, _) := span is_digit x' in
        match fs with
        | [] => search_number x'
        | _ => Some ([], fs)
        end
      else search_number x'
  end.

(** [re.search(r'(\d+(?:\.\d+)?)', x)]: the leftmost run of digits, with
    a point and further digits when they follow. *)
Fixpoint search_score (x : str) : option (str * str) :=
  match x with
  | [] => None
  | c :: x' =>
      if is_digit c then
        let (ds, rest) := span is_digit x in
        match rest with
        | "."%char :: r => let (fs, _) := span is_digit r in Some (ds, fs)
        | _ => Some (ds, [])
        end
      else search_score x'
  end.


(** [math.sqrt]: the square root, cut after sixteen decimals. *)
Definition float_sqrt (x : Q) : Q :=
  let scale := (10 ^ 16)%Z in
  Qred (inject_Z (Z.sqrt (Qnum x * (scale * scale) / Zpos (Qden x)))
        / inject_Z scale).

Definition Qsum (xs : list Q) : Q := fold_right Qplus 0%Q xs.

(** [statistics.mean] of a non-empty list. *)
Definition mean (xs : list Q) : Q :=
  Qred (Qsum xs / inject_Z (Z.of_nat (length xs))).

(** [statistics.stdev]: the square root of the sample variance of a list
    of at least two values. *)
Definition stdev (xs : list Q) : Q :=
  let m := mean xs in
  let ss := Qsum (map (fun x => (x - m) * (x - m))%Q xs) in
  float_sqrt (ss / inject_Z (Z.of_nat (length xs - 1))).

(** [sorted(xs)] on numbers. *)
Fixpoint insert_sorted (x : Q) (xs : list Q) : list Q :=
  match xs with
  | [] => [x]
  | y :: ys => if Qltb x y then x :: xs else y :: insert_sorted x ys
  end.

Definition sorted (xs : list Q) : list Q := fold_right insert_sorted [] xs.

End Num.

Import Num.

(** ** Data model

    The records below are the dictionaries the program passes around, one
    field per key.  A key the code reads with [.get(key, default)] is a
    field holding the value so read; a key whose absence the code tests
    is an [option]. *)

(** [datetime]: microseconds on the time line, and the UTC offset of an
    aware value, in microseconds. *)
Record datetime : Type := {
  dt_micros : Z;
  dt_utcoffset : option Z
}.

Record SpellCorrectionResult : Type := {
  is_influencer : bool;
  corrected_name : str;
  original_query : str;
  confidence : Q;
  reasoning : str
}.

Record NormalizationResult : Type := {
  search_name : str;
  aliases : list str;
  handles : list str;
  database_match : bool
}.

(** One entry of the [organic] list of a search response. *)
Record search_hit : Type := {
  hit_link : str;
  hit_title : str;
  hit_snippet : str
}.

Record candidate : Type := {
  c_title : str;
  c_url : str;
  c_snippet : str;
  c_fallback : bool
}.

(** The dictionary built by [parse_profile_selection_response]. *)
Record selection : Type := {
  sel_name : option str;
  sel_username : option str;
  sel_instagram_url : option str;
  sel_confidence : option Q
}.

(** What a profile scraper returns. *)
Record scraped_profile : Type := {
  sc_username : str;
  sc_name : str;
  sc_full_name : str;
  sc_bio : str;
  sc_website : str;
  sc_profile_pic_url : str;
  sc_is_verified : bool;
  sc_is_business_account : bool;
  sc_category : str;
  sc_followers_count : Z;
  sc_following_count : Z;
  sc_posts_count : Z;
  sc_instagram_url : str
}.

(** What a dictionary holds under a key where a string is expected: no
    such key, the value [None], or a string. *)
Inductive entry : Type :=
| Missing
| PyNone
| PyStr (value : str).

(** [d.get(key)] as a truth value is later taken of it: the string, or
    [None] for a missing key as for the value [None]. *)
Definition entry_get (x : entry) : option str :=
  match x with
  | PyStr value => Some value
  | Missing | PyNone => None
  end.

(** The exceptions the embedded code raises. *)
Inductive exn : Type :=
| AssertionError
| AttributeError
| TypeError
| IndexError
| RuntimeError.

(** The profile dictionary of [format_profile_data], as updated with a
    scraped profile.  [format_profile_data] always sets the [username]
    key, to [None] when the URL shows no user name; a dictionary from
    elsewhere may lack the key. *)
Record profile_info : Type := {
  pi_input : str;
  pi_name : str;
  pi_username : entry;
  pi_instagram_url : str;
  pi_confidence : Q;
  pi_reason : str;
  pi_timestamp : str;
  pi_full_name : str;
  pi_bio : str;
  pi_website : str;
  pi_profile_pic_url : str;
  pi_is_verified : bool;
  pi_is_business_account : bool;
  pi_category : str;
  pi_followers_count : Z;
  pi_following_count : Z;
  pi_posts_count : Z
}.

Record comment : Type := {
  cm_text : str;
  cm_likesCount : Z
}.

(** A post as the post scraper returns it. *)
Record raw_post : Type := {
  rp_id : str;
  rp_type : option str;
  rp_url : str;
  rp_timestamp : option str;
  rp_caption : str;
  rp_text : str;
  rp_likesCount : Z;
  rp_commentsCount : Z;
  rp_videoViewCount : Z;
  rp_videoPlayCount : Z;
  rp_latestComments : list comment;
  rp_hashtags : list str;
  rp_mentions : list str;
  rp_paidPartnership : bool;
  rp_isSponsored : bool;
  rp_ownerUsername : option str
}.

(** A post after [analyze_instagram_posts]. *)
Record post : Type := {
  p_username : str;
  p_ownerUsername : str;
  p_postId : str;
  p_postType : str;
  p_postUrl : str;
  p_timestamp : str;
  p_topic : str;
  p_likesCount : Z;
  p_commentsCount : Z;
  p_videoViewCount : Z;
  p_videoPlayCount : Z;
  p_topComment : str * Z;
  p_isAd : bool;
  p_mentions : list str;
  p_hashtags : list str
}.

Record metrics : Type := {
  m_username : str;
  m_postsAnalyzed : nat;
  m_avgEngagement_all : Q;
  m_avgEngagement_organic : Q;
  m_avgEngagement_sponsored : Q;
  m_avgLikes : Q;
  m_avgComments : Q;
  m_avgViews : Q;
  m_stdevEngagement : Q;
  m_consistencyScore : Q;
  m_organicPct : Q;
  m_postingAvgDays : option Q;
  m_commentShare : Q;
  m_commentsPer10kViews : Q;
  m_adDisclosurePct : Q;
  m_hashtagCounts : list (str * nat)
}.

Record scores : Type := {
  s_username : str;
  s_postsAnalyzed : nat;
  s_avgER_organic : Q;
  s_avgER_sponsored : Q;
  s_avgLikes : Q;
  s_avg_sponsored_likes : Q;
  s_avgComments : Q;
  s_avg_sponsored_comments : Q;
  s_avgViews : Q;
  Authenticity : Q;
  BrandSafety : Q;
  AudienceMatch : Q;
  ContentQuality : Q
}.

(** A stored profile, block by block. *)
Record basic_info : Type := {
  bi_username : str;
  bi_name : str;
  bi_full_name : str;
  bi_instagram_url : str;
  bi_bio : str;
  bi_website : str;
  bi_profile_pic_url : str;
  bi_is_verified : bool;
  bi_is_business_account : bool;
  bi_category : str;
  bi_followers_count : Z;
  bi_following_count : Z;
  bi_posts_count : Z
}.

Record posts_block : Type := {
  total_posts : nat;
  organic_posts : list post;
  sponsored_posts : list post;
  all_posts : list post
}.

Record analysis_block : Type := {
  an_metrics : option metrics;
  an_scores : option scores;
  an_engagement_rate : Q;
  an_avg_likes : Q;
  an_avg_comments : Q;
  an_avg_views : Q
}.

Record collaborations_block : Type := {
  total_sponsored_posts : nat;
  brands_worked_with : list str;
  bc_sponsored_posts : list post
}.

Record hashtags_block : Type := {
  most_used : list (str * nat);
  total_unique : nat
}.

Record mentions_block : Type := {
  most_mentioned : list (str * nat);
  total_mentions : nat
}.

Record metadata_block : Type := {
  last_scraped : str;
  scraping_source : str;
  analysis_version : str;
  md_original_query : str;
  md_spelling_corrected : option bool
}.

Record profile : Type := {
  pr_basic_info : basic_info;
  pr_posts : posts_block;
  pr_analysis : analysis_block;
  pr_brand_collaborations : collaborations_block;
  pr_hashtags : hashtags_block;
  pr_mentions : mentions_block;
  pr_metadata : metadata_block
}.

(** The JSON document of the profile store. *)
Record database : Type := {
  profiles : list (str * profile);
  db_last_updated : str;
  db_total_profiles : option nat
}.

(** The summary kept with an embedding. *)
Record summary : Type := {
  su_username : str;
  su_name : str;
  su_category : str;
  su_bio : str;
  su_top_hashtags : list str;
  su_followers : Z;
  su_engagement_rate : Q;
  su_verified : bool;
  su_brand_collaborations : list str;
  su_content_quality : Q;
  su_authenticity : Q;
  su_brand_safety : Q;
  su_audience_match : Q
}.

(** An entry of the context list of [get_available_influencers]. *)
Record known_influencer : Type := {
  ki_username : str;
  ki_name : str;
  ki_followers : Z;
  ki_source : str
}.

(** ** Dictionaries in insertion order *)

Module Dict.

Section WithValue.
Context {V : Type}.

(** [d.get(k)] *)
Fixpoint get (k : str) (d : list (str * V)) : option V :=
  match d with
  | [] => None
  | (k', v) :: d' => if Py.eqb k' k then Some v else get k d'
  end.

(** [d[k] = v]: a present key keeps its place, a new one goes last. *)
Fixpoint set (k : str) (v : V) (d : list (str * V)) : list (str * V) :=
  match d with
  | [] => [(k, v)]
  | (k', v') :: d' =>
      if Py.eqb k' k then (k, v) :: d' else (k', v') :: set k v d'
  end.

End WithValue.

(** [d[k] = d.get(k, 0) + 1] *)
Definition count (k : str) (d : list (str * nat)) : list (str * nat) :=
  set k (match get k d with Some n => n + 1 | None => 1 end) d.

End Dict.

(** ** The outside world

    Every request to an external service, every lookup in a local store
    and every write of the profile store is recorded as an event.  The
    services answer as functions of the events so far, so that a service
    may answer two equal requests differently. *)

Inductive event : Type :=
| LlmRequest (suspending : bool)
| SearchRequest (suspending : bool) (query : str)
| ScrapePosts (suspending : bool) (username : str)
| ScrapeProfile (suspending : bool) (username : str)
| ScrapeCombined (username : str)
| LookupProfiles (term : str) (found : bool)
| LookupSummaries (term : str) (found : bool)
| StoreWrite (ok : bool).

(** The flat inner-product index of the vector library. *)
Record flat_index : Type := {
  ix_d : nat;
  ix_vectors : list (list Q)
}.

Record services : Type := {
  (** config.py: is the client constructed, are the keys set *)
  openrouter_client : bool;
  OPENROUTER_API_KEY : bool;
  SERPER_API_KEY : bool;
  APIFY_API_TOKEN : bool;
  (** [datetime.fromisoformat], [datetime.isoformat] of a naive value,
      and the offset of local time *)
  fromisoformat : str -> option datetime;
  isoformat : Z -> str;
  local_utcoffset : Z;
  (** [urlparse]: host name and path, [None] when it raises *)
  urlparse : str -> option (option str * str);
  (** the sentence encoder, [None] when the model cannot be loaded, and
      the search of the vector library: scores and positions *)
  encode : str -> option (list Q);
  index_search : flat_index -> list Q -> nat -> list (Q * Z);
  (** [datetime.now()] *)
  clock : list event -> Z;
  (** one chat completion: its content, [None] after an error *)
  chat_completion : list event -> option str;
  chat_completion_async : list event -> option str;
  (** does [session_manager.get_session()] return *)
  get_session : list event -> bool;
  (** web search: the organic hits of a non-empty answer; the suspending
      form may raise ([None]) *)
  serper : list event -> option (list search_hit);
  serper_async : list event -> option (option (list search_hit));
  (** the scrapers; the suspending forms may raise ([None]) *)
  apify_posts : list event -> list raw_post;
  apify_posts_async : list event -> option (list raw_post);
  apify_profile : list event -> option scraped_profile;
  apify_profile_async : list event -> option (option scraped_profile);
  apify_combined : list event -> option scraped_profile * list raw_post;
  (** does writing the store file succeed *)
  disk_write : list event -> bool;
  (** the content of the summaries file, [None] when it cannot be read;
      the index file and the key mapping file, each [None] likewise *)
  embeddings_file : list event -> option (list (str * summary));
  index_files : list event -> option flat_index * option (list str)
}.

(** The state of the global [fast_semantic_matcher]. *)
Record matcher_state : Type := {
  influencer_data : list (str * summary);
  is_loaded : bool;
  faiss_index : option flat_index;
  username_list : list str;
  embedding_dim : nat
}.

(** The state of the global [unified_data_manager]. *)
Record manager_state : Type := {
  main_db_loaded : bool;
  embeddings_loaded : bool;
  auto_scraping_enabled : bool
}.

(** [store] is the content of the store file, [None] when there is no
    readable file. *)
Record world : Type := {
  store : option database;
  fsm : matcher_state;
  udm : manager_state;
  trace : list event
}.

Definition log (e : event) (w : world) : world :=
  {| store := store w; fsm := fsm w; udm := udm w;
     trace := trace w ++ [e] |}.

Definition with_store (d : option database) (w : world) : world :=
  {| store := d; fsm := fsm w; udm := udm w; trace := trace w |}.

Definition with_fsm (m : matcher_state) (w : world) : world :=
  {| store := store w; fsm := m; udm := udm w; trace := trace w |}.

Definition with_udm (m : manager_state) (w : world) : world :=
  {| store := store w; fsm := fsm w; udm := m; trace := trace w |}.

(** An external scrape: a request to one of the three scrapers. *)
Definition is_scrape (e : event) : bool :=
  match e with
  | ScrapePosts _ _ | ScrapeProfile _ _ | ScrapeCombined _ => true
  | _ => false
  end.

(** A lookup in one of the two local stores. *)
Definition is_lookup (e : event) : bool :=
  match e with
  | LookupProfiles _ _ | LookupSummaries _ _ => true
  | _ => false
  end.

(** ** api_clients.py: the name heuristic *)

Definition non_name_indicators : list str :=
  map s
    [ "review"; "best"; "top"; "how to"; "tutorial"; "guide"; "tips";
      "laptop"; "phone"; "camera"; "product"; "brand"; "company";
      "vs"; "comparison"; "price"; "buy"; "sell"; "discount"; "deal";
      "unboxing"; "specs"; "features"; "gaming"; "tech"; "mobile";
      "what is"; "which is"; "where to"; "when to"; "why";
      "promote my"; "advertise my"; "marketing for"; "influencers for" ]%string.

Definition len_between (lo hi : nat) (w : str) : bool :=
  (lo <=? length w) && (length w <=? hi).

Definition _looks_like_name (query0 : str) : bool :=
  let query := lower (strip query0) in
  if existsb (fun indicator => contains indicator query) non_name_indicators
  then false
  else
    let words := split query in
    match words with
    | [] => false
    | [word] =>
        (isalpha word
         || isalnum (remove_char "."%char (remove_char "_"%char word)))
        && len_between 3 20 word
    | [_; _] | [_; _; _] =>
        forallb (fun word =>
                   (isalpha word || isalpha (remove_char "'"%char word))
                   && len_between 2 15 word) words
    | [_; _; _; _] =>
        forallb (fun word => isalpha word && len_between 2 12 word) words
    | _ => false
    end.

(** ** api_clients.py: the language model client *)

Section LanguageModel.
Variable E : services.

(** The retry loop of [message_model]: an attempt that raises or yields
    no text is followed by the next one. *)
Fixpoint message_model_attempts (max_retries : nat) (w : world)
  : option str * world :=
  match max_retries with
  | O => (None, w)
  | S n =>
      let w1 := log (LlmRequest false) w in
      match chat_completion E (trace w) with
      | Some content =>
          if truthy content && truthy (strip content)
          then (Some (strip content), w1)
          else message_model_attempts n w1
      | None => message_model_attempts n w1
      end
  end.

Definition message_model (w : world) : option str * world :=
  if negb (openrouter_client E) || negb (OPENROUTER_API_KEY E)
  then (None, w)
  else message_model_attempts 3 w.

Fixpoint message_model_async_attempts (max_retries : nat) (w : world)
  : option str * world :=
  match max_retries with
  | O => (None, w)
  | S n =>
      let w1 := log (LlmRequest true) w in
      match chat_completion_async E (trace w) with
      | Some content =>
          if truthy content && truthy (strip content)
          then (Some (strip content), w1)
          else message_model_async_attempts n w1
      | None => message_model_async_attempts n w1
      end
  end.

Definition message_model_async (w : world) : option str * world :=
  if negb (OPENROUTER_API_KEY E) then (None, w)
  else message_model_async_attempts 3 w.

End LanguageModel.

(** ** api_clients.py: the spelling-correction resolver *)

Definition newline : ascii := ascii_of_nat 10.

(** [[line.strip() for line in text.split('\n') if line.strip()]] *)
Definition stripped_lines (text : str) : list str :=
  filter truthy (map strip (split_on newline text)).

(** The value a [Confidence:] line gives: the first number in it, taken
    as a percentage when above 1, brought into the unit interval; the
    confidence stays as it is when the line has no number. *)
Definition parsed_confidence (conf_str : str) (current : Q) : Q :=
  match search_number conf_str with
  | Some (int_part, frac_part) =>
      let conf_value := float_of_decimal int_part frac_part in
      let conf_value :=
        if Qltb 1 conf_value then Qred (conf_value / 100) else conf_value in
      py_min (py_max conf_value 0) 1
  | None => current
  end.

Definition spelling_line (result : SpellCorrectionResult) (line : str)
  : SpellCorrectionResult :=
  if startswith (s "Is Influencer:") line then
    let is_inf := lower (strip (replace (s "Is Influencer:") [] line)) in
    {| is_influencer := mem is_inf [s "yes"; s "true"; s "1"; s "y"];
       corrected_name := corrected_name result;
       original_query := original_query result;
       confidence := confidence result;
       reasoning := reasoning result |}
  else if startswith (s "Corrected Name:") line then
    let corrected := strip (replace (s "Corrected Name:") [] line) in
    if truthy corrected && negb (Py.eqb (lower corrected) (s "null")) then
      {| is_influencer := is_influencer result;
         corrected_name := corrected;
         original_query := original_query result;
         confidence := confidence result;
         reasoning := reasoning result |}
    else result
  else if startswith (s "Confidence:") line then
    let conf_str := strip (replace (s "Confidence:") [] line) in
    {| is_influencer := is_influencer result;
       corrected_name := corrected_name result;
       original_query := original_query result;
       confidence := parsed_confidence conf_str (confidence result);
       reasoning := reasoning result |}
  else if startswith (s "Reasoning:") line then
    {| is_influencer := is_influencer result;
       corrected_name := corrected_name result;
       original_query := original_query result;
       confidence := confidence result;
       reasoning := strip (replace (s "Reasoning:") [] line) |}
  else result.

Definition parse_spelling_correction_response
    (response_text original_query : str) : SpellCorrectionResult :=
  let result :=
    {| is_influencer := true;
       corrected_name := original_query;
       original_query := original_query;
       confidence := 1 # 2;
       reasoning := s "Parsing failed, defaulted to influencer" |} in
  if negb (truthy response_text) then result
  else fold_left spelling_line (stripped_lines response_text) result.

(** The safety check: a negative answer on a query that looks like a
    name is overridden. *)
Definition safety_check (query : str) (result : SpellCorrectionResult)
  : SpellCorrectionResult :=
  if negb (is_influencer result) && _looks_like_name query then
    {| is_influencer := true;
       corrected_name := corrected_name result;
       original_query := original_query result;
       confidence := 3 # 4;
       reasoning :=
         s "Overridden by heuristic: Appears to be a person's name" |}
  else result.

(** The answer when the model gave none. *)
Definition heuristic_decision (query : str) : SpellCorrectionResult :=
  let is_likely_name := _looks_like_name query in
  {| is_influencer := is_likely_name;
     corrected_name := query;
     original_query := query;
     confidence := if is_likely_name then 7 # 10 else 1 # 5;
     reasoning :=
       s "AI spelling correction failed, using heuristic name detection" |}.

Section Resolver.
Variable E : services.

(** [available_influencers] only enters the prompt. *)
Definition spell_correct_influencer_name
    (query : str) (available_influencers : list known_influencer)
    (w : world) : SpellCorrectionResult * world :=
  let (response, w1) := message_model E w in
  match response with
  | Some text =>
      if truthy text
      then (safety_check query (parse_spelling_correction_response text query),
            w1)
      else (heuristic_decision query, w1)
  | None => (heuristic_decision query, w1)
  end.

(** The suspending form: a session that cannot be obtained is an error
    caught like any other, answered by the heuristic. *)
Definition spell_correct_influencer_name_async
    (query : str) (available_influencers : list known_influencer)
    (w : world) : SpellCorrectionResult * world :=
  if get_session E (trace w) then
    let (response, w1) := message_model_async E w in
    match response with
    | Some text =>
        if truthy text
        then (safety_check query
                (parse_spelling_correction_response text query), w1)
        else (heuristic_decision query, w1)
    | None => (heuristic_decision query, w1)
    end
  else (heuristic_decision query, w).

End Resolver.

(** ** api_clients.py: normalization, selection and scoring answers *)

Definition space : ascii := " "%char.

(** The section of the answer the parser is in. *)
Inductive section : Type :=
| InAliases
| InHandles.

Definition normalization_defaults (original_query : str)
  : NormalizationResult :=
  {| search_name := Py.title original_query;
     aliases := [lower original_query; Py.title original_query];
     handles := [lower (remove_char space original_query);
                 lower (replace_char space "_"%char original_query)];
     database_match := false |}.

Definition normalization_line
    (state : NormalizationResult * option section) (line : str)
  : NormalizationResult * option section :=
  let (result, current_section) := state in
  let line_lower := lower line in
  if contains (s "search name:") line_lower then
    let name :=
      strip (match snd (split_once ":"%char line) with
             | Some rest => rest
             | None => []
             end) in
    if truthy name && (length name <? 100)
    then ({| search_name := name;
             aliases := aliases result;
             handles := handles result;
             database_match := database_match result |}, current_section)
    else state
  else if Py.eqb line_lower (s "aliases:") then (result, Some InAliases)
  else if Py.eqb line_lower (s "handles:") then (result, Some InHandles)
  else if startswith (s "- ") line then
    match current_section with
    | None => state
    | Some sec =>
        let item := strip (skipn 2 line) in
        if (length item <? 50) && (length (split item) <=? 4)
           && negb (mem (lower item) [s "none known"; s "none"; s "n/a"])
        then
          match sec with
          | InAliases =>
              ({| search_name := search_name result;
                  aliases := aliases result ++ [item];
                  handles := handles result;
                  database_match := database_match result |},
               current_section)
          | InHandles =>
              ({| search_name := search_name result;
                  aliases := aliases result;
                  handles := handles result ++ [item];
                  database_match := database_match result |},
               current_section)
          end
        else state
    end
  else state.

Definition parse_normalization_response
    (response_text original_query : str) : NormalizationResult :=
  let result := normalization_defaults original_query in
  if negb (truthy response_text) then result
  else
    let result :=
      fst (fold_left normalization_line (stripped_lines response_text)
             (result, None)) in
    let result :=
      if length (aliases result) <? 2
      then {| search_name := search_name result;
              aliases := [lower original_query; Py.title original_query;
                          remove_char space original_query];
              handles := handles result;
              database_match := database_match result |}
      else result in
    if length (handles result) <? 2
    then
      let base := lower (remove_char space original_query) in
      {| search_name := search_name result;
         aliases := aliases result;
         handles := [base; base ++ s "official";
                     replace_char space "_"%char base;
                     replace_char space "."%char base; base ++ s "22"];
         database_match := database_match result |}
    else result.

Definition empty_selection : selection :=
  {| sel_name := None; sel_username := None; sel_instagram_url := None;
     sel_confidence := None |}.

Definition selection_line (result : selection) (line : str) : selection :=
  if startswith (s "Name:") line then
    {| sel_name := Some (strip (replace (s "Name:") [] line));
       sel_username := sel_username result;
       sel_instagram_url := sel_instagram_url result;
       sel_confidence := sel_confidence result |}
  else if startswith (s "Username:") line then
    {| sel_name := sel_name result;
       sel_username := Some (strip (replace (s "Username:") [] line));
       sel_instagram_url := sel_instagram_url result;
       sel_confidence := sel_confidence result |}
  else if startswith (s "Instagram URL:") line then
    {| sel_name := sel_name result;
       sel_username := sel_username result;
       sel_instagram_url :=
         Some (strip (replace (s "Instagram URL:") [] line));
       sel_confidence := sel_confidence result |}
  else if startswith (s "Confidence:") line then
    let conf_str := strip (replace (s "Confidence:") [] line) in
    {| sel_name := sel_name result;
       sel_username := sel_username result;
       sel_instagram_url := sel_instagram_url result;
       sel_confidence :=
         Some (match search_number conf_str with
               | Some (int_part, frac_part) =>
                   float_of_decimal int_part frac_part
               | None => (1 # 2)%Q
               end) |}
  else result.

Definition parse_profile_selection_response (response_text : str)
  : selection :=
  if negb (truthy response_text) then empty_selection
  else fold_left selection_line (stripped_lines response_text)
         empty_selection.

(** Is the selection an empty dictionary. *)
Definition selection_is_empty (sel : selection) : bool :=
  match sel_name sel, sel_username sel, sel_instagram_url sel,
        sel_confidence sel with
  | None, None, None, None => true
  | _, _, _, _ => false
  end.

Definition with_quality_scores (sc : scores) (a b c d : Q) : scores :=
  {| s_username := s_username sc;
     s_postsAnalyzed := s_postsAnalyzed sc;
     s_avgER_organic := s_avgER_organic sc;
     s_avgER_sponsored := s_avgER_sponsored sc;
     s_avgLikes := s_avgLikes sc;
     s_avg_sponsored_likes := s_avg_sponsored_likes sc;
     s_avgComments := s_avgComments sc;
     s_avg_sponsored_comments := s_avg_sponsored_comments sc;
     s_avgViews := s_avgViews sc;
     Authenticity := a;
     BrandSafety := b;
     AudienceMatch := c;
     ContentQuality := d |}.

Definition scoring_line (sc : scores) (line : str) : scores :=
  match search_score line with
  | None => sc
  | Some (int_part, frac_part) =>
      let score_value := float_of_decimal int_part frac_part in
      let bounded := py_min 100 (py_max 0 score_value) in
      let line_lower := lower line in
      if contains (s "authenticity") line_lower then
        with_quality_scores sc bounded (BrandSafety sc) (AudienceMatch sc)
          (ContentQuality sc)
      else if contains (s "brand safety") line_lower then
        with_quality_scores sc (Authenticity sc) bounded (AudienceMatch sc)
          (ContentQuality sc)
      else if contains (s "audience match") line_lower then
        with_quality_scores sc (Authenticity sc) (BrandSafety sc) bounded
          (ContentQuality sc)
      else if contains (s "content quality") line_lower then
        with_quality_scores sc (Authenticity sc) (BrandSafety sc)
          (AudienceMatch sc) bounded
      else sc
  end.

Definition parse_scoring_response (response_text username : str)
    (metrics_data : option metrics) : scores :=
  let get {A : Type} (f : metrics -> A) (default : A) : A :=
    match metrics_data with Some m => f m | None => default end in
  let defaults :=
    {| s_username := username;
       s_postsAnalyzed := get m_postsAnalyzed 0;
       s_avgER_organic := get m_avgEngagement_organic 0%Q;
       s_avgER_sponsored := get m_avgEngagement_sponsored 0%Q;
       s_avgLikes := get m_avgLikes 0%Q;
       s_avg_sponsored_likes := 0%Q;
       s_avgComments := get m_avgComments 0%Q;
       s_avg_sponsored_comments := 0%Q;
       s_avgViews := get m_avgViews 0%Q;
       Authenticity := 75%Q;
       BrandSafety := 85%Q;
       AudienceMatch := 70%Q;
       ContentQuality := 75%Q |} in
  if negb (truthy response_text) || (length (strip response_text) <? 10)
  then defaults
  else fold_left scoring_line (stripped_lines response_text) defaults.

(** ** api_clients.py: search and scraping *)

Section Scrapers.
Variable E : services.

Definition search_google (query : str) (w : world)
  : option (list search_hit) * world :=
  if negb (SERPER_API_KEY E) then (None, w)
  else (serper E (trace w), log (SearchRequest false query) w).

(** The suspending search falls back on the blocking one when the
    session or the request raises. *)
Definition search_google_async (query : str) (w : world)
  : option (list search_hit) * world :=
  if negb (SERPER_API_KEY E) then (None, w)
  else if negb (get_session E (trace w)) then search_google query w
  else
    let w1 := log (SearchRequest true query) w in
    match serper_async E (trace w) with
    | Some answer => (answer, w1)
    | None => search_google query w1
    end.

Definition scrape_instagram_posts_primary (username : str) (w : world)
  : list raw_post * world :=
  if negb (APIFY_API_TOKEN E) then ([], w)
  else (apify_posts E (trace w), log (ScrapePosts false username) w).

Definition scrape_instagram_posts_primary_async (username : str) (w : world)
  : list raw_post * world :=
  if negb (APIFY_API_TOKEN E) then ([], w)
  else if negb (get_session E (trace w))
  then scrape_instagram_posts_primary username w
  else
    let w1 := log (ScrapePosts true username) w in
    match apify_posts_async E (trace w) with
    | Some items => (items, w1)
    | None => scrape_instagram_posts_primary username w1
    end.

Definition scrape_profile_info_only (username : str) (w : world)
  : option scraped_profile * world :=
  if negb (APIFY_API_TOKEN E) then (None, w)
  else (apify_profile E (trace w), log (ScrapeProfile false username) w).

Definition scrape_profile_info_only_async (username : str) (w : world)
  : option scraped_profile * world :=
  if negb (APIFY_API_TOKEN E) then (None, w)
  else if negb (get_session E (trace w))
  then scrape_profile_info_only username w
  else
    let w1 := log (ScrapeProfile true username) w in
    match apify_profile_async E (trace w) with
    | Some answer => (answer, w1)
    | None => scrape_profile_info_only username w1
    end.

Definition scrape_profile_and_posts_alternative (username : str) (w : world)
  : (option scraped_profile * list raw_post) * world :=
  if negb (APIFY_API_TOKEN E) then ((None, []), w)
  else (apify_combined E (trace w), log (ScrapeCombined username) w).

Definition or_else {A : Type} (x y : option A) : option A :=
  match x with Some _ => x | None => y end.

(** The blocking scrape: posts, then the profile, then the combined
    scraper when there are no posts. *)
Definition scrape_complete_instagram_profile (username : str) (w : world)
  : (option scraped_profile * list raw_post) * world :=
  if negb (APIFY_API_TOKEN E) then ((None, []), w)
  else
    let (posts_data, w1) := scrape_instagram_posts_primary username w in
    let (profile_data, w2) := scrape_profile_info_only username w1 in
    match posts_data with
    | [] =>
        let '((profile_alt, posts_alt), w3) :=
          scrape_profile_and_posts_alternative username w2 in
        ((or_else profile_data profile_alt, posts_alt), w3)
    | _ => ((profile_data, posts_data), w2)
    end.

(** The suspending scrape: profile and posts are requested together, and
    the combined scraper is tried when the profile came without posts. *)
Definition scrape_complete_instagram_profile_async (username : str)
    (w : world) : (option scraped_profile * list raw_post) * world :=
  if negb (APIFY_API_TOKEN E) then ((None, []), w)
  else
    let (profile_data, w1) := scrape_profile_info_only_async username w in
    let (posts_data, w2) := scrape_instagram_posts_primary_async username w1 in
    match posts_data, profile_data with
    | [], Some _ =>
        let '((_, posts_alt), w3) :=
          scrape_profile_and_posts_alternative username w2 in
        ((profile_data, posts_alt), w3)
    | _, _ => ((profile_data, posts_data), w2)
    end.

End Scrapers.

(** ** workflow_logic.py: post analysis, metrics and the fallback scorer *)

(** The dictionary [aggregate_post_metrics] makes of a post. *)
Record analyzed_post : Type := {
  ap_likes : Z;
  ap_comments : Z;
  ap_views : Z;
  ap_er : Q;
  ap_isAd : bool;
  ap_hashtags : list str;
  ap_mentions : list str;
  ap_ts : option Q
}.

(** [max(latest_comments, key=likesCount)]: the first comment with the
    most likes. *)
Fixpoint best_comment_from (best : comment) (rest : list comment) : comment :=
  match rest with
  | [] => best
  | c :: rest' =>
      if (cm_likesCount best <? cm_likesCount c)%Z
      then best_comment_from c rest'
      else best_comment_from best rest'
  end.

(** The engagement rate of a post: interactions per view when it has
    views, per like otherwise. *)
Definition engagement_rate (likes comments views : Z) : Q :=
  if (0 <? views)%Z
  then (inject_Z (likes + comments) / inject_Z views)%Q
  else (inject_Z (likes + comments) / inject_Z (Z.max likes 1))%Q.

(** Consecutive differences of sorted time stamps, in days. *)
Fixpoint day_gaps (timestamps : list Q) : list Q :=
  match timestamps with
  | a :: (b :: _) as rest => ((b - a) / inject_Z (24 * 3600))%Q :: day_gaps rest
  | _ => []
  end.

Definition Zsum (xs : list Z) : Z := fold_right Z.add 0%Z xs.

Definition is_positive (x : Q) : bool := Qltb 0 x.

Section WorkflowLogic.
Variable E : services.

Definition safe_parse_timestamp (timestamp_str : str) : option datetime :=
  if negb (truthy timestamp_str) then None
  else
    let text :=
      if endswith (s "Z") timestamp_str
      then replace (s "Z") (s "+00:00") timestamp_str
      else if negb (contains (s "+") timestamp_str)
              && contains (s "T") timestamp_str
           then timestamp_str ++ s "+00:00"
           else timestamp_str in
    fromisoformat E text.

(** [d.timestamp()]: seconds since the epoch; a naive value is taken in
    local time. *)
Definition unix_time (d : datetime) : Q :=
  let offset :=
    match dt_utcoffset d with
    | Some o => o
    | None => local_utcoffset E
    end in
  Qred (inject_Z (dt_micros d - offset) / inject_Z 1000000).

Definition analyze_post (w : world) (username : str) (rp : raw_post) : post :=
  let top_comment :=
    match rp_latestComments rp with
    | [] => (s "No comments found", 0%Z)
    | c :: rest =>
        let best := best_comment_from c rest in
        (cm_text best, cm_likesCount best)
    end in
  let hashtags := rp_hashtags rp in
  let is_ad :=
    existsb (fun h => Py.eqb (lower h) (s "ad")) hashtags
    || rp_paidPartnership rp || rp_isSponsored rp in
  let caption :=
    if truthy (rp_caption rp) then rp_caption rp
    else if truthy (rp_text rp) then rp_text rp
    else s "No caption" in
  let topic := firstn 100 (hd [] (split_on newline caption)) in
  {| p_username := username;
     p_ownerUsername :=
       match rp_ownerUsername rp with Some o => o | None => username end;
     p_postId := rp_id rp;
     p_postType :=
       match rp_type rp with Some ty => ty | None => s "unknown" end;
     p_postUrl := rp_url rp;
     p_timestamp :=
       match rp_timestamp rp with
       | Some ts => ts
       | None => isoformat E (clock E (trace w))
       end;
     p_topic := topic;
     p_likesCount := rp_likesCount rp;
     p_commentsCount := rp_commentsCount rp;
     p_videoViewCount := rp_videoViewCount rp;
     p_videoPlayCount := rp_videoPlayCount rp;
     p_topComment := top_comment;
     p_isAd := is_ad;
     p_mentions := rp_mentions rp;
     p_hashtags := hashtags |}.

Definition analyze_instagram_posts
    (w : world) (posts_data : list raw_post) (username : str) : list post :=
  map (analyze_post w username) posts_data.

Definition analyze_for_metrics (p : post) : analyzed_post :=
  let likes := p_likesCount p in
  let comments := p_commentsCount p in
  let views := Z.max (p_videoViewCount p) (p_videoPlayCount p) in
  {| ap_likes := likes;
     ap_comments := comments;
     ap_views := views;
     ap_er := engagement_rate likes comments views;
     ap_isAd := p_isAd p;
     ap_hashtags := p_hashtags p;
     ap_mentions := p_mentions p;
     ap_ts := option_map unix_time (safe_parse_timestamp (p_timestamp p)) |}.

(** The time stamps that are present and not zero. *)
Definition present_timestamps (aps : list analyzed_post) : list Q :=
  flat_map (fun a =>
              match ap_ts a with
              | Some ts => if Qeq_bool ts 0 then [] else [ts]
              | None => []
              end) aps.

Definition count_hashtags (aps : list analyzed_post) : list (str * nat) :=
  fold_left (fun counts a => fold_left (fun c h => Dict.count h c)
                                        (ap_hashtags a) counts)
            aps [].

(** [aggregate_post_metrics]; [None] is the empty dictionary. *)
Definition aggregate_post_metrics (posts : list post) : option metrics :=
  match posts with
  | [] => None
  | first :: _ =>
      let analyzed_posts := map analyze_for_metrics posts in
      let ers :=
        filter is_positive (map ap_er analyzed_posts) in
      let ers_org :=
        filter is_positive
          (map ap_er (filter (fun a => negb (ap_isAd a)) analyzed_posts)) in
      let ers_spon :=
        filter is_positive (map ap_er (filter ap_isAd analyzed_posts)) in
      let stdev_er := if 1 <? length ers then stdev ers else 0%Q in
      let consistency_score :=
        py_max 0 (py_min 85 (100 - stdev_er * 10)) in
      let timestamps := sorted (present_timestamps analyzed_posts) in
      let avg_days_between :=
        if 1 <? length timestamps then Some (mean (day_gaps timestamps))
        else None in
      let total_likes := Zsum (map ap_likes analyzed_posts) in
      let total_comments := Zsum (map ap_comments analyzed_posts) in
      let total_views := Zsum (map ap_views analyzed_posts) in
      Some
        {| m_username := p_username first;
           m_postsAnalyzed := length posts;
           m_avgEngagement_all :=
             match ers with [] => 0%Q | _ => mean ers end;
           m_avgEngagement_organic :=
             match ers_org with [] => 0%Q | _ => mean ers_org end;
           m_avgEngagement_sponsored :=
             match ers_spon with [] => 0%Q | _ => mean ers_spon end;
           m_avgLikes := mean (map inject_Z (map ap_likes analyzed_posts));
           m_avgComments :=
             mean (map inject_Z (map ap_comments analyzed_posts));
           m_avgViews := mean (map inject_Z (map ap_views analyzed_posts));
           m_stdevEngagement := stdev_er;
           m_consistencyScore := consistency_score;
           m_organicPct :=
             (inject_Z (Z.of_nat (length ers_org))
              / inject_Z (Z.of_nat (length posts)) * 100)%Q;
           m_postingAvgDays := avg_days_between;
           m_commentShare :=
             if (0 <? total_likes + total_comments)%Z
             then (inject_Z total_comments
                   / inject_Z (total_likes + total_comments))%Q
             else 0%Q;
           m_commentsPer10kViews :=
             if (0 <? total_views)%Z
             then (inject_Z total_comments / inject_Z total_views * 10000)%Q
             else 0%Q;
           m_adDisclosurePct := 100%Q;
           m_hashtagCounts := count_hashtags analyzed_posts |}
  end.

End WorkflowLogic.

(** [calculate_scores_manually]; the metrics may be the empty dictionary
    ([None]), read with the defaults of [.get]. *)
Definition calculate_scores_manually (metrics_data : option metrics)
    (username : str) : scores :=
  let get {A : Type} (f : metrics -> A) (default : A) : A :=
    match metrics_data with Some m => f m | None => default end in
  let consistency_score := get m_consistencyScore 75%Q in
  let comment_share := get m_commentShare 0%Q in
  let comments_per_10k_views := get m_commentsPer10kViews 0%Q in
  let hashtag_counts := get m_hashtagCounts [] in
  let authenticity := py_max 0 (py_min 100 consistency_score) in
  let brand_safety := 85%Q in
  let audience_match :=
    match hashtag_counts with [] => 70%Q | _ => 75%Q end in
  let content_quality :=
    py_max 0 (py_min 100 (60 + comment_share * 30
                          + py_min 20 (comments_per_10k_views / 5))) in
  {| s_username := username;
     s_postsAnalyzed := get m_postsAnalyzed 0;
     s_avgER_organic := py_round 6 (get m_avgEngagement_organic 0%Q);
     s_avgER_sponsored := py_round 6 (get m_avgEngagement_sponsored 0%Q);
     s_avgLikes := py_round 0 (get m_avgLikes 0%Q);
     s_avg_sponsored_likes := 0%Q;
     s_avgComments := py_round 0 (get m_avgComments 0%Q);
     s_avg_sponsored_comments := 0%Q;
     s_avgViews := py_round 0 (get m_avgViews 0%Q);
     Authenticity := py_round 1 authenticity;
     BrandSafety := py_round 1 brand_safety;
     AudienceMatch := py_round 1 audience_match;
     ContentQuality := py_round 1 content_quality |}.

(** The score formulas in the words of the specification: [clamp] brings
    a value into a closed interval. *)
Definition clamp (x lo hi : Q) : Q :=
  if Qltb x lo then lo else if Qltb hi x then hi else x.

(** The standard deviation of a list of rates, 0 when fewer than two
    rates are available. *)
Definition stdev_or_zero (rates : list Q) : Q :=
  if 2 <=? length rates then stdev rates else 0%Q.

(** The engagement rate of every post, and those that are positive. *)
Definition post_rates (posts : list post) : list Q :=
  map (fun p => engagement_rate (p_likesCount p) (p_commentsCount p)
                  (Z.max (p_videoViewCount p) (p_videoPlayCount p))) posts.

Definition positive_rates (posts : list post) : list Q :=
  filter is_positive (post_rates posts).

(** ** workflow_logic.py: the candidate filter *)

Definition slash : ascii := "/"%char.

(** [str(item.get('link', '')).split('?')[0].rstrip('/')] *)
Definition clean_link (link_text : str) : str :=
  rstrip_char slash (fst (split_once "?"%char link_text)).

(** [[seg for seg in path.split('/') if seg]] *)
Definition path_segments (path : str) : list str :=
  filter truthy (split_on slash path).

Definition is_handle_char (c : ascii) : bool :=
  is_alnum c || eqb_char c "."%char || eqb_char c "_"%char.

(** [re.match(r"^[a-z0-9._]+$", user, re.IGNORECASE)]: one or more
    handle characters up to the end, or up to a final line feed. *)
Definition handle_pattern (user : str) : bool :=
  let (body, rest) := span is_handle_char user in
  truthy body
  && match rest with
     | [] => true
     | [c] => eqb_char c newline
     | _ => false
     end.

Section CandidateFilter.
Variable E : services.

(** The handle a cleaned link points to: its host name contains the
    profile domain and its path has exactly one segment, which matches
    the handle pattern.  [None] where the loop body goes on to the next
    hit. *)
Definition profile_handle (url : str) : option str :=
  match urlparse E url with
  | None => None
  | Some (None, _) => None
  | Some (Some hostname, path) =>
      if negb (truthy hostname) || negb (contains (s "instagram.com") hostname)
      then None
      else
        match path_segments path with
        | [user] => if handle_pattern user then Some user else None
        | _ => None
        end
  end.

(** The loop over the organic hits: the handles seen and the candidates
    kept so far. *)
Definition filter_step (state : list str * list candidate) (item : search_hit)
  : list str * list candidate :=
  let (seen, candidates) := state in
  let url := clean_link (hit_link item) in
  if negb (truthy url) then state
  else
    match profile_handle url with
    | None => state
    | Some user =>
        if mem (lower user) seen then state
        else (lower user :: seen,
              candidates ++ [{| c_title := hit_title item;
                                c_url := url;
                                c_snippet := hit_snippet item;
                                c_fallback := false |}])
    end.

Definition strict_candidates (organic_results : list search_hit)
  : list candidate :=
  snd (fold_left filter_step organic_results ([], [])).

(** The first hit whose link mentions the profile domain. *)
Definition first_instagram_hit (organic_results : list search_hit)
  : option search_hit :=
  find (fun i => contains (s "instagram.com/") (hit_link i)) organic_results.

Definition build_search_query_and_filter_candidates
    (norm_data : NormalizationResult) (fallback_query : str)
    (organic_results : list search_hit) : str * list candidate :=
  let search_name := strip (search_name norm_data) in
  let terms :=
    dedup (filter (fun term => truthy term && truthy (strip term))
                  (search_name :: aliases norm_data ++ handles norm_data)) in
  let search_query :=
    match terms with
    | [] => fallback_query
    | _ => join (s " OR ") terms
    end in
  let candidates := strict_candidates organic_results in
  let candidates :=
    match candidates, organic_results with
    | [], _ :: _ =>
        match first_instagram_hit organic_results with
        | Some first_ig =>
            [{| c_title := hit_title first_ig;
                c_url := clean_link (hit_link first_ig);
                c_snippet := hit_snippet first_ig;
                c_fallback := true |}]
        | None => []
        end
    | _, _ => candidates
    end in
  (search_query, candidates).

(** The lower-case handle of a candidate, by which hits are told apart. *)
Definition candidate_handle (c : candidate) : option str :=
  option_map lower (profile_handle (c_url c)).

End CandidateFilter.

(** ** A model of [urllib.parse.urlparse]

    Host name and path of a URL as the standard library computes them:
    leading control characters and blanks go, as do tabs and line breaks;
    a scheme is a letter followed by letters, digits, [+], [-] or [.]
    before the first colon; the network location follows [//] up to the
    next [/], [?] or [#]; fragment, query and parameters are cut off the
    path.  The host name is what follows the last [@] of the network
    location, up to a colon (or between brackets), in lower case. *)

Module UrlModel.

Definition is_scheme_char (c : ascii) : bool :=
  is_alnum c || eqb_char c "+"%char || eqb_char c "-"%char
  || eqb_char c "."%char.

Definition is_c0_or_space (c : ascii) : bool := code c <=? 32.

Fixpoint lstrip_c0 (x : str) : str :=
  match x with
  | [] => []
  | c :: x' => if is_c0_or_space c then lstrip_c0 x' else x
  end.

Definition is_unsafe (c : ascii) : bool :=
  (code c =? 9) || (code c =? 10) || (code c =? 13).

Definition is_netloc_end (c : ascii) : bool :=
  eqb_char c "/"%char || eqb_char c "?"%char || eqb_char c "#"%char.

Definition uses_params : list str :=
  map s [ ""; "ftp"; "hdl"; "prospero"; "http"; "imap"; "https"; "shttp";
          "rtsp"; "rtspu"; "sip"; "sips"; "mms"; "sftp"; "tel" ]%string.

(** The part of [x] after the last [c], all of [x] when there is none. *)
Fixpoint after_last (c : ascii) (x : str) : str :=
  match x with
  | [] => []
  | d :: x' =>
      if eqb_char d c && negb (existsb (eqb_char c) x') then x'
      else if existsb (eqb_char c) x then after_last c x'
      else x
  end.

(** The part of [x] from the last [c] on, nothing when there is none. *)
Fixpoint from_last (c : ascii) (x : str) : str :=
  match x with
  | [] => []
  | d :: x' =>
      if existsb (eqb_char c) x' then from_last c x'
      else if eqb_char d c then x else []
  end.

Definition split_params (url : str) : str :=
  let tail := if existsb (eqb_char slash) url then from_last slash url
              else url in
  if existsb (eqb_char ";"%char) tail
  then firstn (length url - length tail) url
       ++ fst (split_once ";"%char tail)
  else url.

Definition hostname_of (netloc : str) : option str :=
  let hostinfo := after_last "@"%char netloc in
  let hostname :=
    match split_once "["%char hostinfo with
    | (_, Some bracketed) => fst (split_once "]"%char bracketed)
    | (_, None) => fst (split_once ":"%char hostinfo)
    end in
  match hostname with
  | [] => None
  | _ =>
      match split_once "%"%char hostname with
      | (h, Some zone) => Some (lower h ++ "%"%char :: zone)
      | (h, None) => Some (lower h)
      end
  end.

Definition urlparse_model (url0 : str) : option (option str * str) :=
  let url := filter (fun c => negb (is_unsafe c)) (lstrip_c0 url0) in
  let (scheme, url) :=
    match split_once ":"%char url with
    | (c :: pre, Some post) =>
        if is_alpha c && forallb is_scheme_char (c :: pre)
        then (lower (c :: pre), post)
        else ([], url)
    | _ => ([], url)
    end in
  let (netloc, url) :=
    if startswith (s "//") url
    then span (fun c => negb (is_netloc_end c)) (skipn 2 url)
    else ([], url) in
  if xorb (existsb (eqb_char "["%char) netloc)
          (existsb (eqb_char "]"%char) netloc)
  then None
  else
    let url := fst (split_once "#"%char url) in
    let url := fst (split_once "?"%char url) in
    let path := if mem scheme uses_params then split_params url else url in
    Some (hostname_of netloc, path).

End UrlModel.

(** ** A scripted environment

    Services whose answers are fixed in advance, to run the pipeline on
    examples: no vector library, a store file that can be written, and
    every scraper silent unless scripted. *)

Module Scripted.

(** [fromisoformat] on the few time stamps the examples use. *)
Definition known_timestamps : list (str * datetime) :=
  [ (s "2024-03-01T12:00:00",
     {| dt_micros := 1709294400000000; dt_utcoffset := None |});
    (s "2024-03-08T11:59:59",
     {| dt_micros := 1709899199000000; dt_utcoffset := None |});
    (s "2024-03-08T12:00:00",
     {| dt_micros := 1709899200000000; dt_utcoffset := None |});
    (s "2024-03-08T12:00:01",
     {| dt_micros := 1709899201000000; dt_utcoffset := None |});
    (s "2024-03-08T12:00:00+00:00",
     {| dt_micros := 1709899200000000; dt_utcoffset := Some 0%Z |}) ].

Definition isoformat_of (micros : Z) : str :=
  match find (fun kv => (dt_micros (snd kv) =? micros)%Z
                        && match dt_utcoffset (snd kv) with
                           | None => true
                           | Some _ => false
                           end) known_timestamps with
  | Some kv => fst kv
  | None => s "1970-01-01T00:00:00"
  end.

Definition services_with
    (now : Z)
    (chat : list event -> option str)
    (search : list event -> option (list search_hit))
    (profile_scraper : list event -> option scraped_profile)
    (post_scraper : list event -> list raw_post) : services :=
  {| openrouter_client := true;
     OPENROUTER_API_KEY := true;
     SERPER_API_KEY := true;
     APIFY_API_TOKEN := true;
     fromisoformat := fun text => Dict.get text known_timestamps;
     isoformat := isoformat_of;
     local_utcoffset := 0%Z;
     urlparse := UrlModel.urlparse_model;
     encode := fun _ => Some [];
     index_search := fun _ _ _ => [];
     clock := fun _ => now;
     chat_completion := chat;
     chat_completion_async := chat;
     get_session := fun _ => true;
     serper := search;
     serper_async := fun h => Some (search h);
     apify_posts := post_scraper;
     apify_posts_async := fun h => Some (post_scraper h);
     apify_profile := profile_scraper;
     apify_profile_async := fun h => Some (profile_scraper h);
     apify_combined := fun _ => (None, []);
     disk_write := fun _ => true;
     embeddings_file := fun _ => None;
     index_files := fun _ => (None, None) |}.

(** Every service silent, at noon on 8 March 2024. *)
Definition quiet : services :=
  services_with 1709899200000000%Z (fun _ => None) (fun _ => None)
    (fun _ => None) (fun _ => []).

End Scripted.

(** ** database.py: the profile store *)

(** [sorted(counts.items(), key=lambda x: x[1], reverse=True)]: by
    descending count, entries of equal count in their original order. *)
Fixpoint insert_by_count (x : str * nat) (l : list (str * nat))
  : list (str * nat) :=
  match l with
  | [] => [x]
  | y :: ys =>
      if snd x <? snd y then y :: insert_by_count x ys else x :: l
  end.

Definition sorted_by_count (counts : list (str * nat)) : list (str * nat) :=
  fold_right insert_by_count [] counts.

Definition count_all (items : list str) (counts : list (str * nat))
  : list (str * nat) :=
  fold_left (fun c h => Dict.count h c) items counts.

(** Seven days, in microseconds. *)
Definition seven_days : Z := (7 * 24 * 3600 * 1000000)%Z.

Section Database.
Variable E : services.

Definition now_iso (w : world) : str := isoformat E (clock E (trace w)).

(** [get_database]: the document of the store file, an empty one when
    the file is missing or cannot be read. *)
Definition get_database (w : world) : database :=
  match store w with
  | Some d => d
  | None =>
      {| profiles := []; db_last_updated := now_iso w;
         db_total_profiles := None |}
  end.

(** [save_database]: a write that fails leaves the file as it was. *)
Definition save_database (data : database) (w : world) : bool * world :=
  let stamped :=
    {| profiles := profiles data; db_last_updated := now_iso w;
       db_total_profiles := db_total_profiles data |} in
  if disk_write E (trace w)
  then (true, log (StoreWrite true) (with_store (Some stamped) w))
  else (false, log (StoreWrite false) w).

(** [check_profile_exists]: whether a fresh record is stored, and the
    record.  The age is the difference of two naive values; an aware time
    stamp cannot be subtracted from [datetime.now()], which raises like a
    time stamp that does not parse. *)
Definition check_profile_exists (username : str) (w : world)
  : bool * option profile :=
  let db := get_database w in
  match Dict.get (lower username) (profiles db) with
  | None => (false, None)
  | Some profile_data =>
      match fromisoformat E (last_scraped (pr_metadata profile_data)) with
      | Some {| dt_micros := scraped; dt_utcoffset := None |} =>
          if (clock E (trace w) - scraped <? seven_days)%Z
          then (true, Some profile_data)
          else (false, Some profile_data)
      | _ => (false, Some profile_data)
      end
  end.

Definition get_profile_from_cache (username : str) (w : world)
  : option profile :=
  Dict.get (lower username) (profiles (get_database w)).

(** The record [insert_complete_profile] builds; it is built only for a
    user name that is a non-empty string. *)
Definition complete_profile (profile_info : profile_info)
    (posts_data : list post) (metrics_data : option metrics)
    (scores_data : option scores) (w : world) : profile :=
  let from_metrics (f : metrics -> Q) : Q :=
    match metrics_data with Some m => f m | None => 0%Q end in
  let sponsored := filter p_isAd posts_data in
  let organic := filter (fun p => negb (p_isAd p)) posts_data in
  let hashtag_counts :=
    fold_left (fun c p => count_all (p_hashtags p) c) posts_data [] in
  let mention_counts :=
    fold_left (fun c p => count_all (p_mentions p) c) posts_data [] in
  {| pr_basic_info :=
       {| bi_username :=
            match pi_username profile_info with
            | PyStr value => value
            | Missing | PyNone => []
            end;
          bi_name := pi_name profile_info;
          bi_full_name := pi_full_name profile_info;
          bi_instagram_url := pi_instagram_url profile_info;
          bi_bio := pi_bio profile_info;
          bi_website := pi_website profile_info;
          bi_profile_pic_url := pi_profile_pic_url profile_info;
          bi_is_verified := pi_is_verified profile_info;
          bi_is_business_account := pi_is_business_account profile_info;
          bi_category := pi_category profile_info;
          bi_followers_count := pi_followers_count profile_info;
          bi_following_count := pi_following_count profile_info;
          bi_posts_count := pi_posts_count profile_info |};
     pr_posts :=
       {| total_posts := length posts_data;
          organic_posts := organic;
          sponsored_posts := sponsored;
          all_posts := posts_data |};
     pr_analysis :=
       {| an_metrics := metrics_data;
          an_scores := scores_data;
          an_engagement_rate := from_metrics m_avgEngagement_all;
          an_avg_likes := from_metrics m_avgLikes;
          an_avg_comments := from_metrics m_avgComments;
          an_avg_views := from_metrics m_avgViews |};
     pr_brand_collaborations :=
       {| total_sponsored_posts := length sponsored;
          brands_worked_with := dedup (flat_map p_mentions sponsored);
          bc_sponsored_posts := sponsored |};
     pr_hashtags :=
       {| most_used := firstn 20 (sorted_by_count hashtag_counts);
          total_unique := length hashtag_counts |};
     pr_mentions :=
       {| most_mentioned := firstn 20 (sorted_by_count mention_counts);
          total_mentions := fold_right Nat.add 0 (map snd mention_counts) |};
     pr_metadata :=
       {| last_scraped := now_iso w;
          scraping_source := s "apify";
          analysis_version := s "1.0";
          md_original_query := pi_input profile_info;
          md_spelling_corrected := None |} |}.

(** [profile_info.get("username", "").lower()]: the default stands in
    for a missing key only; on the value [None] the call of [lower]
    raises. *)
Definition username_key (profile_info : profile_info) : exn + str :=
  match pi_username profile_info with
  | Missing => inr (lower [])
  | PyNone => inl AttributeError
  | PyStr value => inr (lower value)
  end.

(** [insert_complete_profile]: the answer and the world after it, or the
    exception raised before anything is read or written. *)
Definition insert_complete_profile (profile_info : profile_info)
    (posts_data : list post) (metrics_data : option metrics)
    (scores_data : option scores) (w : world) : exn + bool * world :=
  match username_key profile_info with
  | inl e => inl e
  | inr username =>
      if negb (truthy username) then inr (false, w)
      else
        let db := get_database w in
        let profile_data :=
          complete_profile profile_info posts_data metrics_data scores_data
            w in
        let stored := Dict.set username profile_data (profiles db) in
        inr (save_database
               {| profiles := stored;
                  db_last_updated := db_last_updated db;
                  db_total_profiles := Some (length stored) |} w)
  end.

End Database.

(** ** fast_semantic_matcher.py: the vector index *)

(** The values the sanity checks of [build_faiss_index] compare: an
    integer, or a tuple of integers such as the shape of an array. *)
Inductive pyval : Type :=
| PInt (n : Z)
| PTuple (items : list Z).

(** An array: its shape, whether its element type is [float32], and the
    rows of a matrix. *)
Record ndarray : Type := {
  nd_shape : list Z;
  nd_float32 : bool;
  nd_rows : list (list Q)
}.

Fixpoint tuple_gt (a b : list Z) : bool :=
  match a, b with
  | x :: a', y :: b' =>
      if (y <? x)%Z then true
      else if (x <? y)%Z then false
      else tuple_gt a' b'
  | _ :: _, [] => true
  | [], _ => false
  end.

(** [a > b]: integers and tuples are ordered among themselves; the
    comparison of a tuple with an integer raises. *)
Definition py_gt (a b : pyval) : exn + bool :=
  match a, b with
  | PInt x, PInt y => inr (y <? x)%Z
  | PTuple xs, PTuple ys => inr (tuple_gt xs ys)
  | _, _ => inl TypeError
  end.

(** [a == b]: a tuple and an integer are different. *)
Definition py_equal (a b : pyval) : bool :=
  match a, b with
  | PInt x, PInt y => (x =? y)%Z
  | PTuple xs, PTuple ys =>
      (length xs =? length ys)
      && forallb (fun xy => (fst xy =? snd xy)%Z) (combine xs ys)
  | _, _ => false
  end.

(** [t[i]] on a tuple or list; a negative index counts from the end. *)
Definition py_index {A : Type} (t : list A) (i : Z) : exn + A :=
  let n := Z.of_nat (length t) in
  let j := if (i <? 0)%Z then (n + i)%Z else i in
  if ((j <? 0) || (n <=? j))%Z then inl IndexError
  else
    match nth_error t (Z.to_nat j) with
    | Some x => inr x
    | None => inl IndexError
    end.

(** [faiss.normalize_L2]: every row with a non-zero norm is divided by
    its norm. *)
Definition normalize_row (row : list Q) : list Q :=
  let norm := float_sqrt (Qsum (map (fun x => x * x)%Q row)) in
  if Qeq_bool norm 0 then row else map (fun x => Qred (x / norm)) row.

Definition normalize_L2 (a : ndarray) : ndarray :=
  {| nd_shape := nd_shape a; nd_float32 := nd_float32 a;
     nd_rows := map normalize_row (nd_rows a) |}.

(** [index.ntotal] *)
Definition ntotal (index : flat_index) : nat := length (ix_vectors index).

Definition build_faiss_index (self : matcher_state)
    (embeddings : ndarray) (usernames : list str) : exn + matcher_state :=
  let embeddings :=
    if nd_float32 embeddings then embeddings
    else {| nd_shape := nd_shape embeddings; nd_float32 := true;
            nd_rows := nd_rows embeddings |} in
  let shape := nd_shape embeddings in
  if negb (length shape =? 2) then inl AssertionError
  else
    match py_gt (PTuple shape) (PInt 0) with
    | inl e => inl e
    | inr positive =>
        match (if positive
               then match py_index shape 18 with
                    | inl e => inl e
                    | inr d => py_gt (PInt d) (PInt 0)
                    end
               else inr false) with
        | inl e => inl e
        | inr false => inl AssertionError
        | inr true =>
            if negb (py_equal (PInt (Z.of_nat (length usernames)))
                              (PTuple shape))
            then inl AssertionError
            else
              let embeddings := normalize_L2 embeddings in
              match py_index (nd_shape embeddings) 18 with
              | inl e => inl e
              | inr d =>
                  let index :=
                    {| ix_d := Z.to_nat d;
                       ix_vectors := nd_rows embeddings |} in
                  inr {| influencer_data := influencer_data self;
                         is_loaded := is_loaded self;
                         faiss_index := Some index;
                         username_list := usernames;
                         embedding_dim := Z.to_nat d |}
              end
        end
    end.

Section VectorSearch.
Variable E : services.

(** The loop of [search_by_text] over the scores and positions of the
    hits: the sentinel [-1] and a position at or beyond the end of the
    key array are passed over. *)
Fixpoint collect_hits (keys : list str) (hits : list (Q * Z))
  : exn + list (str * Q) :=
  match hits with
  | [] => inr []
  | (score, idx) :: rest =>
      if (idx =? -1)%Z then collect_hits keys rest
      else if (Z.of_nat (length keys) <=? idx)%Z then collect_hits keys rest
      else
        match py_index keys idx with
        | inl e => inl e
        | inr username =>
            match collect_hits keys rest with
            | inl e => inl e
            | inr results => inr ((username, score) :: results)
            end
        end
  end.

Definition search_by_text (self : matcher_state) (text : str) (top_k : nat)
  : exn + list (str * Q) :=
  match faiss_index self, username_list self with
  | None, _ | _, [] => inr []
  | Some index, keys =>
      match encode E text with
      | None => inl RuntimeError
      | Some q_vec => collect_hits keys (index_search E index q_vec top_k)
      end
  end.

End VectorSearch.

(** ** workflow_logic.py: the selected profile *)

Definition is_url_delimiter (c : ascii) : bool :=
  eqb_char c "/"%char || eqb_char c "?"%char || eqb_char c "#"%char.

(** [re.search(r"instagram\.com\/([^\/?#]+)", url, re.IGNORECASE)]: the
    text after the leftmost mention of the domain that a character other
    than [/], [?] and [#] follows, up to the next of these. *)
Fixpoint search_instagram_username (url : str) : option str :=
  match url with
  | [] => None
  | _ :: rest =>
      if Py.eqb (lower (firstn 14 url)) (s "instagram.com/") then
        match fst (span (fun c => negb (is_url_delimiter c)) (skipn 14 url))
        with
        | [] => search_instagram_username rest
        | username => Some username
        end
      else search_instagram_username rest
  end.

(** [re.match(r"^https?:\/\/", url, re.IGNORECASE)] *)
Definition has_http_scheme (url : str) : bool :=
  startswith (s "http://") (lower url)
  || startswith (s "https://") (lower url).

Definition update_with_scraped (profile_data : profile_info)
    (scraped : scraped_profile) : profile_info :=
  {| pi_input := pi_input profile_data;
     pi_name := sc_name scraped;
     pi_username := PyStr (sc_username scraped);
     pi_instagram_url := sc_instagram_url scraped;
     pi_confidence := pi_confidence profile_data;
     pi_reason := pi_reason profile_data;
     pi_timestamp := pi_timestamp profile_data;
     pi_full_name := sc_full_name scraped;
     pi_bio := sc_bio scraped;
     pi_website := sc_website scraped;
     pi_profile_pic_url := sc_profile_pic_url scraped;
     pi_is_verified := sc_is_verified scraped;
     pi_is_business_account := sc_is_business_account scraped;
     pi_category := sc_category scraped;
     pi_followers_count := sc_followers_count scraped;
     pi_following_count := sc_following_count scraped;
     pi_posts_count := sc_posts_count scraped |}.

(** The scores of a profile without posts. *)
Definition profile_only_scores (username : str) : scores :=
  {| s_username := username;
     s_postsAnalyzed := 0;
     s_avgER_organic := 0%Q;
     s_avgER_sponsored := 0%Q;
     s_avgLikes := 0%Q;
     s_avg_sponsored_likes := 0%Q;
     s_avgComments := 0%Q;
     s_avg_sponsored_comments := 0%Q;
     s_avgViews := 0%Q;
     Authenticity := 70%Q;
     BrandSafety := 85%Q;
     AudienceMatch := 60%Q;
     ContentQuality := 65%Q |}.

Definition all_scores_zero (sc : scores) : bool :=
  Qeq_bool (Authenticity sc) 0 && Qeq_bool (BrandSafety sc) 0
  && Qeq_bool (AudienceMatch sc) 0 && Qeq_bool (ContentQuality sc) 0.

Definition or_empty (x : option str) : str :=
  match x with Some v => v | None => [] end.

Section Orchestrator.
Variable E : services.

Definition format_profile_data (selected_profile : selection)
    (original_query : str) (w : world) : profile_info :=
  let url := or_empty (sel_instagram_url selected_profile) in
  let url :=
    if truthy url then
      let url :=
        if has_http_scheme url then url
        else s "https://" ++ lstrip_char slash url in
      if endswith (s "/") url then url else url ++ s "/"
    else url in
  {| pi_input := original_query;
     pi_name := or_empty (sel_name selected_profile);
     pi_username :=
       match (if truthy url then search_instagram_username url else None)
       with
       | Some username => PyStr username
       | None => PyNone
       end;
     pi_instagram_url := url;
     pi_confidence :=
       match sel_confidence selected_profile with
       | Some c => c
       | None => 0%Q
       end;
     pi_reason := [];
     pi_timestamp := now_iso E w;
     pi_full_name := [];
     pi_bio := [];
     pi_website := [];
     pi_profile_pic_url := [];
     pi_is_verified := false;
     pi_is_business_account := false;
     pi_category := [];
     pi_followers_count := 0%Z;
     pi_following_count := 0%Z;
     pi_posts_count := 0%Z |}.

(** ** main.py: the orchestrator *)

(** Steps 1 to 5 of [run_workflow]: normalize the query, search, filter
    the candidates, select one and format it.  The result is the profile
    dictionary and its user name, [None] where the workflow gives up. *)
Definition select_profile (chat_message : str) (w : world)
  : option (profile_info * str) * world :=
  let (normalized_text, w1) := message_model E w in
  let unparsed :=
    {| search_name := chat_message; aliases := []; handles := [];
       database_match := false |} in
  let normalized_data :=
    match normalized_text with
    | Some text =>
        if truthy text then parse_normalization_response text chat_message
        else unparsed
    | None => unparsed
    end in
  let (search_results, w2) :=
    search_google E (search_name normalized_data) w1 in
  match search_results with
  | None => (None, w2)
  | Some organic_results =>
      let (search_query, candidates) :=
        build_search_query_and_filter_candidates E normalized_data
          chat_message organic_results in
      match candidates with
      | [] => (None, w2)
      | first_candidate :: _ =>
          let (selection_text, w3) := message_model E w2 in
          let first_choice :=
            {| sel_name := Some chat_message;
               sel_username :=
                 Some (last (split_on slash (c_url first_candidate)) []);
               sel_instagram_url := Some (c_url first_candidate);
               sel_confidence := Some (1 # 2)%Q |} in
          let selected_profile :=
            match selection_text with
            | Some text =>
                if truthy text then parse_profile_selection_response text
                else first_choice
            | None => first_choice
            end in
          if selection_is_empty selected_profile
             || negb (truthy (or_empty (sel_instagram_url selected_profile)))
          then (None, w3)
          else
            let profile_data :=
              format_profile_data selected_profile chat_message w3 in
            match entry_get (pi_username profile_data) with
            | Some username =>
                if truthy username then (Some (profile_data, username), w3)
                else (None, w3)
            | None => (None, w3)
            end
      end
  end.

(** Steps 7 to 11: scrape, analyze, aggregate, score and persist, then
    read the persisted record back.  An exception of the insertion ends
    in the handler of [run_workflow], which returns [None]. *)
Definition enrich (profile_data : profile_info) (username : str) (w : world)
  : option profile * world :=
  let '((scraped_profile, posts_raw), w1) :=
    scrape_complete_instagram_profile E username w in
  match scraped_profile, posts_raw with
  | None, [] => (None, w1)
  | _, _ =>
      let profile_data :=
        match scraped_profile with
        | Some scraped => update_with_scraped profile_data scraped
        | None => profile_data
        end in
      let '(analyzed_posts, metrics_data, scores_data, w2) :=
        match posts_raw with
        | [] => ([], None, profile_only_scores username, w1)
        | _ =>
            let analyzed_posts :=
              analyze_instagram_posts E w1 posts_raw username in
            let metrics_data := aggregate_post_metrics E analyzed_posts in
            let (scoring_text, w2) := message_model E w1 in
            let scores_data :=
              match scoring_text with
              | Some text =>
                  if truthy text
                  then parse_scoring_response text username metrics_data
                  else calculate_scores_manually metrics_data username
              | None => calculate_scores_manually metrics_data username
              end in
            (analyzed_posts, metrics_data, scores_data, w2)
        end in
      let scores_data :=
        if all_scores_zero scores_data
        then calculate_scores_manually metrics_data username
        else scores_data in
      match insert_complete_profile E profile_data analyzed_posts
              metrics_data (Some scores_data) w2 with
      | inl _ => (None, w2)
      | inr (success, w3) =>
          if success then (get_profile_from_cache E username w3, w3)
          else (None, w3)
      end
  end.

Definition run_workflow (chat_message : str) (w : world)
  : option profile * world :=
  if negb (truthy chat_message) || negb (truthy (strip chat_message))
  then (None, w)
  else
    match select_profile chat_message w with
    | (None, w1) => (None, w1)
    | (Some (profile_data, username), w1) =>
        match check_profile_exists E username w1 with
        | (true, Some cached_data) => (Some cached_data, w1)
        | _ => enrich profile_data username w1
        end
    end.

End Orchestrator.

(** ** api_clients.py: normalization with the known influencers *)

Section Normalization.
Variable E : services.

Definition known_name (inf : known_influencer) : list str :=
  if truthy (ki_name inf)
  then [ki_name inf ++ s " (@" ++ ki_username inf ++ s ")"]
  else [].

Definition enhanced_influencer_normalization (query : str)
    (available_influencers : list known_influencer) (w : world)
  : NormalizationResult * world :=
  let known_names := flat_map known_name (firstn 30 available_influencers) in
  let (response, w1) := message_model E w in
  let fallback :=
    {| search_name := Py.title query;
       aliases := [lower query; Py.title query; remove_char space query;
                   replace_char space "_"%char query];
       handles := [lower (remove_char space query);
                   lower (replace_char space "_"%char query);
                   lower (replace_char space "."%char query);
                   lower (remove_char space query) ++ s "official";
                   lower (remove_char space query) ++ s "22"];
       database_match := false |} in
  match response with
  | Some text =>
      if truthy text then
        let normalized := parse_normalization_response text query in
        if existsb (fun known => contains (lower query) (lower known))
                   known_names
        then ({| search_name := search_name normalized;
                 aliases := aliases normalized;
                 handles := handles normalized;
                 database_match := true |}, w1)
        else (normalized, w1)
      else (fallback, w1)
  | None => (fallback, w1)
  end.

End Normalization.

(** ** unified_data_manager.py: the two local stores *)

Definition _generate_username_variations (name : str) : list str :=
  let name_clean := strip (lower name) in
  let joined := remove_char space name_clean in
  dedup [ joined;
          replace_char space "."%char name_clean;
          replace_char space "_"%char name_clean;
          joined ++ s "22";
          joined ++ s "official";
          joined ++ s "real";
          s "official" ++ joined;
          s "real" ++ joined;
          joined ++ s "vlogs";
          joined ++ s "youtube" ].

(** Does a word of the search term, longer than two characters, occur
    among the words of the name; asked only of terms of several words. *)
Definition shares_a_word (search_lower : str) (name_words : list str) : bool :=
  let search_words := split search_lower in
  (1 <? length search_words)
  && existsb (fun word => (2 <? length word) && mem word name_words)
             search_words.

Definition name_matches (search_lower stored_name stored_full_name : str)
  : bool :=
  Py.eqb search_lower stored_name || Py.eqb search_lower stored_full_name
  || (truthy stored_name
      && (contains search_lower stored_name
          || contains stored_name search_lower))
  || (truthy stored_full_name
      && (contains search_lower stored_full_name
          || contains stored_full_name search_lower))
  || shares_a_word search_lower (split stored_name ++ split stored_full_name).

Definition summary_matches (search_term : str) (entry : str * summary)
  : bool :=
  let (username, influencer_data) := entry in
  let search_lower := lower search_term in
  let stored_name := lower (su_name influencer_data) in
  let username_lower := lower username in
  Py.eqb username_lower search_lower
  || mem username_lower (map lower (_generate_username_variations search_term))
  || (truthy stored_name
      && (Py.eqb search_lower stored_name
          || contains search_lower stored_name
          || contains stored_name search_lower
          || shares_a_word search_lower (split stored_name))).

Definition _convert_embeddings_to_main_format (embeddings_data : summary)
    (username : str) : profile :=
  {| pr_basic_info :=
       {| bi_username := username;
          bi_name := su_name embeddings_data;
          bi_full_name := su_name embeddings_data;
          bi_instagram_url := s "https://instagram.com/" ++ username ++ s "/";
          bi_bio := su_bio embeddings_data;
          bi_website := [];
          bi_profile_pic_url := [];
          bi_is_verified := su_verified embeddings_data;
          bi_is_business_account := false;
          bi_category := su_category embeddings_data;
          bi_followers_count := su_followers embeddings_data;
          bi_following_count := 0%Z;
          bi_posts_count := 0%Z |};
     pr_posts :=
       {| total_posts := 0; organic_posts := []; sponsored_posts := [];
          all_posts := [] |};
     pr_analysis :=
       {| an_metrics := None;
          an_scores :=
            Some (with_quality_scores (profile_only_scores username)
                    (su_authenticity embeddings_data)
                    (su_brand_safety embeddings_data)
                    (su_audience_match embeddings_data)
                    (su_content_quality embeddings_data));
          an_engagement_rate := su_engagement_rate embeddings_data;
          an_avg_likes := 0%Q;
          an_avg_comments := 0%Q;
          an_avg_views := 0%Q |};
     pr_brand_collaborations :=
       {| total_sponsored_posts := 0;
          brands_worked_with := su_brand_collaborations embeddings_data;
          bc_sponsored_posts := [] |};
     pr_hashtags :=
       {| most_used :=
            fold_left (fun d tag => Dict.set tag 1 d)
                      (firstn 10 (su_top_hashtags embeddings_data)) [];
          total_unique := length (su_top_hashtags embeddings_data) |};
     pr_mentions := {| most_mentioned := []; total_mentions := 0 |};
     pr_metadata :=
       {| last_scraped := s "From embeddings database";
          scraping_source := s "embeddings";
          analysis_version := s "1.0";
          md_original_query := [];
          md_spelling_corrected := Some true |} |}.

(** The outcome of a search: found or not, the record, and its source. *)
Definition outcome : Type := bool * option profile * str.

Definition failed (reason : string) : outcome := (false, None, s reason).

Section Manager.
Variable E : services.

Definition set_matcher (data : list (str * summary)) (loaded : bool)
    (index : option flat_index) (keys : list str) (w : world) : world :=
  with_fsm {| influencer_data := data; is_loaded := loaded;
              faiss_index := index; username_list := keys;
              embedding_dim := embedding_dim (fsm w) |} w.

(** [load_faiss_index], inside the [try] of its caller: the index is set
    once its file is read, the keys once the mapping is read. *)
Definition load_faiss_index (w : world) : world :=
  match index_files E (trace w) with
  | (None, _) => w
  | (Some index, None) =>
      set_matcher (influencer_data (fsm w)) (is_loaded (fsm w)) (Some index)
        (username_list (fsm w)) w
  | (Some index, Some keys) =>
      set_matcher (influencer_data (fsm w)) (is_loaded (fsm w)) (Some index)
        keys w
  end.

Definition load_precomputed_embeddings (w : world) : world :=
  match embeddings_file E (trace w) with
  | Some data =>
      load_faiss_index
        (set_matcher data true (faiss_index (fsm w)) (username_list (fsm w)) w)
  | None =>
      set_matcher (influencer_data (fsm w)) false (faiss_index (fsm w))
        (username_list (fsm w)) w
  end.

Definition ensure_all_data_loaded (w : world) : world :=
  let w1 :=
    if embeddings_loaded (udm w) then w
    else
      let w' := load_precomputed_embeddings w in
      with_udm {| main_db_loaded := main_db_loaded (udm w');
                  embeddings_loaded := is_loaded (fsm w');
                  auto_scraping_enabled := auto_scraping_enabled (udm w') |}
        w' in
  with_udm {| main_db_loaded := true;
              embeddings_loaded := embeddings_loaded (udm w1);
              auto_scraping_enabled := auto_scraping_enabled (udm w1) |} w1.

Definition get_available_influencers (w : world)
  : list known_influencer * world :=
  let w1 := ensure_all_data_loaded w in
  let from_store :=
    map (fun entry =>
           {| ki_username := fst entry;
              ki_name := bi_name (pr_basic_info (snd entry));
              ki_followers := bi_followers_count (pr_basic_info (snd entry));
              ki_source := s "main_db" |})
        (profiles (get_database E w1)) in
  let add_summary (influencers : list known_influencer)
                  (entry : str * summary) :=
    if existsb (fun inf => Py.eqb (lower (ki_username inf)) (lower (fst entry)))
               influencers
    then influencers
    else influencers ++ [{| ki_username := fst entry;
                            ki_name := su_name (snd entry);
                            ki_followers := su_followers (snd entry);
                            ki_source := s "embeddings" |}] in
  let influencers :=
    if embeddings_loaded (udm w1)
    then fold_left add_summary (influencer_data (fsm w1)) from_store
    else from_store in
  (influencers, w1).

(** [_search_main_database]: the exact key, the user name variations,
    then the names of all stored profiles. *)
Definition _search_main_database (search_term : str) (w : world)
  : option (profile * str) * world :=
  let by_key :=
    match get_profile_from_cache E (lower search_term) w with
    | Some cached_data => Some (cached_data, lower search_term)
    | None => None
    end in
  let by_variation :=
    match find (fun variation =>
                  match get_profile_from_cache E variation w with
                  | Some _ => true
                  | None => false
                  end) (_generate_username_variations search_term) with
    | Some variation =>
        option_map (fun cached_data => (cached_data, variation))
                   (get_profile_from_cache E variation w)
    | None => None
    end in
  let by_name :=
    match find (fun entry =>
                  name_matches (lower search_term)
                    (lower (bi_name (pr_basic_info (snd entry))))
                    (lower (bi_full_name (pr_basic_info (snd entry)))))
               (profiles (get_database E w)) with
    | Some entry => Some (snd entry, fst entry)
    | None => None
    end in
  let result := or_else by_key (or_else by_variation by_name) in
  (result,
   log (LookupProfiles search_term
          (match result with Some _ => true | None => false end)) w).

Definition _search_embeddings_database (search_term : str) (w : world)
  : option (profile * str) * world :=
  let result :=
    if negb (embeddings_loaded (udm w)) || negb (is_loaded (fsm w)) then None
    else
      match find (summary_matches search_term) (influencer_data (fsm w)) with
      | Some entry =>
          Some (_convert_embeddings_to_main_format (snd entry) (fst entry),
                fst entry)
      | None => None
      end in
  (result,
   log (LookupSummaries search_term
          (match result with Some _ => true | None => false end)) w).

(** Step 4 of the search: every term is tried in the profile store, then
    in the summaries, until one is found. *)
Fixpoint search_locally (search_terms : list str) (w : world)
  : option outcome * world :=
  match search_terms with
  | [] => (None, w)
  | term :: rest =>
      match _search_main_database term w with
      | (Some (data, username), w1) =>
          (Some (true, Some data, s "main_db:@" ++ username), w1)
      | (None, w1) =>
          match _search_embeddings_database term w1 with
          | (Some (data, username), w2) =>
              (Some (true, Some data, s "embeddings:@" ++ username), w2)
          | (None, w2) => search_locally rest w2
          end
      end
  end.

Definition search_terms_of (influencer_name corrected_name : str)
    (normalized : NormalizationResult) : list str :=
  dedup (map strip
           (filter (fun term => truthy term && truthy (strip term))
                   (corrected_name :: search_name normalized
                    :: aliases normalized ++ handles normalized
                    ++ [influencer_name]))).

(** The tail shared by the two auto-scraping workflows, from the
    selection answer on; [scrape] is the blocking or the suspending
    scraper.  An exception of the insertion ends in the handler of the
    workflow, which answers [scraping_failed]. *)
Definition scrape_and_save
    (scrape : str -> world -> (option scraped_profile * list raw_post) * world)
    (original_name : str) (selection_text : option str) (w : world)
  : outcome * world :=
  match selection_text with
  | None => (failed "scraping_failed", w)
  | Some text =>
      if negb (truthy text) then (failed "scraping_failed", w)
      else
        let selected_profile := parse_profile_selection_response text in
        if selection_is_empty selected_profile
           || negb (truthy (or_empty (sel_instagram_url selected_profile)))
        then (failed "scraping_failed", w)
        else
          let profile_data :=
            format_profile_data E selected_profile original_name w in
          match entry_get (pi_username profile_data) with
          | None => (failed "scraping_failed", w)
          | Some username =>
              if negb (truthy username) then (failed "scraping_failed", w)
              else
                let '((scraped_profile, posts_raw), w1) := scrape username w in
                match scraped_profile with
                | None => (failed "scraping_failed", w1)
                | Some scraped =>
                    let profile_data :=
                      update_with_scraped profile_data scraped in
                    let '(analyzed_posts, metrics_data, scores_data) :=
                      match posts_raw with
                      | [] => ([], None, profile_only_scores username)
                      | _ =>
                          let analyzed_posts :=
                            analyze_instagram_posts E w1 posts_raw username in
                          let metrics_data :=
                            aggregate_post_metrics E analyzed_posts in
                          (analyzed_posts, metrics_data,
                           calculate_scores_manually metrics_data username)
                      end in
                    match insert_complete_profile E profile_data
                            analyzed_posts metrics_data (Some scores_data) w1
                    with
                    | inl _ => (failed "scraping_failed", w1)
                    | inr (success, w2) =>
                        if success then
                          match get_profile_from_cache E username w2 with
                          | Some final_data =>
                              ((true, Some final_data,
                                s "auto_scraped:@" ++ username), w2)
                          | None => (failed "scraping_failed", w2)
                          end
                        else (failed "scraping_failed", w2)
                    end
                end
          end
  end.

Definition _auto_scrape_and_save_sync (original_name corrected_name : str)
    (normalized_data : NormalizationResult) (w : world) : outcome * world :=
  let (search_results, w1) :=
    search_google E (search_name normalized_data) w in
  match search_results with
  | None => (failed "scraping_failed", w1)
  | Some organic_results =>
      match snd (build_search_query_and_filter_candidates E normalized_data
                   original_name organic_results) with
      | [] => (failed "scraping_failed", w1)
      | _ =>
          let (selection_text, w2) := message_model E w1 in
          scrape_and_save (scrape_complete_instagram_profile E)
            original_name selection_text w2
      end
  end.

Definition _auto_scrape_and_save_async (original_name corrected_name : str)
    (normalized_data : NormalizationResult) (w : world) : outcome * world :=
  let (search_results, w1) :=
    search_google_async E (search_name normalized_data) w in
  match search_results with
  | None => (failed "scraping_failed", w1)
  | Some organic_results =>
      match snd (build_search_query_and_filter_candidates E normalized_data
                   original_name organic_results) with
      | [] => (failed "scraping_failed", w1)
      | _ =>
          let (selection_text, w2) :=
            if get_session E (trace w1) then message_model_async E w1
            else message_model E w1 in
          scrape_and_save (scrape_complete_instagram_profile_async E)
            original_name selection_text w2
      end
  end.

(** Steps 1 to 3 of the search: the known influencers, the spelling
    check and the normalization.  The result is the corrected name, the
    normalization and the search terms, [None] when the query is not the
    name of a person.  [spell] is the blocking or the suspending spelling
    check. *)
Definition prepare_search
    (spell : str -> list known_influencer -> world
             -> SpellCorrectionResult * world)
    (influencer_name : str) (w : world)
  : option (str * NormalizationResult * list str) * world :=
  let w0 := ensure_all_data_loaded w in
  let (available_influencers, w1) := get_available_influencers w0 in
  let (spelling_result, w2) := spell influencer_name available_influencers w1 in
  if negb (is_influencer spelling_result) then (None, w2)
  else
    let corrected_name := corrected_name spelling_result in
    let (normalized, w3) :=
      enhanced_influencer_normalization E corrected_name
        available_influencers w2 in
    (Some (corrected_name, normalized,
           search_terms_of influencer_name corrected_name normalized), w3).

(** The two searches differ in the spelling check and in the
    auto-scraping workflow they call, [spell] and [auto_scrape_with];
    the rest is the same text. *)
Definition find_with
    (spell : str -> list known_influencer -> world
             -> SpellCorrectionResult * world)
    (auto_scrape_with : str -> str -> NormalizationResult -> world
                        -> outcome * world)
    (influencer_name : str) (auto_scrape : bool) (w : world)
  : outcome * world :=
  match prepare_search spell influencer_name w with
  | (None, w2) => (failed "not_influencer", w2)
  | (Some (corrected_name, normalized, search_terms), w3) =>
      match search_locally search_terms w3 with
      | (Some found, w4) => (found, w4)
      | (None, w4) =>
          if auto_scrape && auto_scraping_enabled (udm w4)
          then auto_scrape_with influencer_name corrected_name normalized w4
          else (failed "not_found", w4)
      end
  end.

Definition _find_influencer_anywhere_sync
  : str -> bool -> world -> outcome * world :=
  find_with (spell_correct_influencer_name E) _auto_scrape_and_save_sync.

Definition find_influencer_anywhere_async
  : str -> bool -> world -> outcome * world :=
  find_with (spell_correct_influencer_name_async E)
    _auto_scrape_and_save_async.

End Manager.

(** ** Traces *)

(** A request to the language model, and a write of the store. *)
Definition is_llm (e : event) : bool :=
  match e with LlmRequest _ => true | _ => false end.

Definition is_write (e : event) : bool :=
  match e with StoreWrite _ => true | _ => false end.

(** A request answered before any profile is scraped or stored: to the
    language model or to the web search. *)
Definition is_query (e : event) : bool :=
  match e with LlmRequest _ | SearchRequest _ _ => true | _ => false end.

(** The lookups of terms that are found in neither local store: the
    profile store first, then the summaries, term by term. *)
Definition misses (terms : list str) : list event :=
  flat_map (fun term => [LookupProfiles term false;
                         LookupSummaries term false]) terms.






(** The two stores of [w'] are those of [w]. *)
Definition same_stores (w w' : world) : Prop :=
  store w' = store w /\ fsm w' = fsm w /\ udm w' = udm w.


(** [w'] comes from [w] by events that all satisfy [P], the store file
    being left alone. *)
Definition appends (P : event -> bool) (w w' : world) : Prop :=
  store w' = store w
  /\ exists events, trace w' = trace w ++ events /\ forallb P events = true.


(** ** Sample data *)

Module Samples.

(** A post with the given counts and nothing else. *)
Definition plain_post (likes comments views : Z) : post :=
  {| p_username := s "sample";
     p_ownerUsername := s "sample";
     p_postId := [];
     p_postType := s "Image";
     p_postUrl := [];
     p_timestamp := [];
     p_topic := [];
     p_likesCount := likes;
     p_commentsCount := comments;
     p_videoViewCount := views;
     p_videoPlayCount := 0%Z;
     p_topComment := (s "No comments found", 0%Z);
     p_isAd := false;
     p_mentions := [];
     p_hashtags := [] |}.

(** Three posts nobody reacted to, and one with four likes on one view. *)
Definition quiet_feed : list post :=
  [ plain_post 0 0 0; plain_post 0 0 0; plain_post 0 0 0; plain_post 4 0 1 ].

(** One post with six likes and one comment. *)
Definition single_post : list post := [ plain_post 6 1 0 ].

Definition hit (link_text : string) : search_hit :=
  {| hit_link := s link_text; hit_title := s "title";
     hit_snippet := s "snippet" |}.

Definition normalized (name : string) : NormalizationResult :=
  {| search_name := s name; aliases := []; handles := [];
     database_match := false |}.


Definition info (username : entry) : profile_info :=
  {| pi_input := s "query";
     pi_name := s "Someone";
     pi_username := username;
     pi_instagram_url := s "https://instagram.com/someone/";
     pi_confidence := 1 # 2;
     pi_reason := [];
     pi_timestamp := s "2024-03-08T12:00:00";
     pi_full_name := s "Someone";
     pi_bio := [];
     pi_website := [];
     pi_profile_pic_url := [];
     pi_is_verified := false;
     pi_is_business_account := false;
     pi_category := [];
     pi_followers_count := 1000;
     pi_following_count := 10;
     pi_posts_count := 4 |}.

Definition idle_matcher : matcher_state :=
  {| influencer_data := []; is_loaded := false; faiss_index := None;
     username_list := []; embedding_dim := 384 |}.

Definition fresh_manager : manager_state :=
  {| main_db_loaded := false; embeddings_loaded := false;
     auto_scraping_enabled := true |}.

(** A world whose store file holds the given profiles. *)
Definition world_with (stored : list (str * profile)) : world :=
  {| store := Some {| profiles := stored;
                      db_last_updated := s "2024-03-01T12:00:00";
                      db_total_profiles := Some (length stored) |};
     fsm := idle_matcher;
     udm := fresh_manager;
     trace := [] |}.

(** The record stored for [someone], scraped at noon on 1 March 2024. *)
Definition someone : profile :=
  complete_profile Scripted.quiet (info (PyStr (s "someone"))) quiet_feed
    (aggregate_post_metrics Scripted.quiet quiet_feed)
    (Some (calculate_scores_manually
             (aggregate_post_metrics Scripted.quiet quiet_feed)
             (s "someone")))
    {| store := None; fsm := idle_matcher; udm := fresh_manager;
       trace := [] |}.

Definition someone_scraped_at (stamp : string) : profile :=
  {| pr_basic_info := pr_basic_info someone;
     pr_posts := pr_posts someone;
     pr_analysis := pr_analysis someone;
     pr_brand_collaborations := pr_brand_collaborations someone;
     pr_hashtags := pr_hashtags someone;
     pr_mentions := pr_mentions someone;
     pr_metadata :=
       {| last_scraped := s stamp;
          scraping_source := s "apify";
          analysis_version := s "1.0";
          md_original_query := s "query";
          md_spelling_corrected := None |} |}.

(** Services whose clock shows the given time of 8 March 2024. *)
Definition at_time (now : Z) : services :=
  Scripted.services_with now (fun _ => None) (fun _ => None)
    (fun _ => None) (fun _ => []).


(** Two unit vectors of dimension three, as a [float32] matrix. *)
Definition two_by_three : ndarray :=
  {| nd_shape := [2; 3]%Z;
     nd_float32 := true;
     nd_rows := [[1; 0; 0]; [0; 1; 0]]%Q |}.

(** A matcher whose index holds the two vectors, and the keys. *)
Definition loaded_matcher : matcher_state :=
  {| influencer_data := []; is_loaded := true;
     faiss_index :=
       Some {| ix_d := 3; ix_vectors := [[1; 0; 0]; [0; 1; 0]]%Q |};
     username_list := [s "alice"; s "bob"];
     embedding_dim := 3 |}.

(** The second key, a position beyond the keys, and the sentinel. *)
Definition three_hits : list (Q * Z) :=
  [ ((9 # 10)%Q, 1%Z); ((1 # 10)%Q, 5%Z); (0%Q, (-1)%Z) ].

(** Services whose vector search answers with the given hits. *)
Definition searching (hits : list (Q * Z)) : services :=
  let base := Scripted.quiet in
  {| openrouter_client := openrouter_client base;
     OPENROUTER_API_KEY := OPENROUTER_API_KEY base;
     SERPER_API_KEY := SERPER_API_KEY base;
     APIFY_API_TOKEN := APIFY_API_TOKEN base;
     fromisoformat := fromisoformat base;
     isoformat := isoformat base;
     local_utcoffset := local_utcoffset base;
     urlparse := urlparse base;
     encode := fun _ => Some [1; 0; 0]%Q;
     index_search := fun _ _ _ => hits;
     clock := clock base;
     chat_completion := chat_completion base;
     chat_completion_async := chat_completion_async base;
     get_session := get_session base;
     serper := serper base;
     serper_async := serper_async base;
     apify_posts := apify_posts base;
     apify_posts_async := apify_posts_async base;
     apify_profile := apify_profile base;
     apify_profile_async := apify_profile_async base;
     apify_combined := apify_combined base;
     disk_write := disk_write base;
     embeddings_file := embeddings_file base;
     index_files := index_files base |}.


(** Services that answer the normalization request, the web search and
    the selection request, one second before noon on 8 March 2024. *)
Definition answering : services :=
  Scripted.services_with 1709899199000000%Z
    (fun history =>
       match history with
       | [] => Some (s "Search Name: Someone")
       | _ => Some (s "Instagram URL: https://www.instagram.com/someone")
       end)
    (fun _ => Some [hit "https://www.instagram.com/someone/?hl=en"])
    (fun _ => None) (fun _ => []).

(** Services whose language model denies that the query is a name. *)
Definition refusing : services :=
  Scripted.services_with 1709899200000000%Z
    (fun _ => Some (s "Is Influencer: No"))
    (fun _ => None) (fun _ => None) (fun _ => []).

(** The store holding the record of [someone] scraped a week before
    noon on 8 March 2024. *)
Definition cached_world : world :=
  world_with [(s "someone", someone_scraped_at "2024-03-01T12:00:00")].

End Samples.

(** The per-token length bounds of the heuristic, by number of tokens:
    one token has 3 to 20 characters, each of two or three tokens 2 to 15,
    each of four tokens 2 to 12. *)
Definition token_bounds (n : nat) : option (nat * nat) :=
  match n with
  | 1 => Some (3, 20)
  | 2 | 3 => Some (2, 15)
  | 4 => Some (2, 12)
  | _ => None
  end.

(** ** Notions used in the statements and proofs *)

(** An indicator starts and ends with a non-blank character and is
    written in lower case. *)
Definition indicator_ok (p : str) : bool :=
  match p with
  | [] => false
  | c :: _ =>
      negb (is_space c) && negb (is_space (last p c)) && Py.eqb (lower p) p
  end.

(** What it means for a cleaned link to pass the strict filter. *)
Definition passes_strict_filter (E : services) (url : str) : Prop :=
  exists hostname path user,
    urlparse E url = Some (Some hostname, path)
    /\ contains (s "instagram.com") hostname = true
    /\ path_segments path = [user]
    /\ handle_pattern user = true.

(** The invariant of the loop over the organic hits. *)
Definition loop_invariant (E : services) (organic : list search_hit)
    (state : list str * list candidate) : Prop :=
  let (seen, candidates) := state in
  map (candidate_handle E) candidates = rev (map Some seen)
  /\ NoDup seen
  /\ Forall (fun c =>
               c_fallback c = false
               /\ exists item,
                    In item organic /\ c_url c = clean_link (hit_link item))
            candidates.

(** What the search returns when the hits are as the vector library
    gives them, positions from [-1] upwards. *)
Definition hits_in_range (keys : list str) (hits : list (Q * Z))
  : list (str * Q) :=
  flat_map (fun hit =>
              if ((0 <=? snd hit) && (snd hit <? Z.of_nat (length keys)))%Z
              then match nth_error keys (Z.to_nat (snd hit)) with
                   | Some username => [(username, fst hit)]
                   | None => []
                   end
              else []) hits.


(** How often [tag] occurs in a list of tags. *)
Definition occurrences (tag : str) (items : list str) : nat :=
  length (filter (Py.eqb tag) items).

(** Counts in non-increasing order. *)
Definition descending : list (str * nat) -> Prop :=
  StronglySorted (fun a b => snd b <= snd a).

(** [topic] is the first line of [text], cut after 100 characters: it
    begins the text, has at most 100 characters and no line feed, and
    what follows it in the text is nothing, a line feed, or the rest of a
    first line longer than 100 characters. *)
Definition first_line_cut (text topic : str) : Prop :=
  exists tail,
    text = topic ++ tail
    /\ length topic <= 100
    /\ ~ In newline topic
    /\ (tail = [] \/ length topic = 100 \/ exists rest, tail = newline :: rest).

(** A candidate is made of a hit: its title, its cleaned link, its
    snippet. *)
Definition made_of (item : search_hit) (c : candidate) : Prop :=
  c_title c = hit_title item /\
  c_url c = clean_link (hit_link item) /\
  c_snippet c = hit_snippet item.

(** The four quality scores lie between 0 and 100. *)
Definition percent (x : Q) : Prop := (0 <= x /\ x <= 100)%Q.

Definition scores_in_range (sc : scores) : Prop :=
  percent (Authenticity sc) /\ percent (BrandSafety sc) /\
  percent (AudienceMatch sc) /\ percent (ContentQuality sc).

(** What one call of the language model client does, [suspending] telling
    the two forms apart and [available] whether the client is usable: at
    most three requests and nothing else; an answer is not blank and
    carries no surrounding white space; a usable client gives up only
    after three requests, an unusable one sends none. *)
Definition model_call (suspending available : bool) (w : world)
    (r : option str * world) : Prop :=
  exists k,
    k <= 3 /\
    trace (snd r) = trace w ++ repeat (LlmRequest suspending) k /\
    store (snd r) = store w /\
    match fst r with
    | Some text => 1 <= k /\ text <> [] /\ strip text = text
    | None => k = if available then 3 else 0
    end.

(** A request to the language model or a lookup in a local store. *)
Definition is_local (e : event) : bool := is_llm e || is_lookup e.

(** The outcomes a search can have: a record with the store it comes
    from and its key, or no record with one of three reasons. *)
Definition well_formed (o : outcome) : Prop :=
  match o with
  | (true, Some _, source) =>
      exists username,
        source = s "main_db:@" ++ username \/
        source = s "embeddings:@" ++ username \/
        source = s "auto_scraped:@" ++ username
  | (false, None, reason) =>
      reason = s "not_influencer" \/ reason = s "not_found" \/
      reason = s "scraping_failed"
  | _ => False
  end.

(** An outcome of auto-scraping that carries a record: the record is the
    one the profile store now holds for the scraped user name, and the
    last thing that happened is a successful write of the store. *)
Definition persisted (E : services) (r : outcome * world) : Prop :=
  match fst r with
  | (true, data, source) =>
      exists username record earlier,
        data = Some record /\
        source = s "auto_scraped:@" ++ username /\
        get_profile_from_cache E username (snd r) = Some record /\
        trace (snd r) = earlier ++ [StoreWrite true]
  | (false, data, reason) => data = None /\ reason = s "scraping_failed"
  end.

(** ** fast_semantic_matcher.py: the keyword fallback *)

(** An influencer summary with the two keys the matcher adds. *)
Record keyword_match : Type := {
  km_influencer : summary;
  semantic_match_score : Q;
  match_confidence : nat
}.

(** The score of one influencer: 30 for every keyword found in the
    category, 15 for every keyword found in a hashtag, 10 for every
    keyword found in the bio. *)
Definition keyword_score (product_keywords : list str) (influencer : summary)
  : nat :=
  let hits (found : str -> bool) := length (filter found product_keywords) in
  let category := lower (su_category influencer) in
  let hashtags := map lower (su_top_hashtags influencer) in
  let bio := lower (su_bio influencer) in
  (if truthy category then 30 * hits (fun kw => contains kw category) else 0)
  + 15 * hits (fun kw => existsb (contains kw) hashtags)
  + (if truthy bio then 10 * hits (fun kw => contains kw bio) else 0).

(** [matches.sort(key=semantic_match_score, reverse=True)]: by descending
    score, matches of equal score in their original order. *)
Fixpoint insert_by_score (x : keyword_match) (l : list keyword_match)
  : list keyword_match :=
  match l with
  | [] => [x]
  | y :: ys =>
      if Qltb (semantic_match_score x) (semantic_match_score y)
      then y :: insert_by_score x ys
      else x :: l
  end.

Definition _fallback_keyword_matching (product_description : str)
    (influencers : list summary) : list keyword_match :=
  let product_keywords := split (lower product_description) in
  let matches :=
    flat_map
      (fun influencer =>
         let score := keyword_score product_keywords influencer in
         if 0 <? score
         then [{| km_influencer := influencer;
                  semantic_match_score :=
                    (inject_Z (Z.of_nat score) / 100)%Q;
                  match_confidence := Nat.min score 100 |}]
         else [])
      influencers in
  firstn 8 (fold_right insert_by_score [] matches).

(** * Properties *)

(** ** Python strings *)

Module PyFacts.

Lemma eqb_char_true (a b : ascii) : eqb_char a b = true <-> a = b.
Proof. apply Ascii.eqb_eq. Qed.

Lemma eqb_char_refl (a : ascii) : eqb_char a a = true.
Proof. apply Ascii.eqb_refl. Qed.

Lemma eqb_true (a b : str) : Py.eqb a b = true <-> a = b.
Proof.
  revert b; induction a as [|c a IH]; intros [|d b]; simpl; split;
    try easy.
  - rewrite andb_true_iff, eqb_char_true, IH. now intros [-> ->].
  - intros [= -> ->]. rewrite eqb_char_refl. now apply IH.
Qed.

Lemma startswith_spec (p x : str) :
  startswith p x = true <-> exists b, x = p ++ b.
Proof.
  revert x; induction p as [|c p IH]; intros x; simpl.
  - split; [now exists x | easy].
  - destruct x as [|d x].
    + split; [easy | now intros [b Hb]].
    + rewrite andb_true_iff, eqb_char_true, IH. split.
      * intros [-> [b ->]]. now exists b.
      * intros [b [= -> ->]]. split; [easy | now exists b].
Qed.

Lemma contains_spec (p x : str) :
  contains p x = true <-> exists a b, x = a ++ p ++ b.
Proof.
  induction x as [|d x IH].
  - simpl. rewrite orb_false_r, startswith_spec. split.
    + intros [b Hb]. now exists [], b.
    + intros [a [b Hab]]. destruct a; [now exists b | easy].
  - cbn [contains]. rewrite orb_true_iff, startswith_spec, IH. split.
    + intros [[b Hb] | [a [b Hab]]].
      * now exists [], b.
      * exists (d :: a), b. now rewrite Hab.
    + intros [[|e a] [b Hab]].
      * left. now exists b.
      * right. injection Hab as -> ->. now exists a, b.
Qed.

Lemma contains_false_infix (p x y a b : str) :
  y = a ++ x ++ b -> contains p y = false -> contains p x = false.
Proof.
  intros -> Hy. destruct (contains p x) eqn:Hx; [|easy].
  apply contains_spec in Hx as [a' [b' ->]].
  assert (contains p (a ++ (a' ++ p ++ b') ++ b) = true) as H; [|congruence].
  apply contains_spec. exists (a ++ a'), (b' ++ b).
  now rewrite <- !app_assoc.
Qed.

(** *** Case mapping and the character classes *)

Lemma is_space_lower_char (c : ascii) : is_space (lower_char c) = is_space c.
Proof. destruct c as [[] [] [] [] [] [] [] []]; reflexivity. Qed.

Lemma is_alpha_lower_char (c : ascii) : is_alpha (lower_char c) = is_alpha c.
Proof. destruct c as [[] [] [] [] [] [] [] []]; reflexivity. Qed.

Lemma is_alpha_not_space (c : ascii) : is_alpha c = true -> is_space c = false.
Proof. destruct c as [[] [] [] [] [] [] [] []]; simpl; easy. Qed.

Lemma length_lower (x : str) : length (lower x) = length x.
Proof. apply length_map. Qed.

Lemma isalpha_lower (x : str) : isalpha (lower x) = isalpha x.
Proof.
  destruct x as [|c x]; [reflexivity|].
  unfold isalpha, lower. cbn [map]. cbn [forallb].
  rewrite is_alpha_lower_char. f_equal.
  induction x as [|d x IH]; simpl; [reflexivity|].
  now rewrite is_alpha_lower_char, IH.
Qed.

Lemma lower_app (x y : str) : lower (x ++ y) = lower x ++ lower y.
Proof. apply map_app. Qed.

(** *** Stripping *)

Lemma lstrip_suffix (x : str) : exists a, x = a ++ lstrip x.
Proof.
  induction x as [|c x [a IH]]; simpl.
  - now exists [].
  - destruct (is_space c).
    + exists (c :: a). simpl. now f_equal.
    + now exists [].
Qed.

Lemma rstrip_prefix (x : str) : exists b, x = rstrip x ++ b.
Proof.
  induction x as [|c x [b IH]]; simpl.
  - now exists [].
  - destruct (rstrip x) as [|r rs] eqn:Hr.
    + destruct (is_space c).
      * now exists (c :: x).
      * exists x. reflexivity.
    + exists b. simpl. f_equal. exact IH.
Qed.

Lemma strip_infix (x : str) : exists a b, x = a ++ strip x ++ b.
Proof.
  destruct (lstrip_suffix x) as [a Ha].
  destruct (rstrip_prefix (lstrip x)) as [b Hb].
  exists a, b. unfold strip. now rewrite <- Hb.
Qed.

Lemma lstrip_keeps (y : str) (c : ascii) (b : str) :
  is_space c = false -> exists a, lstrip (y ++ c :: b) = a ++ c :: b.
Proof.
  intros Hc. induction y as [|e y [a IH]]; simpl.
  - rewrite Hc. now exists [].
  - destruct (is_space e).
    + now exists a.
    + now exists (e :: y).
Qed.

Lemma rstrip_keeps (y : str) (c : ascii) (b : str) :
  is_space c = false -> exists b', rstrip (y ++ c :: b) = y ++ c :: b'.
Proof.
  intros Hc. induction y as [|e y [b' IH]]; simpl.
  - destruct (rstrip b) as [|r rs].
    + rewrite Hc. now exists [].
    + now exists (r :: rs).
  - rewrite IH. destruct y; simpl; now exists b'.
Qed.

(** *** Splitting on white space *)

Lemma split_cons (c : ascii) (x : str) :
  split (c :: x) =
  if is_space c then split x
  else match x with
       | [] => [[c]]
       | d :: _ =>
           if is_space d then [c] :: split x
           else match split x with
                | w :: ws => (c :: w) :: ws
                | [] => [[c]]
                end
       end.
Proof. reflexivity. Qed.

Lemma split_lstrip (x : str) : split (lstrip x) = split x.
Proof.
  induction x as [|c x IH]; [reflexivity|].
  cbn [lstrip]. destruct (is_space c) eqn:Hc; [|reflexivity].
  now rewrite IH, split_cons, Hc.
Qed.

Lemma rstrip_head (x : str) (d : ascii) (r : str) :
  rstrip x = d :: r -> exists x', x = d :: x'.
Proof.
  destruct x as [|c x]; simpl; [easy|].
  destruct (rstrip x).
  - destruct (is_space c); [easy|]. intros [= -> _]. now exists x.
  - intros [= -> _]. now exists x.
Qed.

Lemma rstrip_nil_split (x : str) : rstrip x = [] -> split x = [].
Proof.
  induction x as [|c x IH]; [reflexivity|]. simpl.
  destruct (rstrip x) eqn:Hr; [|easy].
  destruct (is_space c); [|easy]. intros _. now apply IH.
Qed.

Lemma rstrip_nil_head (x : str) (d : ascii) (x' : str) :
  rstrip x = [] -> x = d :: x' -> is_space d = true.
Proof.
  intros H ->. simpl in H. destruct (rstrip x'); [|easy].
  now destruct (is_space d).
Qed.

Lemma split_rstrip (x : str) : split (rstrip x) = split x.
Proof.
  induction x as [|c x IH]; [reflexivity|].
  cbn [rstrip]. destruct (rstrip x) as [|d r] eqn:Hr.
  - pose proof (rstrip_nil_split _ Hr) as Hs.
    rewrite (split_cons c x).
    destruct (is_space c) eqn:Hc.
    + now rewrite Hs.
    + rewrite split_cons, Hc. destruct x as [|e x']; [reflexivity|].
      rewrite (rstrip_nil_head _ _ _ Hr eq_refl). now rewrite Hs.
  - destruct (rstrip_head _ _ _ Hr) as [x' ->].
    rewrite (split_cons c (d :: r)), (split_cons c (d :: x')).
    now rewrite IH.
Qed.

Lemma split_strip (x : str) : split (strip x) = split x.
Proof. unfold strip. now rewrite split_rstrip, split_lstrip. Qed.

Lemma split_lower (x : str) : split (lower x) = map lower (split x).
Proof.
  induction x as [|c x IH]; [reflexivity|].
  change (lower (c :: x)) with (lower_char c :: lower x).
  rewrite !split_cons, is_space_lower_char, IH.
  destruct (is_space c); [reflexivity|].
  destruct x as [|d x]; [reflexivity|].
  change (lower (d :: x)) with (lower_char d :: lower x).
  cbv beta iota. rewrite is_space_lower_char.
  destruct (is_space d); [reflexivity|].
  now destruct (split (d :: x)).
Qed.

End PyFacts.

(** ** The name heuristic *)

Module NameHeuristic.
Import PyFacts.

Lemma indicators_ok : forallb indicator_ok non_name_indicators = true.
Proof. vm_compute. reflexivity. Qed.

Lemma contains_strip (p x : str) (c : ascii) :
  is_space (hd c p) = false -> is_space (last p c) = false -> p <> [] ->
  contains p x = true -> contains p (strip x) = true.
Proof.
  intros Hh Hl Hp Hx. apply contains_spec in Hx as [a [b ->]].
  destruct p as [|c0 m]; [easy|]. cbn [hd] in Hh.
  destruct (lstrip_keeps a c0 (m ++ b) Hh) as [a' Ha'].
  assert (c0 :: m <> []) as Hne by easy.
  pose proof (app_removelast_last c Hne) as Hsplit.
  set (m' := removelast (c0 :: m)) in *. set (d := last (c0 :: m) c) in *.
  unfold strip. change ((c0 :: m) ++ b) with (c0 :: m ++ b). rewrite Ha'.
  change (a' ++ c0 :: m ++ b) with (a' ++ (c0 :: m) ++ b).
  rewrite Hsplit, <- !app_assoc, app_assoc. simpl.
  destruct (rstrip_keeps (a' ++ m') d b Hl) as [b' ->].
  apply contains_spec. exists a', b'.
  now rewrite <- !app_assoc.
Qed.

Lemma contains_lower (p x : str) :
  lower p = p -> contains p x = true -> contains p (lower x) = true.
Proof.
  intros Hp Hx. apply contains_spec in Hx as [a [b ->]].
  apply contains_spec. exists (lower a), (lower b).
  now rewrite !lower_app, Hp.
Qed.

Lemma indicator_rejected (q ind : str) :
  In ind non_name_indicators ->
  contains ind (lower (strip q)) = true -> _looks_like_name q = false.
Proof.
  intros Hin Hc. unfold _looks_like_name.
  replace (existsb _ non_name_indicators) with true; [reflexivity|].
  symmetry. apply existsb_exists. now exists ind.
Qed.

Lemma indicator_in_query (q ind : str) :
  In ind non_name_indicators ->
  contains ind q = true -> contains ind (lower (strip q)) = true.
Proof.
  intros Hin Hc.
  pose proof (proj1 (forallb_forall _ _) indicators_ok _ Hin) as Hok.
  unfold indicator_ok in Hok. destruct ind as [|c m]; [easy|].
  apply andb_true_iff in Hok as [Hok Hlow].
  apply andb_true_iff in Hok as [Hh Hl].
  apply negb_true_iff in Hh, Hl. apply eqb_true in Hlow.
  apply contains_lower; [exact Hlow|].
  now apply contains_strip with (c := c).
Qed.

Lemma lstrip_lower (x : str) : lstrip (lower x) = lower (lstrip x).
Proof.
  induction x as [|c x IH]; [reflexivity|].
  change (lower (c :: x)) with (lower_char c :: lower x). cbn [lstrip].
  rewrite is_space_lower_char. now destruct (is_space c).
Qed.

Lemma rstrip_lower (x : str) : rstrip (lower x) = lower (rstrip x).
Proof.
  induction x as [|c x IH]; [reflexivity|].
  change (lower (c :: x)) with (lower_char c :: lower x). cbn [rstrip].
  rewrite IH, is_space_lower_char.
  destruct (rstrip x); simpl; [now destruct (is_space c) | reflexivity].
Qed.

Lemma strip_lower (x : str) : strip (lower x) = lower (strip x).
Proof. unfold strip. now rewrite lstrip_lower, rstrip_lower. Qed.

Lemma indicator_in_any_case (q ind : str) :
  In ind non_name_indicators ->
  contains ind (lower q) = true -> contains ind (lower (strip q)) = true.
Proof.
  intros Hin Hc.
  pose proof (proj1 (forallb_forall _ _) indicators_ok _ Hin) as Hok.
  unfold indicator_ok in Hok. destruct ind as [|c m]; [easy|].
  apply andb_true_iff in Hok as [Hok _].
  apply andb_true_iff in Hok as [Hh Hl].
  apply negb_true_iff in Hh, Hl.
  rewrite <- strip_lower. now apply contains_strip with (c := c).
Qed.

(** C4, as stated: alphabetic tokens within the bounds and no indicator
    in the query do not make a name.  The two tokens of [Tom Best] are
    alphabetic and within the bounds, and no indicator occurs in the
    query as it is written, but the heuristic, which looks for the
    indicators in the lower-cased query, finds [best] and turns the query
    down. *)
Lemma indicator_in_another_case_refutes :
  token_bounds (length (split (s "Tom Best"))) = Some (2, 15)
  /\ Forall (fun w => isalpha w = true /\ 2 <= length w <= 15)
       (split (s "Tom Best"))
  /\ (forall ind, In ind non_name_indicators ->
                  contains ind (s "Tom Best") = false)
  /\ _looks_like_name (s "Tom Best") = false.
Proof.
  split; [reflexivity|]. split; [|split; [|reflexivity]].
  - repeat constructor.
  - intros ind Hin.
    assert (forallb (fun i => negb (contains i (s "Tom Best")))
              non_name_indicators = true) as H by (vm_compute; reflexivity).
    apply negb_true_iff.
    exact (proj1 (forallb_forall _ _) H ind Hin).
Qed.

(** C4.  The heuristic judges the normalized query, stripped and in
    lower case.  When the normalized query has one to four white-space
    separated alphabetic tokens within the per-token length bounds and
    none of the non-name indicators occurs in it, the query looks like a
    name; when a non-name indicator occurs in the normalized query it
    does not, whatever its tokens are; in particular an indicator that
    occurs in the query in any letter case turns it down. *)
Theorem looks_like_name_spec (q : str) :
  let normalized := lower (strip q) in
  (forall lo hi,
      token_bounds (length (split normalized)) = Some (lo, hi) ->
      Forall (fun w => isalpha w = true /\ lo <= length w <= hi)
        (split normalized) ->
      (forall ind, In ind non_name_indicators ->
                   contains ind normalized = false) ->
      _looks_like_name q = true)
  /\ (forall ind,
         In ind non_name_indicators -> contains ind normalized = true ->
         _looks_like_name q = false)
  /\ (forall ind,
         In ind non_name_indicators -> contains ind (lower q) = true ->
         _looks_like_name q = false).
Proof.
  cbv zeta. split; [|split].
  - intros lo hi Hb Hw Hind. unfold _looks_like_name.
    replace (existsb _ non_name_indicators) with false.
    2:{ symmetry. apply not_true_iff_false. intros He.
        apply existsb_exists in He as (ind & Hin & Hc).
        rewrite (Hind ind Hin) in Hc. discriminate. }
    destruct (split (lower (strip q))) as [|w1 [|w2 [|w3 [|w4 [|w5 ws]]]]];
      cbn [length token_bounds] in Hb; try discriminate;
      injection Hb as <- <-;
      repeat match goal with
             | H : Forall _ (_ :: _) |- _ => inversion H; subst; clear H
             | H : _ /\ _ <= _ <= _ |- _ => destruct H as [? [? ?]]
             end;
      cbn [forallb]; unfold len_between;
      repeat match goal with
             | H : isalpha _ = true |- _ => rewrite H; clear H
             | H : _ <= length _ |- _ =>
                 apply Nat.leb_le in H; rewrite H; clear H
             | H : length _ <= _ |- _ =>
                 apply Nat.leb_le in H; rewrite H; clear H
             end; reflexivity.
  - intros ind Hin Hc. now apply indicator_rejected with (ind := ind).
  - intros ind Hin Hc. apply indicator_rejected with (ind := ind); [easy|].
    now apply indicator_in_any_case.
Qed.

Lemma looks_like_name_spec_witness :
  _looks_like_name (s "  Dhruv  Rathee ") = true
  /\ _looks_like_name (s "promote my gaming brand") = false
  /\ _looks_like_name (s "BEST Friend") = false.
Proof.
  split; [|split].
  - apply (proj1 (looks_like_name_spec (s "  Dhruv  Rathee ")) 2 15).
    + reflexivity.
    + repeat constructor.
    + intros ind Hin.
      assert (forallb
                (fun i => negb (contains i
                                  (lower (strip (s "  Dhruv  Rathee ")))))
                non_name_indicators = true) as H by (vm_compute; reflexivity).
      apply negb_true_iff.
      exact (proj1 (forallb_forall _ _) H ind Hin).
  - apply (proj1 (proj2 (looks_like_name_spec
                           (s "promote my gaming brand")))
             (s "promote my")).
    + vm_compute. tauto.
    + reflexivity.
  - apply (proj2 (proj2 (looks_like_name_spec (s "BEST Friend")))
             (s "best")).
    + vm_compute. tauto.
    + reflexivity.
Defined.

End NameHeuristic.

(** ** The spelling-correction resolver *)

Module ResolverFacts.

Lemma message_model_attempts_truthy (E : services) (n : nat) (w w' : world)
    (text : str) :
  message_model_attempts E n w = (Some text, w') -> truthy text = true.
Proof.
  revert w. induction n as [|n IH]; intros w; simpl; [discriminate|].
  destruct (chat_completion E (trace w)) as [content|]; [|apply IH].
  destruct (truthy content && truthy (strip content)) eqn:Ht; [|apply IH].
  intros [= <- _]. now apply andb_true_iff in Ht.
Qed.

Lemma message_model_async_attempts_truthy (E : services) (n : nat)
    (w w' : world) (text : str) :
  message_model_async_attempts E n w = (Some text, w') -> truthy text = true.
Proof.
  revert w. induction n as [|n IH]; intros w; simpl; [discriminate|].
  destruct (chat_completion_async E (trace w)) as [content|]; [|apply IH].
  destruct (truthy content && truthy (strip content)) eqn:Ht; [|apply IH].
  intros [= <- _]. now apply andb_true_iff in Ht.
Qed.

Lemma message_model_truthy (E : services) (w : world) (text : str) :
  fst (message_model E w) = Some text -> truthy text = true.
Proof.
  unfold message_model.
  destruct (negb (openrouter_client E) || negb (OPENROUTER_API_KEY E));
    [discriminate|].
  destruct (message_model_attempts E 3 w) as [r w'] eqn:Hm. simpl.
  intros ->. eapply message_model_attempts_truthy; eassumption.
Qed.

Lemma message_model_async_truthy (E : services) (w : world) (text : str) :
  fst (message_model_async E w) = Some text -> truthy text = true.
Proof.
  unfold message_model_async.
  destruct (negb (OPENROUTER_API_KEY E)); [discriminate|].
  destruct (message_model_async_attempts E 3 w) as [r w'] eqn:Hm. simpl.
  intros ->. eapply message_model_async_attempts_truthy; eassumption.
Qed.

Lemma safety_check_overrides (query : str) (r : SpellCorrectionResult) :
  is_influencer r = false -> _looks_like_name query = true ->
  is_influencer (safety_check query r) = true
  /\ confidence (safety_check query r) = (3 # 4)%Q.
Proof.
  intros Hr Hq. unfold safety_check. rewrite Hr, Hq. simpl. now split.
Qed.

(** C3.  When the model's answer parses to "not an influencer" and the
    query looks like a name, the resolver answers "influencer" with
    confidence 0.75, in its blocking form and in its suspending form. *)
Theorem override_law (E : services) (query text : str)
    (available : list known_influencer) (w : world) :
  is_influencer (parse_spelling_correction_response text query) = false ->
  _looks_like_name query = true ->
  (fst (message_model E w) = Some text ->
   let r := fst (spell_correct_influencer_name E query available w) in
   is_influencer r = true /\ confidence r = (3 # 4)%Q)
  /\ (get_session E (trace w) = true ->
      fst (message_model_async E w) = Some text ->
      let r := fst (spell_correct_influencer_name_async E query available w) in
      is_influencer r = true /\ confidence r = (3 # 4)%Q).
Proof.
  intros Hparse Hname. split.
  - intros Hm. pose proof (message_model_truthy E w text Hm) as Ht.
    unfold spell_correct_influencer_name.
    destruct (message_model E w) as [r w1]. simpl in Hm. subst r.
    rewrite Ht. simpl. now apply safety_check_overrides.
  - intros Hs Hm. pose proof (message_model_async_truthy E w text Hm) as Ht.
    unfold spell_correct_influencer_name_async. rewrite Hs.
    destruct (message_model_async E w) as [r w1]. simpl in Hm. subst r.
    rewrite Ht. simpl. now apply safety_check_overrides.
Qed.

Lemma override_law_witness :
  let blocking :=
    fst (spell_correct_influencer_name Samples.refusing (s "dhruv rathi")
           [] Samples.cached_world) in
  let suspending :=
    fst (spell_correct_influencer_name_async Samples.refusing
           (s "dhruv rathi") [] Samples.cached_world) in
  (is_influencer blocking = true /\ confidence blocking = (3 # 4)%Q)
  /\ (is_influencer suspending = true /\ confidence suspending = (3 # 4)%Q).
Proof.
  destruct (override_law Samples.refusing (s "dhruv rathi")
              (s "Is Influencer: No") [] Samples.cached_world)
    as [Hblocking Hsuspending]; [reflexivity | reflexivity |].
  split.
  - apply Hblocking. reflexivity.
  - apply Hsuspending; reflexivity.
Defined.

End ResolverFacts.

(** ** Numbers *)

Module NumFacts.
Local Open Scope Q_scope.

Lemma Qltb_true (a b : Q) : Qltb a b = true <-> a < b.
Proof.
  unfold Qltb. rewrite negb_true_iff. split.
  - intros H. apply Qnot_le_lt. intros Hle.
    apply Qle_bool_iff in Hle. congruence.
  - intros H. destruct (Qle_bool b a) eqn:Hb; [|reflexivity].
    apply Qle_bool_iff in Hb. exfalso. now apply (Qlt_not_le a b).
Qed.

Lemma Qltb_false (a b : Q) : Qltb a b = false <-> b <= a.
Proof.
  unfold Qltb. rewrite negb_false_iff. apply Qle_bool_iff.
Qed.

(** The nested [max]/[min] of the code is the clamp of the
    specification. *)
Lemma max_min_clamp (x y lo hi : Q) :
  lo <= hi -> x == y -> py_max lo (py_min hi x) == clamp y lo hi.
Proof.
  intros Hlh Hxy. unfold py_max, py_min, clamp.
  destruct (Qltb x hi) eqn:Hx;
    [apply Qltb_true in Hx | apply Qltb_false in Hx];
  repeat match goal with
         | |- context [Qltb ?a ?b] =>
             let H := fresh "H" in
             destruct (Qltb a b) eqn:H;
             [apply Qltb_true in H | apply Qltb_false in H]
         end; lra.
Qed.

Lemma round_half_even_comp (x y : Q) :
  x == y -> round_half_even x = round_half_even y.
Proof.
  intros H. unfold round_half_even.
  rewrite (Qfloor_comp x y H).
  assert (x - inject_Z (Qfloor y) == y - inject_Z (Qfloor y)) as Hd
    by now rewrite H.
  now rewrite (Qcompare_comp _ _ Hd (1 # 2) (1 # 2) (Qeq_refl _)).
Qed.

Lemma py_round_comp (n : nat) (x y : Q) :
  x == y -> py_round n x = py_round n y.
Proof.
  intros H. unfold py_round. apply Qred_complete.
  set (scale := inject_Z (10 ^ Z.of_nat n)).
  rewrite (round_half_even_comp (x * scale) (y * scale)); [reflexivity|].
  now rewrite H.
Qed.

End NumFacts.

(** ** Metrics and the fallback scorer *)

Module ScoreFacts.
Import NumFacts.
Local Open Scope Q_scope.

Lemma rates_of_analyzed (E : services) (posts : list post) :
  map ap_er (map (analyze_for_metrics E) posts) = post_rates posts.
Proof. unfold post_rates. now rewrite map_map. Qed.

Lemma engagement_rate_cases (likes comments views : Z) :
  ((0 < views)%Z ->
   engagement_rate likes comments views
   = inject_Z (likes + comments) / inject_Z views)
  /\ ((views <= 0)%Z ->
      engagement_rate likes comments views
      = inject_Z (likes + comments) / inject_Z (Z.max likes 1)).
Proof.
  unfold engagement_rate. split; intros H.
  - now apply Z.ltb_lt in H as ->.
  - destruct (0 <? views)%Z eqn:Hv; [|reflexivity].
    apply Z.ltb_lt in Hv. lia.
Qed.

(** C6, as stated: the scores are not the unrounded formulas.  The
    metrics of one post with six likes and one comment give a content
    quality of 64.3, while the formula gives 450/7. *)
Lemma unrounded_scores_refuted :
  exists m,
    aggregate_post_metrics Scripted.quiet Samples.single_post = Some m
    /\ ContentQuality (calculate_scores_manually (Some m) (s "sample"))
       = 643 # 10
    /\ clamp (60 + 30 * m_commentShare m
              + py_min 20 (m_commentsPer10kViews m / 5)) 0 100 == 450 # 7
    /\ ~ ContentQuality (calculate_scores_manually (Some m) (s "sample"))
         == clamp (60 + 30 * m_commentShare m
                   + py_min 20 (m_commentsPer10kViews m / 5)) 0 100.
Proof.
  eexists. split; [reflexivity|]. split; [vm_compute; reflexivity|].
  split; [vm_compute; reflexivity|]. vm_compute. discriminate.
Qed.

(** C6, amended.  On every aggregated-metrics input the fallback scorer
    returns each formula of the specification rounded to one decimal:
    Authenticity is the consistency score clamped to [0, 100], BrandSafety
    is 85, AudienceMatch is 75 when the hashtag map is non-empty and 70
    otherwise, ContentQuality is 60 + 30 * comment share + min(20,
    comments per 10k views / 5) clamped to [0, 100]. *)
Theorem fallback_scores_spec (m : metrics) (username : str) :
  let sc := calculate_scores_manually (Some m) username in
  Authenticity sc = py_round 1 (clamp (m_consistencyScore m) 0 100)
  /\ BrandSafety sc = 85
  /\ AudienceMatch sc = match m_hashtagCounts m with [] => 70 | _ => 75 end
  /\ ContentQuality sc
     = py_round 1 (clamp (60 + 30 * m_commentShare m
                          + py_min 20 (m_commentsPer10kViews m / 5)) 0 100).
Proof.
  cbn [calculate_scores_manually Authenticity BrandSafety AudienceMatch
       ContentQuality].
  repeat split.
  - apply py_round_comp. apply max_min_clamp; [lra | reflexivity].
  - destruct (m_hashtagCounts m); reflexivity.
  - apply py_round_comp. apply max_min_clamp; [lra | ring].
Qed.

(** C7, as stated: the consistency score is not computed from the
    engagement rates of all posts.  On three posts without reactions and
    one with rate 4 the code keeps the single positive rate and answers
    85; the deviation of the four rates is 2, which would give 80. *)
Lemma consistency_over_all_rates_refuted :
  exists m,
    aggregate_post_metrics Scripted.quiet Samples.quiet_feed = Some m
    /\ post_rates Samples.quiet_feed = [0 / 1; 0 / 1; 0 / 1; 4 / 1]
    /\ m_consistencyScore m == 85
    /\ clamp (100 - 10 * stdev_or_zero (post_rates Samples.quiet_feed)) 0 85
       == 80
    /\ ~ m_consistencyScore m
         == clamp (100 - 10 * stdev_or_zero (post_rates Samples.quiet_feed))
              0 85.
Proof.
  eexists. split; [reflexivity|]. split; [reflexivity|].
  split; [vm_compute; reflexivity|]. split; [vm_compute; reflexivity|].
  vm_compute. discriminate.
Qed.

(** C7, amended.  On a non-empty post list the aggregator gives every
    post the rate (likes + comments) / views when it has views and
    (likes + comments) / max(likes, 1) otherwise, and the consistency
    score is 100 - 10 * stdev clamped to [0, 85], where stdev is the
    standard deviation of the rates that are positive, 0 when fewer than
    two of them are. *)
Theorem consistency_score_spec (E : services) (posts : list post) :
  posts <> [] ->
  exists m,
    aggregate_post_metrics E posts = Some m
    /\ Forall (fun p =>
                 let a := analyze_for_metrics E p in
                 let n := inject_Z (ap_likes a + ap_comments a) in
                 ((0 < ap_views a)%Z -> ap_er a = n / inject_Z (ap_views a))
                 /\ ((ap_views a <= 0)%Z ->
                     ap_er a = n / inject_Z (Z.max (ap_likes a) 1))) posts
    /\ m_consistencyScore m
       == clamp (100 - 10 * stdev_or_zero (positive_rates posts)) 0 85.
Proof.
  intros Hne. destruct posts as [|p0 rest]; [easy|].
  eexists. split; [reflexivity|]. split.
  - apply Forall_forall. intros p _. cbn [analyze_for_metrics ap_er ap_views
      ap_likes ap_comments]. apply engagement_rate_cases.
  - cbn [m_consistencyScore].
    rewrite (rates_of_analyzed E (p0 :: rest)).
    apply max_min_clamp; [lra|].
    unfold stdev_or_zero, positive_rates, Nat.ltb. ring.
Qed.

Lemma consistency_score_spec_witness :
  exists m,
    aggregate_post_metrics Scripted.quiet Samples.single_post = Some m
    /\ m_consistencyScore m == 85.
Proof.
  destruct (consistency_score_spec Scripted.quiet Samples.single_post)
    as [m [Hm [_ Hc]]]; [discriminate|].
  exists m. split; [exact Hm|].
  rewrite Hc. vm_compute. reflexivity.
Defined.

End ScoreFacts.

(** ** The candidate filter *)

Module CandidateFacts.
Import PyFacts.

Lemma profile_handle_some (E : services) (url user : str) :
  profile_handle E url = Some user ->
  exists hostname path,
    urlparse E url = Some (Some hostname, path)
    /\ contains (s "instagram.com") hostname = true
    /\ path_segments path = [user]
    /\ handle_pattern user = true.
Proof.
  unfold profile_handle.
  destruct (urlparse E url) as [[[hostname|] path]|]; try discriminate.
  destruct (negb (truthy hostname)
            || negb (contains (s "instagram.com") hostname)) eqn:Hh;
    [discriminate|].
  apply orb_false_iff in Hh as [_ Hc]. apply negb_false_iff in Hc.
  destruct (path_segments path) as [|u [|u' rest]] eqn:Hp; try discriminate.
  destruct (handle_pattern u) eqn:Hu; [|discriminate].
  intros [= <-]. now exists hostname, path.
Qed.

Lemma mem_false_not_in (x : str) (xs : list str) :
  mem x xs = false -> ~ In x xs.
Proof.
  intros Hm Hin. unfold mem in Hm.
  assert (existsb (Py.eqb x) xs = true) as H; [|congruence].
  apply existsb_exists. exists x. split; [exact Hin|]. now apply eqb_true.
Qed.

Lemma filter_step_invariant (E : services) (organic : list search_hit)
    (state : list str * list candidate) (item : search_hit) :
  In item organic ->
  loop_invariant E organic state ->
  loop_invariant E organic (filter_step E state item).
Proof.
  intros Hin. destruct state as [seen cands]. intros [Hmap [Hnd Hall]].
  unfold filter_step.
  destruct (negb (truthy (clean_link (hit_link item)))); [now split|].
  destruct (profile_handle E (clean_link (hit_link item))) as [user|] eqn:Hp;
    [|now split].
  destruct (mem (lower user) seen) eqn:Hm; [now split|].
  split; [|split].
  - rewrite map_app, Hmap. cbn [map rev]. f_equal.
    unfold candidate_handle. cbn [c_url]. now rewrite Hp.
  - constructor; [now apply mem_false_not_in | exact Hnd].
  - apply Forall_app. split; [exact Hall|].
    constructor; [|constructor]. split; [reflexivity|]. now exists item.
Qed.

Lemma filter_loop_invariant (E : services) (organic items : list search_hit)
    (state : list str * list candidate) :
  (forall item, In item items -> In item organic) ->
  loop_invariant E organic state ->
  loop_invariant E organic (fold_left (filter_step E) items state).
Proof.
  revert state. induction items as [|item items IH]; intros state Hsub Hinv.
  - exact Hinv.
  - cbn [fold_left]. apply IH.
    + intros i Hi. apply Hsub. now right.
    + apply filter_step_invariant; [|exact Hinv]. apply Hsub. now left.
Qed.

Lemma strict_candidates_invariant (E : services) (organic : list search_hit) :
  exists seen,
    loop_invariant E organic (seen, strict_candidates E organic).
Proof.
  unfold strict_candidates.
  pose proof (filter_loop_invariant E organic organic ([], [])
                (fun _ H => H)) as H.
  destruct (fold_left (filter_step E) organic ([], [])) as [seen cands].
  exists seen. apply H. repeat split; constructor.
Qed.

Lemma NoDup_rev_map_Some (seen : list str) :
  NoDup seen -> NoDup (rev (map (@Some str) seen)).
Proof.
  intros H. apply NoDup_rev. induction H as [|x l Hx Hl IH]; simpl.
  - constructor.
  - constructor; [|exact IH].
    intros Hin. apply in_map_iff in Hin as [y [[= ->] Hy]]. contradiction.
Qed.

(** C5, as stated: a hit may be kept although its path has two segments.
    When no hit passes the strict filter the first link that mentions the
    profile domain is kept, here the link of a post. *)
Lemma fallback_candidate_refutes_strict_filter :
  let organic := [Samples.hit "https://www.instagram.com/p/Cabc123/"] in
  let candidates :=
    snd (build_search_query_and_filter_candidates Scripted.quiet
           (Samples.normalized "someone") (s "someone") organic) in
  exists c,
    candidates = [c]
    /\ c_url c = s "https://www.instagram.com/p/Cabc123"
    /\ urlparse Scripted.quiet (c_url c)
       = Some (Some (s "www.instagram.com"), s "/p/Cabc123")
    /\ path_segments (s "/p/Cabc123") = [s "p"; s "Cabc123"]
    /\ ~ passes_strict_filter Scripted.quiet (c_url c).
Proof.
  eexists. split; [reflexivity|]. split; [reflexivity|].
  split; [reflexivity|]. split; [reflexivity|].
  intros [hostname [path [user [Hu [_ [Hp _]]]]]].
  vm_compute in Hu. injection Hu as <- <-. vm_compute in Hp. discriminate.
Qed.

(** C5, amended.  A candidate that is not flagged as fallback comes from
    a hit whose link, with query parameters and a trailing slash
    stripped, has a host name containing the profile domain and exactly
    one path segment matching the handle pattern; the candidates have
    pairwise different lower-case handles.  In particular the two hits
    [https://www.instagram.com/foo/?hl=en] and
    [https://www.instagram.com/foo] give exactly one candidate, with
    handle [foo]; written without scheme, the two links give exactly one
    candidate as well, the fallback one. *)
Theorem candidate_filter_spec :
  (forall (E : services) (norm_data : NormalizationResult)
          (fallback_query : str) (organic : list search_hit),
      let candidates :=
        snd (build_search_query_and_filter_candidates E norm_data
               fallback_query organic) in
      (forall c, In c candidates -> c_fallback c = false ->
                 (exists item, In item organic
                               /\ c_url c = clean_link (hit_link item))
                 /\ passes_strict_filter E (c_url c))
      /\ NoDup (map (candidate_handle E) candidates))
  /\ (let candidates :=
        snd (build_search_query_and_filter_candidates Scripted.quiet
               (Samples.normalized "foo") (s "foo")
               [Samples.hit "https://www.instagram.com/foo/?hl=en";
                Samples.hit "https://www.instagram.com/foo"]) in
      map c_url candidates = [s "https://www.instagram.com/foo"]
      /\ map (candidate_handle Scripted.quiet) candidates = [Some (s "foo")])
  /\ (let candidates :=
        snd (build_search_query_and_filter_candidates Scripted.quiet
               (Samples.normalized "foo") (s "foo")
               [Samples.hit "instagram.com/foo/?hl=en";
                Samples.hit "instagram.com/foo"]) in
      map c_url candidates = [s "instagram.com/foo"]
      /\ map c_fallback candidates = [true]).
Proof.
  split; [|split; split; reflexivity].
  intros E norm_data fallback_query organic.
  destruct (strict_candidates_invariant E organic) as [seen [Hmap [Hnd Hall]]].
  cbn [build_search_query_and_filter_candidates snd].
  destruct (strict_candidates E organic) as [|c0 cs] eqn:Hs.
  - destruct organic as [|i0 rest]; [split; [easy | constructor]|].
    destruct (first_instagram_hit (i0 :: rest)) as [first_ig|].
    + split.
      * intros c [<- | []]. discriminate.
      * repeat constructor. easy.
    + split; [easy | constructor].
  - split.
    + intros c Hin _.
      pose proof (proj1 (Forall_forall _ _) Hall c Hin) as [_ Hitem].
      split; [exact Hitem|].
      assert (In (candidate_handle E c) (rev (map Some seen))) as Hh.
      { rewrite <- Hmap. now apply in_map. }
      apply in_rev, in_map_iff in Hh as [h [Hh _]].
      unfold candidate_handle in Hh.
      destruct (profile_handle E (c_url c)) as [user|] eqn:Hp;
        [|discriminate].
      destruct (profile_handle_some E _ _ Hp) as [hostname [path H]].
      now exists hostname, path, user.
    + rewrite Hmap. now apply NoDup_rev_map_Some.
Qed.

Lemma candidate_filter_spec_witness :
  let c := {| c_title := s "title";
              c_url := s "https://www.instagram.com/foo";
              c_snippet := s "snippet";
              c_fallback := false |} in
  passes_strict_filter Scripted.quiet (c_url c).
Proof.
  intros c.
  apply (proj1 candidate_filter_spec Scripted.quiet
           (Samples.normalized "foo") (s "foo")
           [Samples.hit "https://www.instagram.com/foo/?hl=en";
            Samples.hit "https://www.instagram.com/foo"]).
  - left. reflexivity.
  - reflexivity.
Defined.

End CandidateFacts.

(** ** The profile store *)

Module StoreFacts.
Local Open Scope Z_scope.

Lemma check_profile_exists_by_age (E : services) (username : str)
    (w : world) (record : profile) (scraped : Z) :
  Dict.get (lower username) (profiles (get_database E w)) = Some record ->
  fromisoformat E (last_scraped (pr_metadata record))
  = Some {| dt_micros := scraped; dt_utcoffset := None |} ->
  check_profile_exists E username w
  = ((clock E (trace w) - scraped <? seven_days), Some record).
Proof.
  intros Hget Hiso. unfold check_profile_exists. rewrite Hget, Hiso.
  now destruct (clock E (trace w) - scraped <? seven_days).
Qed.

(** C2.  A stored profile whose time stamp is more than seven days old
    is stale: it is returned with [found = False].  One that is less than
    seven days old is fresh: it is returned with [found = True].  So a
    profile scraped 7 days and 1 second ago is stale and one scraped
    6 days 23 h 59 min 59 s ago is fresh. *)
Theorem staleness_boundary (E : services) (username : str) (w : world)
    (record : profile) (scraped : Z) :
  Dict.get (lower username) (profiles (get_database E w)) = Some record ->
  fromisoformat E (last_scraped (pr_metadata record))
  = Some {| dt_micros := scraped; dt_utcoffset := None |} ->
  let age := clock E (trace w) - scraped in
  (seven_days < age ->
   check_profile_exists E username w = (false, Some record))
  /\ (age < seven_days ->
      check_profile_exists E username w = (true, Some record))
  /\ (age = seven_days + 1000000 ->
      check_profile_exists E username w = (false, Some record))
  /\ (age = seven_days - 1000000 ->
      check_profile_exists E username w = (true, Some record)).
Proof.
  intros Hget Hiso age.
  rewrite (check_profile_exists_by_age E username w record scraped Hget Hiso).
  fold age.
  repeat split; intros H; f_equal.
  - apply Z.ltb_ge. lia.
  - now apply Z.ltb_lt.
  - apply Z.ltb_ge. lia.
  - apply Z.ltb_lt. lia.
Qed.

Lemma staleness_boundary_witness :
  check_profile_exists (Samples.at_time 1709899201000000) (s "Someone")
    (Samples.world_with
       [(s "someone", Samples.someone_scraped_at "2024-03-01T12:00:00")])
  = (false, Some (Samples.someone_scraped_at "2024-03-01T12:00:00"))
  /\ check_profile_exists (Samples.at_time 1709899199000000) (s "Someone")
       (Samples.world_with
          [(s "someone", Samples.someone_scraped_at "2024-03-01T12:00:00")])
     = (true, Some (Samples.someone_scraped_at "2024-03-01T12:00:00")).
Proof.
  split.
  - apply (staleness_boundary (Samples.at_time 1709899201000000)
             (s "Someone") _ _ 1709294400000000);
      [reflexivity | reflexivity | reflexivity].
  - apply (staleness_boundary (Samples.at_time 1709899199000000)
             (s "Someone") _ _ 1709294400000000);
      [reflexivity | reflexivity | reflexivity].
Defined.

(** C10.  Without the [username] key, or with an empty user name,
    nothing is written: [insert_complete_profile] returns [False] and the
    world, the persisted store included, is as before.  The store is
    written, once, exactly when the user name is a non-empty string.
    Under the key the value [None], which is what [format_profile_data]
    stores when the URL shows no user name, is neither: the call raises
    [AttributeError] before anything is read or written. *)
Theorem insert_without_username (E : services) (info : profile_info)
    (posts_data : list post) (metrics_data : option metrics)
    (scores_data : option scores) (w : world) :
  match pi_username info with
  | Missing | PyStr [] =>
      insert_complete_profile E info posts_data metrics_data scores_data w
      = inr (false, w)
  | PyNone =>
      insert_complete_profile E info posts_data metrics_data scores_data w
      = inl AttributeError
  | PyStr (_ :: _) =>
      exists ok w',
        insert_complete_profile E info posts_data metrics_data scores_data w
        = inr (ok, w')
        /\ trace w' = trace w ++ [StoreWrite ok]
  end.
Proof.
  unfold insert_complete_profile, username_key, save_database.
  destruct (pi_username info) as [| |[|c u]]; try reflexivity.
  cbn [lower map truthy negb].
  destruct (disk_write E (trace w)); eexists _, _; split; reflexivity.
Qed.

Lemma insert_without_username_witness :
  insert_complete_profile Scripted.quiet (Samples.info Missing)
    Samples.quiet_feed None None (Samples.world_with [])
  = inr (false, Samples.world_with [])
  /\ insert_complete_profile Scripted.quiet (Samples.info (PyStr []))
       Samples.quiet_feed None None (Samples.world_with [])
     = inr (false, Samples.world_with [])
  /\ insert_complete_profile Scripted.quiet (Samples.info PyNone)
       Samples.quiet_feed None None (Samples.world_with [])
     = inl AttributeError.
Proof.
  split; [|split].
  - exact (insert_without_username Scripted.quiet (Samples.info Missing)
             Samples.quiet_feed None None (Samples.world_with [])).
  - exact (insert_without_username Scripted.quiet (Samples.info (PyStr []))
             Samples.quiet_feed None None (Samples.world_with [])).
  - exact (insert_without_username Scripted.quiet (Samples.info PyNone)
             Samples.quiet_feed None None (Samples.world_with [])).
Defined.

End StoreFacts.

(** ** The vector index *)

Module IndexFacts.

Lemma py_index_in {A : Type} (t : list A) (i : Z) (x : A) :
  py_index t i = inr x -> In x t.
Proof.
  unfold py_index.
  match goal with
  | |- (if ?c then _ else _) = _ -> _ => destruct c; [discriminate|]
  end.
  match goal with
  | |- match nth_error t ?j with _ => _ end = _ -> _ =>
      destruct (nth_error t j) as [y|] eqn:Hn; [|discriminate]
  end.
  intros [= <-]. eapply nth_error_In; eassumption.
Qed.

Lemma py_index_in_range {A : Type} (t : list A) (i : Z) :
  (0 <= i < Z.of_nat (length t))%Z ->
  exists x, py_index t i = inr x /\ nth_error t (Z.to_nat i) = Some x.
Proof.
  intros [H0 H1]. unfold py_index.
  destruct (i <? 0)%Z eqn:Hneg; [apply Z.ltb_lt in Hneg; lia|].
  cbv beta iota zeta. rewrite Hneg. cbn [orb].
  destruct (Z.of_nat (length t) <=? i)%Z eqn:Hbig;
    [apply Z.leb_le in Hbig; lia|].
  destruct (nth_error t (Z.to_nat i)) as [y|] eqn:Hn.
  - now exists y.
  - apply nth_error_None in Hn. lia.
Qed.

(** C8.  A rebuild never succeeds.  [build_faiss_index] compares the
    shape of the matrix, a tuple, with an integer, so the check raises
    whatever the matrix is: on two vectors with two user names, as on
    every input, no index is built and the matcher keeps the index and
    the keys it had. *)
Theorem rebuild_raises :
  build_faiss_index Samples.idle_matcher Samples.two_by_three
    [s "alice"; s "bob"] = inl TypeError
  /\ forall (self : matcher_state) (embeddings : ndarray)
            (usernames : list str),
       exists e, build_faiss_index self embeddings usernames = inl e.
Proof.
  split; [reflexivity|].
  intros self embeddings usernames. unfold build_faiss_index.
  match goal with
  | |- exists e, (if ?c then _ else _) = _ => destruct c
  end.
  - now exists AssertionError.
  - now exists TypeError.
Qed.

Lemma collect_hits_within_keys (keys : list str) (hits : list (Q * Z))
    (results : list (str * Q)) :
  collect_hits keys hits = inr results ->
  Forall (fun r => In (fst r) keys) results.
Proof.
  revert results. induction hits as [|[score idx] rest IH]; intros results.
  - intros [= <-]. constructor.
  - cbn [collect_hits].
    destruct (idx =? -1)%Z; [apply IH|].
    destruct (Z.of_nat (length keys) <=? idx)%Z; [apply IH|].
    destruct (py_index keys idx) as [e|username] eqn:Hi; [discriminate|].
    destruct (collect_hits keys rest) as [e|rs]; [discriminate|].
    intros [= <-]. constructor; [|now apply IH].
    now apply py_index_in in Hi.
Qed.

Lemma collect_hits_skips (keys : list str) (hits : list (Q * Z)) :
  Forall (fun hit => (-1 <= snd hit)%Z) hits ->
  collect_hits keys hits = inr (hits_in_range keys hits).
Proof.
  induction 1 as [|[score idx] rest Hidx _ IH]; [reflexivity|].
  cbn [snd] in Hidx. cbn [collect_hits hits_in_range flat_map fst snd].
  fold (hits_in_range keys rest).
  destruct (idx =? -1)%Z eqn:H1.
  - apply Z.eqb_eq in H1. subst idx. rewrite IH. reflexivity.
  - apply Z.eqb_neq in H1.
    destruct (Z.of_nat (length keys) <=? idx)%Z eqn:H2.
    + apply Z.leb_le in H2. rewrite IH.
      replace (idx <? Z.of_nat (length keys))%Z with false
        by (symmetry; apply Z.ltb_ge; lia).
      now rewrite andb_false_r.
    + apply Z.leb_gt in H2.
      destruct (py_index_in_range keys idx) as [u [Hu Hn]]; [lia|].
      rewrite Hu, IH, Hn.
      replace (0 <=? idx)%Z with true by (symmetry; apply Z.leb_le; lia).
      replace (idx <? Z.of_nat (length keys))%Z with true
        by (symmetry; apply Z.ltb_lt; lia).
      reflexivity.
Qed.

(** The search stays inside the key array.  Every user name
    [search_by_text] returns is in the key array; and when the positions
    of the hits are [-1] or above, as
    the vector library gives them, the search does not raise: it returns
    the hits inside the key array and passes over the others, the
    sentinel [-1] included. *)
Theorem search_by_text_within_keys (E : services) (self : matcher_state)
    (text : str) (top_k : nat) :
  (forall results,
      search_by_text E self text top_k = inr results ->
      Forall (fun r => In (fst r) (username_list self)) results)
  /\ (forall (index : flat_index) (q_vec : list Q),
         faiss_index self = Some index ->
         username_list self <> [] ->
         encode E text = Some q_vec ->
         Forall (fun hit => (-1 <= snd hit)%Z)
                (index_search E index q_vec top_k) ->
         search_by_text E self text top_k
         = inr (hits_in_range (username_list self)
                  (index_search E index q_vec top_k))).
Proof.
  split.
  - intros results. unfold search_by_text.
    destruct (faiss_index self) as [index|];
      [|intros [= <-]; constructor].
    destruct (username_list self) as [|k ks] eqn:Hk;
      [intros [= <-]; constructor|].
    destruct (encode E text) as [q_vec|]; [|discriminate].
    apply collect_hits_within_keys.
  - intros index q_vec Hi Hk He Hhits. unfold search_by_text.
    rewrite Hi, He. destruct (username_list self) as [|k ks]; [easy|].
    now apply collect_hits_skips.
Qed.

Lemma search_by_text_within_keys_witness :
  search_by_text (Samples.searching Samples.three_hits)
    Samples.loaded_matcher (s "running shoes") 3
  = inr [(s "bob", (9 # 10)%Q)].
Proof.
  apply (proj2 (search_by_text_within_keys
                  (Samples.searching Samples.three_hits)
                  Samples.loaded_matcher (s "running shoes") 3)
           {| ix_d := 3; ix_vectors := [[1; 0; 0]; [0; 1; 0]]%Q |}
           [1; 0; 0]%Q).
  - reflexivity.
  - discriminate.
  - reflexivity.
  - repeat constructor; discriminate.
Defined.

End IndexFacts.

(** ** Traces *)

Module TraceFacts.

Lemma appends_refl (P : event -> bool) (w : world) : appends P w w.
Proof. split; [reflexivity|]. exists []. now rewrite app_nil_r. Qed.

Lemma appends_trans (P : event -> bool) (w1 w2 w3 : world) :
  appends P w1 w2 -> appends P w2 w3 -> appends P w1 w3.
Proof.
  intros [Hs1 [e1 [Ht1 Hp1]]] [Hs2 [e2 [Ht2 Hp2]]].
  split; [congruence|]. exists (e1 ++ e2). split.
  - now rewrite Ht2, Ht1, app_assoc.
  - rewrite forallb_app. now rewrite Hp1, Hp2.
Qed.

Lemma appends_log (P : event -> bool) (e : event) (w : world) :
  P e = true -> appends P w (log e w).
Proof.
  intros H. split; [reflexivity|]. exists [e]. split; [reflexivity|].
  simpl. now rewrite H.
Qed.

Lemma appends_weaken (P Q : event -> bool) (w w' : world) :
  (forall e, P e = true -> Q e = true) -> appends P w w' -> appends Q w w'.
Proof.
  intros HPQ [Hs [ev [Ht Hp]]]. split; [exact Hs|]. exists ev.
  split; [exact Ht|]. apply forallb_forall. intros e He.
  apply HPQ. now apply (proj1 (forallb_forall _ _) Hp).
Qed.

Lemma message_model_attempts_appends (E : services) (n : nat) (w : world) :
  appends is_llm w (snd (message_model_attempts E n w)).
Proof.
  revert w. induction n as [|n IH]; intros w; simpl.
  - apply appends_refl.
  - assert (appends is_llm w (log (LlmRequest false) w)) as Hlog
      by now apply appends_log.
    destruct (chat_completion E (trace w)) as [content|].
    + destruct (truthy content && truthy (strip content)); [exact Hlog|].
      eapply appends_trans; [exact Hlog | apply IH].
    + eapply appends_trans; [exact Hlog | apply IH].
Qed.

Lemma message_model_appends (E : services) (w : world) :
  appends is_llm w (snd (message_model E w)).
Proof.
  unfold message_model.
  destruct (negb (openrouter_client E) || negb (OPENROUTER_API_KEY E)).
  - apply appends_refl.
  - apply message_model_attempts_appends.
Qed.

Lemma message_model_async_attempts_appends (E : services) (n : nat)
    (w : world) :
  appends is_llm w (snd (message_model_async_attempts E n w)).
Proof.
  revert w. induction n as [|n IH]; intros w; simpl.
  - apply appends_refl.
  - assert (appends is_llm w (log (LlmRequest true) w)) as Hlog
      by now apply appends_log.
    destruct (chat_completion_async E (trace w)) as [content|].
    + destruct (truthy content && truthy (strip content)); [exact Hlog|].
      eapply appends_trans; [exact Hlog | apply IH].
    + eapply appends_trans; [exact Hlog | apply IH].
Qed.

Lemma message_model_async_appends (E : services) (w : world) :
  appends is_llm w (snd (message_model_async E w)).
Proof.
  unfold message_model_async. destruct (negb (OPENROUTER_API_KEY E)).
  - apply appends_refl.
  - apply message_model_async_attempts_appends.
Qed.

Lemma search_google_appends (E : services) (query : str) (w : world) :
  appends is_query w (snd (search_google E query w)).
Proof.
  unfold search_google. destruct (negb (SERPER_API_KEY E)).
  - apply appends_refl.
  - now apply appends_log.
Qed.

Lemma llm_is_query (e : event) : is_llm e = true -> is_query e = true.
Proof. now destruct e. Qed.

Lemma query_is_harmless (e : event) :
  is_query e = true -> is_scrape e = false /\ is_write e = false.
Proof. now destruct e. Qed.

End TraceFacts.

(** ** The orchestrator of main.py *)

Module WorkflowFacts.
Import TraceFacts.

Lemma select_profile_appends (E : services) (chat_message : str) (w : world) :
  appends is_query w (snd (select_profile E chat_message w)).
Proof.
  unfold select_profile.
  pose proof (message_model_appends E w) as H1.
  destruct (message_model E w) as [normalized_text w1]. cbn [snd] in H1.
  apply (appends_weaken _ is_query _ _ llm_is_query) in H1.
  match goal with
  | |- context [search_google E ?q w1] =>
      pose proof (search_google_appends E q w1) as H2;
      destruct (search_google E q w1) as [search_results w2]
  end.
  cbn [snd] in H2.
  pose proof (appends_trans _ _ _ _ H1 H2) as H12.
  destruct search_results as [organic_results|]; [|exact H12].
  match goal with
  | |- context [build_search_query_and_filter_candidates E ?n ?q ?o] =>
      destruct (build_search_query_and_filter_candidates E n q o)
        as [search_query candidates]
  end.
  destruct candidates as [|first_candidate rest]; [exact H12|].
  pose proof (message_model_appends E w2) as H3.
  destruct (message_model E w2) as [selection_text w3]. cbn [snd] in H3.
  apply (appends_weaken _ is_query _ _ llm_is_query) in H3.
  pose proof (appends_trans _ _ _ _ H12 H3) as H123.
  match goal with
  | |- context [if ?c then (None, w3) else _] => destruct c; [exact H123|]
  end.
  match goal with
  | |- context [entry_get (pi_username ?pd)] =>
      destruct (entry_get (pi_username pd)) as [username|]
  end; [|exact H123].
  destruct (truthy username); exact H123.
Qed.

(** C1.  When the workflow has selected a user name and the profile
    store holds a record for it that was scraped less than seven days
    ago, [run_workflow] returns that very record, scores and metrics
    included; no scraper is called and the store is not written: the
    store file is as before and the only events of the run are requests
    to the language model and to the web search. *)
Theorem cache_hit_short_circuit (E : services) (chat_message : str)
    (w w1 : world) (profile_data : profile_info) (username : str)
    (record : profile) (scraped : Z) :
  truthy (strip chat_message) = true ->
  select_profile E chat_message w = (Some (profile_data, username), w1) ->
  Dict.get (lower username) (profiles (get_database E w1)) = Some record ->
  fromisoformat E (last_scraped (pr_metadata record))
  = Some {| dt_micros := scraped; dt_utcoffset := None |} ->
  (clock E (trace w1) - scraped < seven_days)%Z ->
  run_workflow E chat_message w = (Some record, w1)
  /\ store w1 = store w
  /\ exists events,
       trace w1 = trace w ++ events
       /\ Forall (fun e => is_scrape e = false /\ is_write e = false) events.
Proof.
  intros Hmsg Hsel Hget Hiso Hage.
  pose proof (select_profile_appends E chat_message w) as Happ.
  rewrite Hsel in Happ. cbn [snd] in Happ.
  destruct Happ as [Hstore [events [Htrace Hq]]].
  split; [|split; [exact Hstore|]].
  - unfold run_workflow. rewrite Hmsg.
    assert (truthy chat_message = true) as ->.
    { destruct chat_message; [discriminate Hmsg | reflexivity]. }
    cbn [negb orb]. rewrite Hsel.
    rewrite (StoreFacts.check_profile_exists_by_age E username w1 record
               scraped Hget Hiso).
    now apply Z.ltb_lt in Hage as ->.
  - exists events. split; [exact Htrace|].
    apply Forall_forall. intros e He. apply query_is_harmless.
    now apply (proj1 (forallb_forall _ _) Hq).
Qed.

Lemma cache_hit_short_circuit_witness :
  fst (run_workflow Samples.answering (s "someone") Samples.cached_world)
  = Some (Samples.someone_scraped_at "2024-03-01T12:00:00")
  /\ store (snd (run_workflow Samples.answering (s "someone")
                   Samples.cached_world))
     = store Samples.cached_world.
Proof.
  edestruct (cache_hit_short_circuit Samples.answering (s "someone")
               Samples.cached_world) as [Hrun [Hstore _]].
  - reflexivity.
  - vm_compute. reflexivity.
  - vm_compute. reflexivity.
  - vm_compute. reflexivity.
  - vm_compute. reflexivity.
  - rewrite Hrun. split; [reflexivity | exact Hstore].
Defined.

End WorkflowFacts.

(** ** The search of unified_data_manager.py *)

Module SearchFacts.
Import TraceFacts.

Lemma ensure_all_data_loaded_appends (E : services) (w : world) :
  appends is_llm w (ensure_all_data_loaded E w).
Proof.
  unfold ensure_all_data_loaded, load_precomputed_embeddings,
    load_faiss_index, set_matcher.
  split; [|exists []; split; [rewrite app_nil_r|reflexivity]];
    destruct (embeddings_loaded (udm w)); try reflexivity;
    destruct (embeddings_file E (trace w)); cbn; try reflexivity;
    destruct (index_files E (trace w)) as [[index|] [keys|]]; reflexivity.
Qed.

Lemma get_available_influencers_appends (E : services) (w : world) :
  appends is_llm w (snd (get_available_influencers E w)).
Proof. apply ensure_all_data_loaded_appends. Qed.

Lemma spell_correct_appends (E : services) (query : str)
    (available : list known_influencer) (w : world) :
  appends is_llm w (snd (spell_correct_influencer_name E query available w)).
Proof.
  unfold spell_correct_influencer_name.
  pose proof (message_model_appends E w) as H.
  destruct (message_model E w) as [[text|] w1]; cbn [snd] in *;
    [destruct (truthy text)|]; exact H.
Qed.

Lemma spell_correct_async_appends (E : services) (query : str)
    (available : list known_influencer) (w : world) :
  appends is_llm w
    (snd (spell_correct_influencer_name_async E query available w)).
Proof.
  unfold spell_correct_influencer_name_async.
  destruct (get_session E (trace w)); [|apply appends_refl].
  pose proof (message_model_async_appends E w) as H.
  destruct (message_model_async E w) as [[text|] w1]; cbn [snd] in *;
    [destruct (truthy text)|]; exact H.
Qed.

Lemma normalization_appends (E : services) (query : str)
    (available : list known_influencer) (w : world) :
  appends is_llm w
    (snd (enhanced_influencer_normalization E query available w)).
Proof.
  unfold enhanced_influencer_normalization.
  pose proof (message_model_appends E w) as H.
  destruct (message_model E w) as [[text|] w1]; cbn [snd] in *;
    [destruct (truthy text); [destruct (existsb _ _)|]|]; exact H.
Qed.

Lemma prepare_search_appends (E : services)
    (spell : str -> list known_influencer -> world
             -> SpellCorrectionResult * world)
    (influencer_name : str) (w : world) :
  (forall q a w0, appends is_llm w0 (snd (spell q a w0))) ->
  appends is_llm w (snd (prepare_search E spell influencer_name w)).
Proof.
  intros Hspell. unfold prepare_search.
  pose proof (ensure_all_data_loaded_appends E w) as H0.
  pose proof (get_available_influencers_appends E
                (ensure_all_data_loaded E w)) as H1.
  destruct (get_available_influencers E (ensure_all_data_loaded E w))
    as [available w1]. cbn [snd] in H1.
  pose proof (Hspell influencer_name available w1) as H2.
  destruct (spell influencer_name available w1) as [spelling w2].
  cbn [snd] in H2.
  pose proof (appends_trans _ _ _ _ (appends_trans _ _ _ _ H0 H1) H2) as H012.
  destruct (negb (is_influencer spelling)); [exact H012|].
  pose proof (normalization_appends E (corrected_name spelling) available w2)
    as H3.
  destruct (enhanced_influencer_normalization E (corrected_name spelling)
              available w2) as [normalized w3]. cbn [snd] in *.
  exact (appends_trans _ _ _ _ H012 H3).
Qed.





















(** A run on a name unknown to both stores: two requests to the
    language model, the lookups of every term in both stores, and only
    then the web search, the selection request and the three scrapers. *)
Example unknown_name_is_scraped_last :
  let run :=
    _find_influencer_anywhere_sync Samples.answering (s "zed quux") true
      (Samples.world_with []) in
  trace (snd run)
  = [LlmRequest false; LlmRequest false]
    ++ misses [s "zed quux"; s "Zed Quux"; s "zedquux"; s "zed_quux"]
    ++ [SearchRequest false (s "Zed Quux"); LlmRequest false;
        ScrapePosts false (s "someone"); ScrapeProfile false (s "someone");
        ScrapeCombined (s "someone")].
Proof. vm_compute. reflexivity. Qed.

(** A run on a name the profile store knows ends with the first lookup. *)
Example known_name_is_not_scraped :
  let run :=
    find_influencer_anywhere_async Samples.answering (s "someone") true
      Samples.cached_world in
  snd (fst run) = s "main_db:@someone"
  /\ trace (snd run)
     = [LlmRequest true; LlmRequest false; LookupProfiles (s "someone") true].
Proof. vm_compute. split; reflexivity. Qed.

End SearchFacts.

(** ** Dictionaries *)

Module DictFacts.
Import PyFacts.

Lemma eqb_refl (k : str) : Py.eqb k k = true.
Proof. now apply eqb_true. Qed.

Lemma eqb_false (a b : str) : a <> b -> Py.eqb a b = false.
Proof.
  intros H. destruct (Py.eqb a b) eqn:E; [|reflexivity].
  now apply eqb_true in E.
Qed.

Lemma get_set_same {V : Type} (k : str) (v : V) (d : list (str * V)) :
  Dict.get k (Dict.set k v d) = Some v.
Proof.
  induction d as [|[k' v'] d IH]; simpl.
  - now rewrite eqb_refl.
  - destruct (Py.eqb k' k) eqn:E; simpl.
    + now rewrite eqb_refl.
    + now rewrite E.
Qed.

Lemma get_set_other {V : Type} (k k0 : str) (v : V) (d : list (str * V)) :
  k0 <> k -> Dict.get k0 (Dict.set k v d) = Dict.get k0 d.
Proof.
  intros Hne. induction d as [|[k' v'] d IH]; simpl.
  - now rewrite (eqb_false k k0) by congruence.
  - destruct (Py.eqb k' k) eqn:E; simpl.
    + apply eqb_true in E. subst k'.
      now rewrite (eqb_false k k0) by congruence.
    + now rewrite IH.
Qed.

Lemma length_set {V : Type} (k : str) (v : V) (d : list (str * V)) :
  length (Dict.set k v d)
  = match Dict.get k d with
    | Some _ => length d
    | None => S (length d)
    end.
Proof.
  induction d as [|[k' v'] d IH]; simpl; [reflexivity|].
  destruct (Py.eqb k' k); simpl; [reflexivity|].
  rewrite IH. now destruct (Dict.get k d).
Qed.

Lemma keys_set {V : Type} (k : str) (v : V) (d : list (str * V)) :
  NoDup (map fst d) -> NoDup (map fst (Dict.set k v d)).
Proof.
  induction d as [|[k' v'] d IH]; simpl; intros H.
  - repeat constructor. easy.
  - inversion H as [|? ? Hn Hd]; subst.
    destruct (Py.eqb k' k) eqn:E; simpl.
    + apply eqb_true in E. subst k'. now constructor.
    + constructor; [|now apply IH].
      intros Hin. apply Hn. clear - Hin E.
      induction d as [|[k2 v2] d IH]; simpl in *.
      * destruct Hin as [<- | []]. now rewrite eqb_refl in E.
      * destruct (Py.eqb k2 k) eqn:E2; simpl in *.
        -- destruct Hin as [<- | Hin]; [|now right].
           now rewrite eqb_refl in E.
        -- destruct Hin as [<- | Hin]; [now left | right; now apply IH].
Qed.

Lemma get_of_in {V : Type} (k : str) (v : V) (d : list (str * V)) :
  NoDup (map fst d) -> In (k, v) d -> Dict.get k d = Some v.
Proof.
  induction d as [|[k' v'] d IH]; simpl; intros Hnd Hin; [easy|].
  inversion Hnd as [|? ? Hn Hd]; subst.
  destruct Hin as [[= -> ->] | Hin].
  - now rewrite eqb_refl.
  - destruct (Py.eqb k' k) eqn:E.
    + apply eqb_true in E. subst k'. exfalso. apply Hn.
      now apply (in_map fst) in Hin.
    + now apply IH.
Qed.

End DictFacts.

(** ** More on the profile store *)

Module StoreMore.
Import PyFacts DictFacts.

Lemma lower_nonempty (u : str) : u <> [] -> truthy (lower u) = true.
Proof. now destruct u. Qed.

Lemma insert_success (E : services) info posts m sc w w' :
  insert_complete_profile E info posts m sc w = inr (true, w') ->
  exists u,
    pi_username info = PyStr u /\ u <> [] /\
    let stored :=
      Dict.set (lower u) (complete_profile E info posts m sc w)
        (profiles (get_database E w)) in
    store w'
    = Some {| profiles := stored;
              db_last_updated := now_iso E w;
              db_total_profiles := Some (length stored) |}.
Proof.
  unfold insert_complete_profile, username_key, save_database.
  destruct (pi_username info) as [| |[|c u]]; try discriminate.
  cbn [lower map truthy negb].
  destruct (disk_write E (trace w)); [|discriminate].
  intros [= <-]. exists (c :: u). split; [reflexivity|].
  split; [discriminate | reflexivity].
Qed.

(** X1.  Insert, then look up: when the profile carries a non-empty user
    name and the store file can be written, [insert_complete_profile]
    returns [True] and [get_profile_from_cache] then returns, for the user
    name in any letter case, exactly the record that was built. *)
Theorem insert_then_lookup (E : services) info posts m sc w u k :
  pi_username info = PyStr u -> u <> [] -> lower k = lower u ->
  disk_write E (trace w) = true ->
  exists w',
    insert_complete_profile E info posts m sc w = inr (true, w') /\
    get_profile_from_cache E k w'
    = Some (complete_profile E info posts m sc w).
Proof.
  intros Hu Hne Hk Hdisk.
  unfold insert_complete_profile, username_key, save_database.
  rewrite Hu, (lower_nonempty u Hne), Hdisk. cbn [negb].
  eexists. split; [reflexivity|].
  unfold get_profile_from_cache. simpl.
  rewrite Hk. apply get_set_same.
Qed.

Lemma insert_then_lookup_witness :
  exists w',
    insert_complete_profile Scripted.quiet
      (Samples.info (PyStr (s "Someone"))) Samples.single_post None None
      (Samples.world_with []) = inr (true, w') /\
    get_profile_from_cache Scripted.quiet (s "SOMEONE") w'
    = Some (complete_profile Scripted.quiet
              (Samples.info (PyStr (s "Someone"))) Samples.single_post
              None None (Samples.world_with [])).
Proof.
  apply (insert_then_lookup Scripted.quiet _ _ _ _ _ (s "Someone"));
    [reflexivity | discriminate | reflexivity | reflexivity].
Defined.

(** X2.  A successful [insert_complete_profile] changes one key only: the
    record stored under any other lower-cased user name is the one that
    was stored before. *)
Theorem insert_keeps_other_profiles (E : services) info posts m sc w w' u k :
  insert_complete_profile E info posts m sc w = inr (true, w') ->
  pi_username info = PyStr u ->
  lower k <> lower u ->
  get_profile_from_cache E k w' = get_profile_from_cache E k w.
Proof.
  intros Hok Hu Hk.
  destruct (insert_success E info posts m sc w w' Hok) as (u' & Hu' & _ & Hs).
  rewrite Hu in Hu'. injection Hu' as <-.
  unfold get_profile_from_cache at 1. unfold get_database at 1.
  rewrite Hs. simpl. now apply get_set_other.
Qed.

Lemma insert_keeps_other_profiles_witness :
  let E := Scripted.quiet in
  let info := Samples.info (PyStr (s "Someone")) in
  let w := Samples.world_with [(s "other", Samples.someone)] in
  let w' :=
    match insert_complete_profile E info Samples.single_post None None w
    with
    | inr (_, w1) => w1
    | inl _ => w
    end in
  get_profile_from_cache E (s "Other") w'
  = get_profile_from_cache E (s "Other") w.
Proof.
  intros E info w w'.
  apply (insert_keeps_other_profiles E info Samples.single_post None None
           w w' (s "Someone")).
  - reflexivity.
  - reflexivity.
  - vm_compute. discriminate.
Defined.

(** X3.  After a successful [insert_complete_profile] the stored
    [total_profiles] is the number of stored profiles, and that number
    has grown by one when the user name was new and is unchanged when a
    record of that user was replaced. *)
Theorem insert_counts_profiles (E : services) info posts m sc w w' u :
  insert_complete_profile E info posts m sc w = inr (true, w') ->
  pi_username info = PyStr u ->
  db_total_profiles (get_database E w')
  = Some (length (profiles (get_database E w'))) /\
  length (profiles (get_database E w'))
  = match get_profile_from_cache E u w with
    | Some _ => length (profiles (get_database E w))
    | None => S (length (profiles (get_database E w)))
    end.
Proof.
  intros Hok Hu.
  destruct (insert_success E info posts m sc w w' Hok) as (u' & Hu' & _ & Hs).
  rewrite Hu in Hu'. injection Hu' as <-.
  unfold get_database at 1 2 3. rewrite Hs. simpl.
  split; [reflexivity|]. apply length_set.
Qed.

Lemma insert_counts_profiles_witness :
  let E := Scripted.quiet in
  let info := Samples.info (PyStr (s "Someone")) in
  let w := Samples.world_with [(s "someone", Samples.someone)] in
  let w' :=
    match insert_complete_profile E info Samples.single_post None None w
    with
    | inr (_, w1) => w1
    | inl _ => w
    end in
  db_total_profiles (get_database E w')
  = Some (length (profiles (get_database E w'))) /\
  length (profiles (get_database E w'))
  = match get_profile_from_cache E (s "Someone") w with
    | Some _ => length (profiles (get_database E w))
    | None => S (length (profiles (get_database E w)))
    end.
Proof.
  intros E info w w'.
  apply (insert_counts_profiles E info Samples.single_post None None
           w w' (s "Someone")); reflexivity.
Defined.

(** X4.  [check_profile_exists] returns the stored record whenever there
    is one, fresh or not, and answers [True] exactly when the record's
    [last_scraped] parses to a naive time less than seven days before
    now; an unknown user, a time stamp that does not parse and an aware
    time stamp all give [False]. *)
Theorem check_profile_exists_spec (E : services) username w :
  snd (check_profile_exists E username w)
  = get_profile_from_cache E username w /\
  (fst (check_profile_exists E username w) = true <->
   exists record scraped,
     get_profile_from_cache E username w = Some record /\
     fromisoformat E (last_scraped (pr_metadata record))
     = Some {| dt_micros := scraped; dt_utcoffset := None |} /\
     (clock E (trace w) - scraped < seven_days)%Z).
Proof.
  unfold check_profile_exists, get_profile_from_cache.
  destruct (Dict.get _ _) as [record|]; simpl.
  - destruct (fromisoformat E _) as [[scraped [off|]]|] eqn:Hiso; simpl.
    + split; [reflexivity|]. split; [discriminate|].
      intros (r & t & [= <-] & Ht & _). congruence.
    + destruct (Z.ltb_spec (clock E (trace w) - scraped) seven_days);
        simpl; (split; [reflexivity|]); split.
      * intros _. now exists record, scraped.
      * reflexivity.
      * discriminate.
      * intros (r & t & [= <-] & Ht & Hlt).
        rewrite Hiso in Ht. injection Ht as <-. lia.
    + split; [reflexivity|]. split; [discriminate|].
      intros (r & t & [= <-] & Ht & _). congruence.
  - split; [reflexivity|]. split; [discriminate|].
    intros (r & t & Hr & _). discriminate.
Qed.

End StoreMore.

(** ** Counting and ranking *)

Module CountFacts.
Import PyFacts DictFacts.

Lemma count_all_app (a b : list str) (d : list (str * nat)) :
  count_all (a ++ b) d = count_all b (count_all a d).
Proof. unfold count_all. apply fold_left_app. Qed.

Lemma count_posts {A : Type} (f : A -> list str) (l : list A) d :
  fold_left (fun c p => count_all (f p) c) l d = count_all (flat_map f l) d.
Proof.
  revert d. induction l as [|p l IH]; intros d; simpl; [reflexivity|].
  now rewrite IH, count_all_app.
Qed.

Lemma get_count_all (tag : str) (items : list str) (d : list (str * nat)) :
  Dict.get tag (count_all items d)
  = match Dict.get tag d, occurrences tag items with
    | Some m, n => Some (m + n)
    | None, 0 => None
    | None, n => Some n
    end.
Proof.
  revert d. induction items as [|k items IH]; intros d.
  - unfold occurrences. simpl.
    destruct (Dict.get tag d); [f_equal; lia | reflexivity].
  - change (count_all (k :: items) d) with (count_all items (Dict.count k d)).
    rewrite IH. unfold occurrences. simpl filter.
    destruct (Py.eqb tag k) eqn:Hk.
    + apply eqb_true in Hk. subst k. unfold Dict.count.
      rewrite get_set_same. simpl length.
      destruct (Dict.get tag d); f_equal; lia.
    + unfold Dict.count. rewrite get_set_other; [reflexivity|].
      intros ->. now rewrite eqb_refl in Hk.
Qed.

Lemma keys_count_all (items : list str) (d : list (str * nat)) :
  NoDup (map fst d) -> NoDup (map fst (count_all items d)).
Proof.
  revert d. induction items as [|k items IH]; intros d H; [exact H|].
  apply IH. now apply keys_set.
Qed.

Lemma sum_set (k : str) (d : list (str * nat)) :
  fold_right Nat.add 0 (map snd (Dict.count k d))
  = S (fold_right Nat.add 0 (map snd d)).
Proof.
  unfold Dict.count. induction d as [|[k' n] d IH]; simpl; [reflexivity|].
  destruct (Py.eqb k' k); simpl; [lia|].
  destruct (Dict.get k d); simpl in *; lia.
Qed.

Lemma sum_count_all (items : list str) (d : list (str * nat)) :
  fold_right Nat.add 0 (map snd (count_all items d))
  = length items + fold_right Nat.add 0 (map snd d).
Proof.
  revert d. induction items as [|k items IH]; intros d; [reflexivity|].
  change (count_all (k :: items) d) with (count_all items (Dict.count k d)).
  rewrite IH, sum_set. simpl. lia.
Qed.

Lemma insert_by_count_perm x l : Permutation (insert_by_count x l) (x :: l).
Proof.
  induction l as [|y l IH]; simpl; [reflexivity|].
  destruct (snd x <? snd y); [|reflexivity].
  rewrite IH. apply perm_swap.
Qed.

Lemma sorted_by_count_perm l : Permutation (sorted_by_count l) l.
Proof.
  induction l as [|x l IH]; simpl; [reflexivity|].
  rewrite insert_by_count_perm. now constructor.
Qed.

Lemma in_firstn {A : Type} (n : nat) (l : list A) (x : A) :
  In x (firstn n l) -> In x l.
Proof.
  intros H. rewrite <- (firstn_skipn n l). apply in_or_app. now left.
Qed.

Lemma in_skipn {A : Type} (n : nat) (l : list A) (x : A) :
  In x (skipn n l) -> In x l.
Proof.
  intros H. rewrite <- (firstn_skipn n l). apply in_or_app. now right.
Qed.

Lemma insert_by_count_sorted x l :
  descending l -> descending (insert_by_count x l).
Proof.
  unfold descending.
  induction l as [|y l IH]; simpl; intros H.
  - repeat constructor.
  - inversion H as [|? ? Hs Hall]; subst.
    destruct (Nat.ltb_spec (snd x) (snd y)).
    + constructor; [now apply IH|].
      apply Forall_forall. intros z Hz.
      apply (Permutation_in _ (insert_by_count_perm x l)) in Hz.
      destruct Hz as [<- | Hz]; [lia|].
      now apply (proj1 (Forall_forall _ _) Hall).
    + constructor; [exact H|].
      constructor; [lia|].
      apply Forall_forall. intros z Hz.
      pose proof (proj1 (Forall_forall _ _) Hall z Hz) as Hz'.
      cbv beta in Hz'. lia.
Qed.

Lemma sorted_by_count_sorted l : descending (sorted_by_count l).
Proof.
  induction l as [|x l IH]; simpl; [constructor|].
  now apply insert_by_count_sorted.
Qed.

Lemma descending_split (l : list (str * nat)) (n : nat) :
  descending l ->
  descending (firstn n l) /\
  forall a b, In a (firstn n l) -> In b (skipn n l) -> snd b <= snd a.
Proof.
  unfold descending. revert n.
  induction l as [|x l IH]; intros n H.
  - rewrite firstn_nil, skipn_nil. split; [constructor | easy].
  - destruct n as [|n]; simpl; [split; [constructor | easy]|].
    inversion H as [|? ? Hs Hall]; subst.
    destruct (IH n Hs) as [Hf Hcross]. split.
    + constructor; [exact Hf|].
      apply Forall_forall. intros z Hz.
      apply (proj1 (Forall_forall _ _) Hall). eapply in_firstn; eauto.
    + intros a b [<- | Ha] Hb; [|now apply Hcross].
      apply (proj1 (Forall_forall _ _) Hall).
      eapply in_skipn; eauto.
Qed.

End CountFacts.

(** ** The stored record *)

Module ProfileFacts.
Import PyFacts DictFacts CountFacts.

Lemma in_dedup_aux (x : str) (seen xs : list str) :
  In x (dedup_aux seen xs) <-> In x xs /\ ~ In x seen.
Proof.
  revert seen. induction xs as [|y xs IH]; intros seen; simpl.
  - tauto.
  - destruct (existsb (Py.eqb y) seen) eqn:Hy.
    + apply existsb_exists in Hy. destruct Hy as (z & Hz & Hyz).
      apply eqb_true in Hyz. subst z. rewrite IH.
      split; [tauto|]. intros [[<- | H] Hn]; tauto.
    + assert (Hny : ~ In y seen).
      { intros Hin. apply Bool.not_true_iff_false in Hy. apply Hy.
        apply existsb_exists. exists y. split; [exact Hin | apply eqb_refl]. }
      simpl. rewrite IH. simpl. split.
      * intros [<- | [H1 H2]]; [tauto|]. split; [tauto|]. tauto.
      * intros [[<- | H1] H2]; [tauto|].
        destruct (list_eq_dec ascii_dec y x) as [<- | Hne]; [tauto|].
        right. split; [exact H1|]. intros [? | ?]; tauto.
Qed.

Lemma in_dedup (x : str) (xs : list str) : In x (dedup xs) <-> In x xs.
Proof. unfold dedup. rewrite in_dedup_aux. simpl. tauto. Qed.

(** X5.  The record built by [insert_complete_profile] splits the posts
    by their [isAd] flag: every post is in exactly one of [organic_posts]
    and [sponsored_posts], the sponsored ones are repeated under
    [brand_collaborations] with their number, and the brands worked with
    are exactly the mentions of the sponsored posts. *)
Theorem posts_are_partitioned (E : services) info posts m sc w :
  let p := complete_profile E info posts m sc w in
  all_posts (pr_posts p) = posts /\
  total_posts (pr_posts p)
  = length (organic_posts (pr_posts p))
    + length (sponsored_posts (pr_posts p)) /\
  (forall x, In x (sponsored_posts (pr_posts p))
             <-> In x posts /\ p_isAd x = true) /\
  (forall x, In x (organic_posts (pr_posts p))
             <-> In x posts /\ p_isAd x = false) /\
  bc_sponsored_posts (pr_brand_collaborations p)
  = sponsored_posts (pr_posts p) /\
  total_sponsored_posts (pr_brand_collaborations p)
  = length (sponsored_posts (pr_posts p)) /\
  (forall brand, In brand (brands_worked_with (pr_brand_collaborations p))
     <-> exists x, In x posts /\ p_isAd x = true /\ In brand (p_mentions x)).
Proof.
  cbv zeta. unfold complete_profile. simpl.
  split; [reflexivity|]. split.
  { induction posts as [|x l IH]; simpl; [reflexivity|].
    destruct (p_isAd x); simpl; lia. }
  split; [intros x; apply filter_In|]. split.
  { intros x. rewrite filter_In. now rewrite Bool.negb_true_iff. }
  split; [reflexivity|]. split; [reflexivity|].
  intros brand. rewrite in_dedup, in_flat_map. split.
  - intros (x & Hx & Hb). apply filter_In in Hx. exists x. tauto.
  - intros (x & Hx & Had & Hb). exists x. split; [|exact Hb].
    apply filter_In. tauto.
Qed.

(** X6.  [most_used] lists at most twenty hashtags, each once, by
    non-increasing count; a listed count is the number of times the tag
    occurs in the posts, and a tag that is used but not listed occurs no
    more often than any of the twenty listed ones. *)
Theorem most_used_hashtags (E : services) info posts m sc w :
  let tags := flat_map p_hashtags posts in
  let top := most_used (pr_hashtags (complete_profile E info posts m sc w)) in
  length top <= 20 /\
  descending top /\
  NoDup (map fst top) /\
  (forall tag n, In (tag, n) top -> 0 < n /\ n = occurrences tag tags) /\
  (forall tag, In tag tags ->
     In (tag, occurrences tag tags) top \/
     (length top = 20 /\
      forall e, In e top -> occurrences tag tags <= snd e)).
Proof.
  cbv zeta. unfold complete_profile. cbn [pr_hashtags most_used].
  rewrite count_posts.
  set (tags := flat_map p_hashtags posts).
  set (counts := count_all tags []).
  assert (Hkeys : NoDup (map fst counts))
    by (apply keys_count_all; constructor).
  assert (Hget : forall tag,
             Dict.get tag counts
             = match occurrences tag tags with 0 => None | n => Some n end).
  { intros tag. unfold counts. now rewrite get_count_all. }
  pose proof (sorted_by_count_perm counts) as Hperm.
  destruct (descending_split _ 20 (sorted_by_count_sorted counts))
    as [Hdesc Hcross].
  split; [apply firstn_le_length|]. split; [exact Hdesc|]. split.
  { rewrite <- firstn_map.
    assert (Hnd : NoDup (map fst (sorted_by_count counts))).
    { eapply Permutation_NoDup; [|exact Hkeys].
      apply Permutation_map. now symmetry. }
    rewrite <- (firstn_skipn 20 (map fst (sorted_by_count counts))) in Hnd.
    now apply NoDup_app_remove_r in Hnd. }
  split.
  - intros tag n Hin. apply in_firstn in Hin.
    apply (Permutation_in _ Hperm) in Hin.
    apply (get_of_in _ _ _ Hkeys) in Hin. rewrite Hget in Hin.
    destruct (occurrences tag tags); [discriminate|].
    injection Hin as <-. split; [lia | reflexivity].
  - intros tag Hin.
    assert (Hpos : 0 < occurrences tag tags).
    { unfold occurrences. clear - Hin.
      induction tags as [|t l IH]; [easy|]. simpl.
      destruct Hin as [-> | Hin].
      - rewrite eqb_refl. simpl. lia.
      - destruct (Py.eqb tag t); simpl; [lia | now apply IH]. }
    assert (Hc : In (tag, occurrences tag tags) counts).
    { specialize (Hget tag). clear - Hget Hpos.
      destruct (occurrences tag tags) as [|n]; [lia|].
      induction counts as [|[k v] d IH]; simpl in *; [discriminate|].
      destruct (Py.eqb k tag) eqn:Hk.
      - apply eqb_true in Hk. subst k. injection Hget as ->. now left.
      - right. now apply IH. }
    apply (Permutation_in _ (Permutation_sym Hperm)) in Hc.
    rewrite <- (firstn_skipn 20 (sorted_by_count counts)) in Hc.
    apply in_app_or in Hc. destruct Hc as [Hc | Hc]; [now left | right].
    split.
    + rewrite length_firstn.
      destruct (Nat.le_gt_cases 20 (length (sorted_by_count counts)))
        as [Hle | Hlt]; [lia|].
      rewrite skipn_all2 in Hc by lia. easy.
    + intros e He. exact (Hcross e _ He Hc).
Qed.

(** X7.  [total_mentions] is the number of mentions in all posts,
    repetitions included. *)
Theorem total_mentions_counts_all (E : services) info posts m sc w :
  total_mentions (pr_mentions (complete_profile E info posts m sc w))
  = length (flat_map p_mentions posts).
Proof.
  unfold complete_profile. cbn [pr_mentions total_mentions].
  rewrite count_posts, sum_count_all. simpl. lia.
Qed.

End ProfileFacts.

(** ** Rounding and clamping *)

Module RoundFacts.
Import NumFacts.
Local Open Scope Q_scope.

Lemma round_half_even_bounds (x : Q) (a b : Z) :
  inject_Z a <= x -> x <= inject_Z b ->
  (a <= round_half_even x <= b)%Z.
Proof.
  intros Ha Hb.
  assert (Hfa : (a <= Qfloor x)%Z).
  { rewrite <- (Qfloor_Z a). now apply Qfloor_resp_le. }
  assert (Hfb : (Qfloor x <= b)%Z).
  { rewrite <- (Qfloor_Z b). now apply Qfloor_resp_le. }
  assert (Hup : 0 < x - inject_Z (Qfloor x) -> (Qfloor x + 1 <= b)%Z).
  { intros Hpos.
    assert (Hlt : inject_Z (Qfloor x) < inject_Z b) by lra.
    rewrite <- Zlt_Qlt in Hlt. lia. }
  unfold round_half_even.
  destruct (x - inject_Z (Qfloor x) ?= 1 # 2) eqn:Hc.
  - apply Qeq_alt in Hc.
    destruct (Z.even (Qfloor x)); [lia|].
    split; [lia|]. apply Hup. lra.
  - lia.
  - apply Qgt_alt in Hc. split; [lia|]. apply Hup. lra.
Qed.

Lemma py_round_bounds (n : nat) (x : Q) (a b : Z) :
  inject_Z a <= x -> x <= inject_Z b ->
  inject_Z a <= py_round n x /\ py_round n x <= inject_Z b.
Proof.
  intros Ha Hb. unfold py_round. rewrite Qred_correct.
  set (k := (10 ^ Z.of_nat n)%Z).
  assert (Hk : (0 < k)%Z) by (apply Z.pow_pos_nonneg; lia).
  assert (HkQ : 0 < inject_Z k) by (rewrite Zlt_Qlt in Hk; exact Hk).
  destruct (round_half_even_bounds (x * inject_Z k) (a * k) (b * k))
    as [H1 H2].
  - rewrite inject_Z_mult. now apply Qmult_le_compat_r; [|apply Qlt_le_weak].
  - rewrite inject_Z_mult. now apply Qmult_le_compat_r; [|apply Qlt_le_weak].
  - split.
    + apply Qle_shift_div_l; [exact HkQ|].
      rewrite <- inject_Z_mult. now rewrite <- Zle_Qle.
    + apply Qle_shift_div_r; [exact HkQ|].
      rewrite <- inject_Z_mult. now rewrite <- Zle_Qle.
Qed.

Lemma max_min_bounds (lo hi x : Q) :
  lo <= hi -> lo <= py_max lo (py_min hi x) /\ py_max lo (py_min hi x) <= hi.
Proof.
  intros H. unfold py_max, py_min.
  destruct (Qltb x hi) eqn:Hx;
    [apply Qltb_true in Hx | apply Qltb_false in Hx];
  match goal with
  | |- context [Qltb ?a ?b] =>
      let H := fresh "H" in
      destruct (Qltb a b) eqn:H;
      [apply Qltb_true in H | apply Qltb_false in H]
  end; lra.
Qed.

Lemma max_min_inside (lo hi x : Q) :
  lo <= x -> x <= hi -> py_max lo (py_min hi x) == x.
Proof.
  intros H1 H2. unfold py_max, py_min.
  destruct (Qltb x hi) eqn:Hx;
    [apply Qltb_true in Hx | apply Qltb_false in Hx];
  match goal with
  | |- context [Qltb ?a ?b] =>
      let H := fresh "H" in
      destruct (Qltb a b) eqn:H;
      [apply Qltb_true in H | apply Qltb_false in H]
  end; lra.
Qed.

Lemma ratio_bounds (a b : Z) :
  (0 <= a <= b)%Z -> (0 < b)%Z ->
  0 <= inject_Z a / inject_Z b /\ inject_Z a / inject_Z b <= 1.
Proof.
  intros Ha Hb.
  assert (HbQ : 0 < inject_Z b) by (rewrite Zlt_Qlt in Hb; exact Hb).
  split.
  - apply Qle_shift_div_l; [exact HbQ|]. rewrite Qmult_0_l.
    change (inject_Z 0 <= inject_Z a). rewrite <- Zle_Qle. lia.
  - apply Qle_shift_div_r; [exact HbQ|]. rewrite Qmult_1_l.
    rewrite <- Zle_Qle. lia.
Qed.

End RoundFacts.

(** ** Aggregated metrics and the fallback scorer *)

Module MetricsFacts.
Import NumFacts RoundFacts.
Local Open Scope Q_scope.

Lemma Zsum_nonneg (xs : list Z) :
  Forall (fun x => (0 <= x)%Z) xs -> (0 <= Zsum xs)%Z.
Proof.
  unfold Zsum. induction 1 as [|x xs Hx _ IH]; simpl; lia.
Qed.

Lemma consistency_range (E : services) (posts : list post) (m : metrics) :
  aggregate_post_metrics E posts = Some m ->
  m_postsAnalyzed m = length posts /\
  0 <= m_consistencyScore m /\ m_consistencyScore m <= 85.
Proof.
  destruct posts as [|first rest]; [discriminate|].
  unfold aggregate_post_metrics. intros Hm.
  apply (f_equal (fun o => match o with
                           | Some m => (m_postsAnalyzed m, m_consistencyScore m)
                           | None => (O, 0)
                           end)) in Hm.
  cbv beta iota in Hm. cbn [m_postsAnalyzed m_consistencyScore] in Hm.
  injection Hm as <- <-. split; [reflexivity|].
  apply max_min_bounds. lra.
Qed.

(** X8.  [aggregate_post_metrics] returns the empty dictionary exactly on
    the empty post list; on any other list [postsAnalyzed] is the number
    of posts, [consistencyScore] lies between 0 and 85 and [organicPct]
    between 0 and 100. *)
Theorem aggregate_bounds (E : services) (posts : list post) :
  match aggregate_post_metrics E posts with
  | None => posts = []
  | Some m =>
      posts <> [] /\
      m_postsAnalyzed m = length posts /\
      0 <= m_consistencyScore m /\ m_consistencyScore m <= 85 /\
      0 <= m_organicPct m /\ m_organicPct m <= 100
  end.
Proof.
  destruct posts as [|first rest]; [reflexivity|].
  unfold aggregate_post_metrics.
  cbn [m_postsAnalyzed m_consistencyScore m_organicPct].
  split; [discriminate|]. split; [reflexivity|].
  set (all := first :: rest).
  match goal with
  | |- context [py_max 0 (py_min 85 ?x)] =>
      destruct (max_min_bounds 0 85 x) as [H1 H2]; [lra|]
  end.
  split; [exact H1|]. split; [exact H2|].
  set (org := filter is_positive _).
  assert (Hlen : (Z.of_nat (length org) <= Z.of_nat (length all))%Z).
  { apply inj_le. unfold org.
    etransitivity; [apply filter_length_le|]. rewrite length_map.
    etransitivity; [apply filter_length_le|]. now rewrite length_map. }
  destruct (ratio_bounds (Z.of_nat (length org)) (Z.of_nat (length all)))
    as [R1 R2]; [lia | simpl; lia |].
  split; [|lra].
  apply Qmult_le_0_compat; [exact R1 | lra].
Qed.

(** X9.  When no post has a negative number of likes or comments, the
    aggregated [commentShare] lies between 0 and 1. *)
Theorem comment_share_bounds (E : services) (posts : list post) (m : metrics) :
  Forall (fun p => (0 <= p_likesCount p)%Z /\ (0 <= p_commentsCount p)%Z)
    posts ->
  aggregate_post_metrics E posts = Some m ->
  0 <= m_commentShare m /\ m_commentShare m <= 1.
Proof.
  intros Hpos. destruct posts as [|first rest]; [discriminate|].
  unfold aggregate_post_metrics. intros Hm.
  apply (f_equal (fun o => match o with
                           | Some m => m_commentShare m
                           | None => 0
                           end)) in Hm.
  cbv beta iota in Hm. cbn [m_commentShare] in Hm. rewrite <- Hm. clear Hm.
  set (aps := map (analyze_for_metrics E) (first :: rest)).
  assert (Hl : (0 <= Zsum (map ap_likes aps))%Z).
  { apply Zsum_nonneg. unfold aps. rewrite map_map. apply Forall_map.
    eapply Forall_impl; [|exact Hpos]. now intros p [? ?]. }
  assert (Hc : (0 <= Zsum (map ap_comments aps))%Z).
  { apply Zsum_nonneg. unfold aps. rewrite map_map. apply Forall_map.
    eapply Forall_impl; [|exact Hpos]. now intros p [? ?]. }
  destruct (Z.ltb_spec 0
              (Zsum (map ap_likes aps) + Zsum (map ap_comments aps)));
    [|split; lra].
  apply ratio_bounds; lia.
Qed.

Lemma comment_share_bounds_witness :
  match aggregate_post_metrics Scripted.quiet Samples.single_post with
  | Some m => 0 <= m_commentShare m /\ m_commentShare m <= 1
  | None => False
  end.
Proof.
  destruct (aggregate_post_metrics Scripted.quiet Samples.single_post)
    as [m|] eqn:Hm.
  - apply (comment_share_bounds Scripted.quiet Samples.single_post m);
      [|exact Hm].
    repeat constructor; simpl; lia.
  - unfold Samples.single_post, aggregate_post_metrics in Hm. discriminate Hm.
Defined.

(** X10.  Whatever the metrics, the empty dictionary included, the four
    scores of [calculate_scores_manually] lie between 0 and 100. *)
Theorem manual_scores_in_range (metrics_data : option metrics) (u : str) :
  let sc := calculate_scores_manually metrics_data u in
  (0 <= Authenticity sc /\ Authenticity sc <= 100) /\
  (0 <= BrandSafety sc /\ BrandSafety sc <= 100) /\
  (0 <= AudienceMatch sc /\ AudienceMatch sc <= 100) /\
  (0 <= ContentQuality sc /\ ContentQuality sc <= 100).
Proof.
  cbv zeta. unfold calculate_scores_manually.
  cbn [Authenticity BrandSafety AudienceMatch ContentQuality].
  split; [apply (py_round_bounds 1 _ 0 100); unfold inject_Z;
          apply max_min_bounds; lra|].
  split; [apply (py_round_bounds 1 _ 0 100); unfold inject_Z; lra|].
  split.
  - destruct metrics_data as [m|]; [destruct (m_hashtagCounts m)|];
      apply (py_round_bounds 1 _ 0 100); unfold inject_Z; lra.
  - apply (py_round_bounds 1 _ 0 100); unfold inject_Z;
      apply max_min_bounds; lra.
Qed.

(** X11.  Aggregation followed by the fallback scorer: for metrics that
    [aggregate_post_metrics] produced, [Authenticity] is the consistency
    score rounded to one decimal and never exceeds 85, and the scorer
    reports the number of posts that were aggregated. *)
Theorem authenticity_of_aggregated (E : services) (posts : list post)
    (m : metrics) (u : str) :
  aggregate_post_metrics E posts = Some m ->
  Authenticity (calculate_scores_manually (Some m) u)
  = py_round 1 (m_consistencyScore m) /\
  Authenticity (calculate_scores_manually (Some m) u) <= 85 /\
  s_postsAnalyzed (calculate_scores_manually (Some m) u) = length posts.
Proof.
  intros Hm. destruct (consistency_range E posts m Hm) as (Hn & H0 & H85).
  unfold calculate_scores_manually. cbn [Authenticity s_postsAnalyzed].
  assert (Heq : py_max 0 (py_min 100 (m_consistencyScore m))
                == m_consistencyScore m)
    by (apply max_min_inside; lra).
  rewrite (py_round_comp 1 _ _ Heq).
  split; [reflexivity|]. split; [|exact Hn].
  apply (py_round_bounds 1 _ 0 85); unfold inject_Z; assumption.
Qed.

Lemma authenticity_of_aggregated_witness :
  match aggregate_post_metrics Scripted.quiet Samples.quiet_feed with
  | Some m =>
      Authenticity (calculate_scores_manually (Some m) (s "someone"))
      = py_round 1 (m_consistencyScore m) /\
      Authenticity (calculate_scores_manually (Some m) (s "someone")) <= 85 /\
      s_postsAnalyzed (calculate_scores_manually (Some m) (s "someone"))
      = length Samples.quiet_feed
  | None => False
  end.
Proof.
  destruct (aggregate_post_metrics Scripted.quiet Samples.quiet_feed)
    as [m|] eqn:Hm.
  - apply (authenticity_of_aggregated Scripted.quiet Samples.quiet_feed m).
    exact Hm.
  - unfold Samples.quiet_feed, aggregate_post_metrics in Hm. discriminate Hm.
Defined.

End MetricsFacts.

(** ** More on strings *)

Module TextFacts.
Import PyFacts.

Lemma eqb_char_false (a b : ascii) : eqb_char a b = false <-> a <> b.
Proof. apply Ascii.eqb_neq. Qed.

Lemma split_on_nonempty (sep : ascii) (x : str) : split_on sep x <> [].
Proof.
  destruct x as [|c x]; simpl; [easy|].
  destruct (eqb_char c sep); [easy|]. now destruct (split_on sep x).
Qed.

Lemma first_field_no_sep (sep : ascii) (x : str) :
  ~ In sep (hd [] (split_on sep x)).
Proof.
  induction x as [|c x IH]; simpl; [easy|].
  destruct (eqb_char c sep) eqn:Hc; simpl; [easy|].
  apply eqb_char_false in Hc.
  destruct (split_on sep x) as [|f fs]; simpl in *; intros [H | H];
    try congruence; tauto.
Qed.

Lemma split_once_no_sep (sep : ascii) (x : str) :
  ~ In sep (fst (split_once sep x)).
Proof.
  induction x as [|c x IH]; simpl; [easy|].
  destruct (eqb_char c sep) eqn:Hc; simpl; [easy|].
  apply eqb_char_false in Hc.
  destruct (split_once sep x) as [a b]. simpl in *.
  intros [H | H]; [congruence | tauto].
Qed.

Lemma split_once_without_sep (sep : ascii) (x : str) :
  ~ In sep x -> fst (split_once sep x) = x.
Proof.
  induction x as [|c x IH]; simpl; [easy|]. intros Hn.
  destruct (eqb_char c sep) eqn:Hc.
  - apply eqb_char_true in Hc. tauto.
  - destruct (split_once sep x) as [a b]. simpl in *. f_equal. tauto.
Qed.

Lemma in_lstrip_char (c a : ascii) (x : str) :
  In a (lstrip_char c x) -> In a x.
Proof.
  induction x as [|d x IH]; simpl; [easy|].
  destruct (eqb_char d c); simpl; tauto.
Qed.

Lemma in_rstrip_char (c a : ascii) (x : str) :
  In a (rstrip_char c x) -> In a x.
Proof.
  unfold rstrip_char. rewrite <- in_rev. intros H.
  apply in_lstrip_char in H. now apply in_rev.
Qed.

Lemma lstrip_char_head (c d : ascii) (x r : str) :
  lstrip_char c x = d :: r -> d <> c.
Proof.
  induction x as [|e x IH]; simpl; [easy|].
  destruct (eqb_char e c) eqn:He; [exact IH|].
  intros [= -> _]. now apply eqb_char_false.
Qed.

Lemma lstrip_char_idem (c : ascii) (x : str) :
  lstrip_char c (lstrip_char c x) = lstrip_char c x.
Proof.
  induction x as [|e x IH]; simpl; [reflexivity|].
  destruct (eqb_char e c) eqn:He; [exact IH|]. simpl. now rewrite He.
Qed.

Lemma rstrip_char_idem (c : ascii) (x : str) :
  rstrip_char c (rstrip_char c x) = rstrip_char c x.
Proof.
  unfold rstrip_char. now rewrite rev_involutive, lstrip_char_idem.
Qed.

Lemma rstrip_char_end (c : ascii) (x : str) :
  endswith [c] (rstrip_char c x) = false.
Proof.
  unfold endswith, rstrip_char. rewrite rev_involutive. simpl.
  destruct (lstrip_char c (rev x)) as [|d r] eqn:H; [reflexivity|].
  apply lstrip_char_head in H. simpl.
  destruct (eqb_char c d) eqn:Hd; [|reflexivity].
  apply eqb_char_true in Hd. congruence.
Qed.

Lemma endswith_app (p x : str) : endswith p (x ++ p) = true.
Proof.
  unfold endswith. rewrite rev_app_distr.
  apply startswith_spec. now exists (rev x).
Qed.

Lemma startswith_app (p x y : str) :
  startswith p x = true -> startswith p (x ++ y) = true.
Proof.
  rewrite !startswith_spec. intros [b ->]. exists (b ++ y).
  now rewrite app_assoc.
Qed.

Lemma span_forallb (f : ascii -> bool) (x : str) :
  forallb f (fst (span f x)) = true.
Proof.
  induction x as [|c x IH]; simpl; [reflexivity|].
  destruct (f c) eqn:Hc; [|reflexivity].
  destruct (span f x) as [a b]. simpl in *. now rewrite Hc.
Qed.

End TextFacts.

(** ** Analyzed posts *)

Module PostFacts.
Import PyFacts TextFacts.

Lemma best_comment_from_spec (best : comment) (rest : list comment) :
  let c := best_comment_from best rest in
  In c (best :: rest) /\
  Forall (fun c' => (cm_likesCount c' <= cm_likesCount c)%Z) (best :: rest).
Proof.
  cbv zeta. revert best. induction rest as [|d rest IH]; intros best.
  - simpl. split; [now left|]. constructor; [lia | constructor].
  - simpl. destruct (Z.ltb_spec (cm_likesCount best) (cm_likesCount d)).
    + destruct (IH d) as [Hin Hall]. split; [simpl in *; tauto|].
      inversion Hall as [|? ? Hd Hrest]; subst.
      constructor; [lia|]. now constructor.
    + destruct (IH best) as [Hin Hall]. split; [simpl in *; tauto|].
      inversion Hall as [|? ? Hb Hrest]; subst.
      constructor; [exact Hb|]. constructor; [lia | exact Hrest].
Qed.

(** X12.  The top comment of an analyzed post is one of the post's
    latest comments and no comment has more likes; a post without
    comments gets the text No comments found with 0 likes. *)
Theorem top_comment_is_most_liked (E : services) (w : world) (u : str)
    (rp : raw_post) :
  match rp_latestComments rp with
  | [] => p_topComment (analyze_post E w u rp) = (s "No comments found", 0%Z)
  | _ =>
      exists c,
        In c (rp_latestComments rp) /\
        p_topComment (analyze_post E w u rp) = (cm_text c, cm_likesCount c) /\
        Forall (fun c' => (cm_likesCount c' <= cm_likesCount c)%Z)
          (rp_latestComments rp)
  end.
Proof.
  unfold analyze_post. cbn [p_topComment].
  destruct (rp_latestComments rp) as [|c rest]; [reflexivity|].
  destruct (best_comment_from_spec c rest) as [Hin Hall].
  exists (best_comment_from c rest). now repeat split.
Qed.

Lemma first_field_prefix (sep : ascii) (x : str) :
  exists tail,
    x = hd [] (split_on sep x) ++ tail
    /\ (tail = [] \/ exists rest, tail = sep :: rest).
Proof.
  induction x as [|c x (tail & IH & Htail)]; simpl.
  - exists []. split; [reflexivity | now left].
  - destruct (eqb_char c sep) eqn:Hc; simpl.
    + apply eqb_char_true in Hc. subst c. exists (sep :: x).
      split; [reflexivity | right; now exists x].
    + pose proof (split_on_nonempty sep x) as Hne.
      destruct (split_on sep x) as [|f fs]; [easy|]. simpl in *.
      exists tail. split; [now f_equal | exact Htail].
Qed.

Lemma topic_is_first_line (text : str) :
  first_line_cut text (firstn 100 (hd [] (split_on newline text))).
Proof.
  unfold first_line_cut.
  destruct (first_field_prefix newline text) as (tail & Htext & Htail).
  set (line := hd [] (split_on newline text)) in *.
  exists (skipn 100 line ++ tail). split; [|split; [|split]].
  - now rewrite app_assoc, firstn_skipn.
  - apply firstn_le_length.
  - intros Hin. apply CountFacts.in_firstn in Hin.
    now apply first_field_no_sep in Hin.
  - destruct (Nat.le_gt_cases (length line) 100) as [Hshort | Hlong].
    + rewrite skipn_all2 by exact Hshort. simpl.
      destruct Htail as [-> | Hnl]; [now left | right; now right].
    + right. left. rewrite length_firstn. lia.
Qed.

(** X13.  [analyze_instagram_posts] returns one post per scraped post,
    in order, under the given user name.  The topic of a post is the
    first line of its caption, cut after 100 characters; of its text
    when the caption is empty; and No caption when both are empty. *)
Theorem analyzed_posts_shape (E : services) (w : world)
    (posts_data : list raw_post) (username : str) :
  Forall2 (fun rp p =>
             p_username p = username /\
             match rp_caption rp, rp_text rp with
             | _ :: _, _ => first_line_cut (rp_caption rp) (p_topic p)
             | [], _ :: _ => first_line_cut (rp_text rp) (p_topic p)
             | [], [] => p_topic p = s "No caption"
             end)
    posts_data (analyze_instagram_posts E w posts_data username).
Proof.
  unfold analyze_instagram_posts.
  induction posts_data as [|rp rest IH]; simpl; constructor; [|exact IH].
  unfold analyze_post. cbn [p_username p_topic].
  split; [reflexivity|].
  destruct (rp_caption rp) as [|c caption].
  - destruct (rp_text rp) as [|c text]; [reflexivity|].
    cbn [truthy]. apply topic_is_first_line.
  - cbn [truthy]. apply topic_is_first_line.
Qed.

End PostFacts.

(** ** Links, candidates and the selected profile *)

Module LinkFacts.
Import PyFacts TextFacts.

Lemma clean_link_no_query (x : str) : ~ In "?"%char (clean_link x).
Proof.
  unfold clean_link. intros H. apply in_rstrip_char in H.
  now apply split_once_no_sep in H.
Qed.

Lemma split_once_prefix (sep : ascii) (x : str) :
  exists tail, x = fst (split_once sep x) ++ tail.
Proof.
  induction x as [|c x [tail IH]]; simpl; [now exists []|].
  destruct (eqb_char c sep); simpl; [now exists (c :: x)|].
  destruct (split_once sep x) as [a b]. simpl in *.
  exists tail. now f_equal.
Qed.

Lemma lstrip_char_suffix (c : ascii) (x : str) :
  exists a, x = a ++ lstrip_char c x.
Proof.
  induction x as [|d x [a IH]]; simpl; [now exists []|].
  destruct (eqb_char d c); [|now exists []].
  exists (d :: a). simpl. now f_equal.
Qed.

Lemma rstrip_char_prefix (c : ascii) (x : str) :
  exists tail, x = rstrip_char c x ++ tail.
Proof.
  unfold rstrip_char. destruct (lstrip_char_suffix c (rev x)) as [a Ha].
  exists (rev a). rewrite <- rev_app_distr, <- Ha. now rewrite rev_involutive.
Qed.

(** X14.  A cleaned link contains no question mark, does not end with a
    slash, is the beginning of the link it was made from, and cleaning it
    again changes nothing. *)
Theorem clean_link_spec (link_text : str) :
  ~ In "?"%char (clean_link link_text) /\
  endswith (s "/") (clean_link link_text) = false /\
  startswith (clean_link link_text) link_text = true /\
  clean_link (clean_link link_text) = clean_link link_text.
Proof.
  split; [apply clean_link_no_query|]. split; [apply rstrip_char_end|].
  split.
  - apply startswith_spec. unfold clean_link.
    destruct (split_once_prefix "?"%char link_text) as [t1 H1].
    destruct (rstrip_char_prefix slash (fst (split_once "?"%char link_text)))
      as [t2 H2].
    exists (t2 ++ t1). rewrite app_assoc, <- H2. exact H1.
  - unfold clean_link at 1.
    rewrite (split_once_without_sep _ _ (clean_link_no_query link_text)).
    unfold clean_link. apply rstrip_char_idem.
Qed.

Lemma filter_loop_from_hits (E : services) (organic items : list search_hit)
    (state : list str * list candidate) :
  incl items organic ->
  Forall (fun c => exists item, In item organic /\ made_of item c)
    (snd state) ->
  let final := fold_left (filter_step E) items state in
  Forall (fun c => exists item, In item organic /\ made_of item c)
    (snd final) /\
  length (snd final) <= length (snd state) + length items.
Proof.
  cbv zeta. revert state.
  induction items as [|item items IH]; intros [seen cands] Hincl Hall.
  - simpl. split; [exact Hall | lia].
  - assert (Hitem : In item organic) by (apply Hincl; now left).
    assert (Hrest : incl items organic)
      by (intros x Hx; apply Hincl; now right).
    cbn [fold_left].
    assert (Hstep :
      Forall (fun c => exists item, In item organic /\ made_of item c)
        (snd (filter_step E (seen, cands) item)) /\
      length (snd (filter_step E (seen, cands) item))
      <= S (length cands)).
    { unfold filter_step.
      destruct (negb (truthy (clean_link (hit_link item))));
        [split; [exact Hall | simpl; lia]|].
      destruct (profile_handle E _) as [user|];
        [|split; [exact Hall | simpl; lia]].
      destruct (mem (lower user) seen);
        [split; [exact Hall | simpl; lia]|].
      cbn [snd]. split.
      - apply Forall_app. split; [exact Hall|].
        constructor; [|constructor]. exists item. now repeat split.
      - rewrite length_app. simpl. lia. }
    destruct Hstep as [Hall' Hlen'].
    destruct (IH (filter_step E (seen, cands) item) Hrest Hall')
      as [Hfinal Hlen].
    split; [exact Hfinal|]. simpl in *. lia.
Qed.

(** X15.  Every candidate of
    [build_search_query_and_filter_candidates] is made of one of the
    organic hits (its title, its cleaned link, its snippet), there are no
    more candidates than hits, and a candidate flagged fallback is the
    only candidate. *)
Theorem candidates_come_from_hits (E : services)
    (norm_data : NormalizationResult) (fallback_query : str)
    (organic_results : list search_hit) :
  let candidates :=
    snd (build_search_query_and_filter_candidates E norm_data fallback_query
           organic_results) in
  Forall (fun c => exists item, In item organic_results /\ made_of item c)
    candidates /\
  length candidates <= length organic_results /\
  Forall (fun c => c_fallback c = true -> candidates = [c]) candidates.
Proof.
  cbv zeta. unfold build_search_query_and_filter_candidates. cbn [snd].
  destruct (filter_loop_from_hits E organic_results organic_results ([], []))
    as [Hall Hlen]; [apply incl_refl | constructor |].
  fold (strict_candidates E organic_results) in Hall, Hlen.
  pose proof (CandidateFacts.strict_candidates_invariant E organic_results)
    as Hinv.
  destruct (strict_candidates E organic_results) as [|c cs] eqn:Hstrict.
  - destruct organic_results as [|i0 rest]; [repeat split; constructor|].
    destruct (first_instagram_hit (i0 :: rest)) as [first_ig|] eqn:Hfirst.
    + split; [|split; [simpl; lia|]].
      * constructor; [|constructor]. exists first_ig.
        split; [|now repeat split].
        unfold first_instagram_hit in Hfirst.
        now apply find_some in Hfirst.
      * constructor; [|constructor]. reflexivity.
    + repeat split; try constructor. simpl. lia.
  - split; [exact Hall|]. split; [exact Hlen|].
    destruct Hinv as [seen (_ & _ & Hstrictly)].
    eapply Forall_impl; [|exact Hstrictly].
    intros c' [Hfalse _] Htrue. congruence.
Qed.

(** X16.  [format_profile_data] leaves an empty URL empty, with [None]
    for user name; any other URL comes out with an http or https scheme
    and a final slash, and a user name taken from it is non-empty and
    free of slash, question mark and hash.  The [username] key is always
    set. *)
Theorem formatted_profile_url (E : services) (selected_profile : selection)
    (original_query : str) (w : world) :
  let pd := format_profile_data E selected_profile original_query w in
  match or_empty (sel_instagram_url selected_profile) with
  | [] => pi_instagram_url pd = [] /\ pi_username pd = PyNone
  | _ =>
      has_http_scheme (pi_instagram_url pd) = true /\
      endswith (s "/") (pi_instagram_url pd) = true /\
      match pi_username pd with
      | PyStr username =>
          username <> [] /\
          forallb (fun c => negb (is_url_delimiter c)) username = true
      | PyNone => True
      | Missing => False
      end
  end.
Proof.
  cbv zeta. unfold format_profile_data. cbv zeta.
  cbn [pi_instagram_url pi_username].
  destruct (or_empty (sel_instagram_url selected_profile)) as [|c url] eqn:Hu;
    [now split|].
  cbn [truthy].
  match goal with
  | |- has_http_scheme ?f = true /\ _ => remember f as final eqn:Hfinal
  end.
  match type of Hfinal with
  | _ = (if _ then ?x else _) => remember x as schemed eqn:Hschemed
  end.
  assert (Hs : has_http_scheme schemed = true).
  { subst schemed. destruct (has_http_scheme (c :: url)) eqn:Hh;
      [exact Hh|].
    unfold has_http_scheme. rewrite lower_app. apply orb_true_iff. right.
    apply startswith_spec. now eexists. }
  clear Hschemed.
  assert (Hf : has_http_scheme final = true /\ endswith (s "/") final = true).
  { subst final. destruct (endswith (s "/") schemed) eqn:He; [now split|].
    split; [|apply endswith_app].
    unfold has_http_scheme in *. rewrite lower_app.
    apply orb_true_iff in Hs. apply orb_true_iff.
    destruct Hs as [Hs | Hs]; [left | right]; now apply startswith_app. }
  clear Hfinal.
  destruct Hf as [Hf1 Hf2]. split; [exact Hf1|]. split; [exact Hf2|].
  assert (Hsearch : forall x u,
             search_instagram_username x = Some u ->
             u <> [] /\
             forallb (fun c => negb (is_url_delimiter c)) u = true).
  { clear. induction x as [|d x IH]; intros u; [discriminate|].
    cbn [search_instagram_username].
    destruct (Py.eqb _ _); [|apply IH].
    pose proof (span_forallb (fun c => negb (is_url_delimiter c))
                  (skipn 14 (d :: x))) as Hspan.
    destruct (fst (span _ (skipn 14 (d :: x)))) as [|e r]; [apply IH|].
    intros [= <-]. split; [discriminate | exact Hspan]. }
  destruct (truthy final); [|exact I].
  destruct (search_instagram_username final) as [u|] eqn:Hsu; [|exact I].
  now apply Hsearch in Hsu.
Qed.

End LinkFacts.

(** ** The name heuristic, continued *)

Module NameMore.
Import PyFacts NameHeuristic.

Lemma lower_char_idem (c : ascii) : lower_char (lower_char c) = lower_char c.
Proof. destruct c as [[] [] [] [] [] [] [] []]; reflexivity. Qed.

Lemma lower_idem (x : str) : lower (lower x) = lower x.
Proof.
  unfold lower. rewrite map_map. apply map_ext. apply lower_char_idem.
Qed.

Section Mapped.
Variable f : ascii -> ascii.
Hypothesis f_space : forall c, is_space (f c) = is_space c.

Lemma map_lstrip (x : str) : map f (lstrip x) = lstrip (map f x).
Proof.
  induction x as [|c x IH]; [reflexivity|]. simpl.
  rewrite f_space. now destruct (is_space c).
Qed.

Lemma map_rstrip (x : str) : map f (rstrip x) = rstrip (map f x).
Proof.
  induction x as [|c x IH]; [reflexivity|]. simpl.
  rewrite <- IH, f_space.
  destruct (rstrip x); simpl; [now destruct (is_space c) | reflexivity].
Qed.

Lemma map_strip (x : str) : map f (strip x) = strip (map f x).
Proof. unfold strip. now rewrite map_rstrip, map_lstrip. Qed.

End Mapped.

Lemma lower_strip (x : str) : lower (strip x) = strip (lower x).
Proof. apply map_strip, is_space_lower_char. Qed.

Lemma lstrip_head (x : str) (d : ascii) (r : str) :
  lstrip x = d :: r -> is_space d = false.
Proof.
  induction x as [|c x IH]; simpl; [easy|].
  destruct (is_space c) eqn:Hc; [exact IH|]. now intros [= <- _].
Qed.

Lemma rstrip_idem (x : str) : rstrip (rstrip x) = rstrip x.
Proof.
  induction x as [|c x IH]; [reflexivity|]. simpl.
  destruct (rstrip x) as [|d r] eqn:Hr.
  - destruct (is_space c) eqn:Hc; [reflexivity|]. simpl. now rewrite Hc.
  - change (rstrip (c :: d :: r)) with
      (match rstrip (d :: r) with
       | [] => if is_space c then [] else [c]
       | r' => c :: r'
       end).
    now rewrite IH.
Qed.

Lemma strip_idem (x : str) : strip (strip x) = strip x.
Proof.
  unfold strip. destruct (lstrip x) as [|d r] eqn:Hl; [reflexivity|].
  pose proof (lstrip_head _ _ _ Hl) as Hd.
  destruct (rstrip_keeps [] d r Hd) as [b Hb]. simpl app in Hb.
  rewrite Hb. cbn [lstrip]. rewrite Hd, <- Hb. apply rstrip_idem.
Qed.

(** X17.  The name heuristic works on the normalized query: stripping
    the query of surrounding white space or lower-casing it beforehand
    leaves its answer unchanged. *)
Theorem looks_like_name_insensitive (q : str) :
  _looks_like_name (strip q) = _looks_like_name q /\
  _looks_like_name (lower q) = _looks_like_name q /\
  _looks_like_name (lower (strip q)) = _looks_like_name q.
Proof.
  unfold _looks_like_name. repeat split.
  - now rewrite strip_idem.
  - now rewrite <- lower_strip, lower_idem.
  - now rewrite <- lower_strip, lower_idem, strip_idem.
Qed.

Lemma length_map_lower (ws : list str) :
  map (@length ascii) (map lower ws) = map (@length ascii) ws.
Proof.
  rewrite map_map. apply map_ext. intros w. apply length_lower.
Qed.

Lemma len_between_range (lo hi : nat) (w : str) :
  len_between lo hi w = true -> lo <= length w <= hi.
Proof.
  unfold len_between. rewrite andb_true_iff, !Nat.leb_le. tauto.
Qed.

(** X18.  What the heuristic requires of a name: a query it accepts has
    between one and four white-space separated tokens, each of 2 to 20
    characters, and contains none of the non-name indicators. *)
Theorem looks_like_name_needs_tokens (q : str) :
  _looks_like_name q = true ->
  1 <= length (split q) <= 4 /\
  Forall (fun w => 2 <= length w <= 20) (split q) /\
  (forall ind, In ind non_name_indicators -> contains ind q = false).
Proof.
  intros H. split; [|split].
  - unfold _looks_like_name in H.
    destruct (existsb _ non_name_indicators); [discriminate|].
    rewrite split_lower, split_strip in H.
    destruct (split q) as [|w1 [|w2 [|w3 [|w4 [|w5 ws]]]]];
      simpl in *; try discriminate; lia.
  - unfold _looks_like_name in H.
    destruct (existsb _ non_name_indicators); [discriminate|].
    rewrite split_lower, split_strip in H.
    destruct (split q) as [|w1 [|w2 [|w3 [|w4 [|w5 ws]]]]];
      cbn [map forallb] in H; try discriminate;
      repeat (apply andb_true_iff in H; destruct H as [H ?]);
      repeat match goal with
             | H : _ && _ = true |- _ =>
                 apply andb_true_iff in H; destruct H as [? ?]
             | H : len_between _ _ (lower _) = true |- _ =>
                 apply len_between_range in H; rewrite length_lower in H
             end;
      repeat (apply Forall_cons; [lia|]); apply Forall_nil.
  - intros ind Hin. destruct (contains ind q) eqn:Hc; [|reflexivity].
    rewrite (indicator_rejected q ind Hin) in H; [discriminate|].
    now apply indicator_in_query.
Qed.

Lemma looks_like_name_needs_tokens_witness :
  1 <= length (split (s "Dhruv  Rathee")) <= 4 /\
  Forall (fun w => 2 <= length w <= 20) (split (s "Dhruv  Rathee")) /\
  (forall ind, In ind non_name_indicators ->
               contains ind (s "Dhruv  Rathee") = false).
Proof.
  apply (looks_like_name_needs_tokens (s "Dhruv  Rathee")). reflexivity.
Defined.

End NameMore.

(** ** Answers of the language model *)

Module AnswerFacts.
Import PyFacts NumFacts RoundFacts NameMore ResolverFacts.
Local Open Scope Q_scope.

Lemma fold_invariant {A B : Type} (P : A -> Prop) (f : A -> B -> A)
    (l : list B) (a : A) :
  (forall a b, P a -> P (f a b)) -> P a -> P (fold_left f l a).
Proof.
  intros Hstep. revert a. induction l as [|b l IH]; intros a Ha; simpl;
    [exact Ha|].
  apply IH. now apply Hstep.
Qed.

Lemma min_max_unit (v : Q) :
  0 <= py_min (py_max v 0) 1 /\ py_min (py_max v 0) 1 <= 1.
Proof.
  unfold py_min, py_max.
  destruct (Qltb v 0) eqn:H1;
    [apply Qltb_true in H1 | apply Qltb_false in H1];
  match goal with
  | |- context [Qltb ?a ?b] =>
      let H := fresh "H" in
      destruct (Qltb a b) eqn:H;
      [apply Qltb_true in H | apply Qltb_false in H]
  end; split; lra.
Qed.

Lemma spelling_line_invariant (q : str) (r : SpellCorrectionResult)
    (line : str) :
  original_query r = q /\ 0 <= confidence r /\ confidence r <= 1 ->
  original_query (spelling_line r line) = q /\
  0 <= confidence (spelling_line r line) /\
  confidence (spelling_line r line) <= 1.
Proof.
  intros (Hq & H0 & H1). unfold spelling_line.
  repeat match goal with
         | |- context [if ?b then _ else _] => destruct b
         end; cbn [original_query confidence]; try tauto.
  split; [exact Hq|]. unfold parsed_confidence.
  destruct (search_number _) as [[int_part frac_part]|]; [|tauto].
  apply min_max_unit.
Qed.

Lemma parse_spelling_invariant (text q : str) :
  let r := parse_spelling_correction_response text q in
  original_query r = q /\ 0 <= confidence r /\ confidence r <= 1.
Proof.
  cbv zeta. unfold parse_spelling_correction_response.
  destruct (negb (truthy text)).
  - cbn [original_query confidence]. repeat split; lra.
  - apply (fold_invariant
             (fun r => original_query r = q /\ 0 <= confidence r
                       /\ confidence r <= 1)).
    + intros a b. apply spelling_line_invariant.
    + cbn [original_query confidence]. repeat split; lra.
Qed.

Lemma safety_check_invariant (q : str) (r : SpellCorrectionResult) :
  original_query r = q /\ 0 <= confidence r /\ confidence r <= 1 ->
  original_query (safety_check q r) = q /\
  0 <= confidence (safety_check q r) /\ confidence (safety_check q r) <= 1.
Proof.
  intros H. unfold safety_check.
  destruct (negb (is_influencer r) && _looks_like_name q); [|exact H].
  cbn [original_query confidence]. split; [tauto|]. split; lra.
Qed.

Lemma heuristic_invariant (q : str) :
  original_query (heuristic_decision q) = q /\
  0 <= confidence (heuristic_decision q) /\
  confidence (heuristic_decision q) <= 1.
Proof.
  unfold heuristic_decision. cbn [original_query confidence].
  split; [reflexivity|]. destruct (_looks_like_name q); split; lra.
Qed.

(** X19.  Whatever the model answers, the parsed spelling result keeps
    the query as [original_query] and has a confidence between 0 and 1;
    so has the result of the resolver, in its blocking and its
    suspending form, on every path (parsed answer, safety override,
    heuristic). *)
Theorem spelling_result_invariant (E : services) (text query : str)
    (available : list known_influencer) (w : world) :
  let ok (r : SpellCorrectionResult) :=
    original_query r = query /\ 0 <= confidence r /\ confidence r <= 1 in
  ok (parse_spelling_correction_response text query) /\
  ok (fst (spell_correct_influencer_name E query available w)) /\
  ok (fst (spell_correct_influencer_name_async E query available w)).
Proof.
  cbv zeta. split; [apply parse_spelling_invariant|]. split.
  - unfold spell_correct_influencer_name.
    destruct (message_model E w) as [[answer|] w1]; cbn [fst];
      [|apply heuristic_invariant].
    destruct (truthy answer); cbn [fst]; [|apply heuristic_invariant].
    apply safety_check_invariant, parse_spelling_invariant.
  - unfold spell_correct_influencer_name_async.
    destruct (get_session E (trace w)); cbn [fst];
      [|apply heuristic_invariant].
    destruct (message_model_async E w) as [[answer|] w1]; cbn [fst];
      [|apply heuristic_invariant].
    destruct (truthy answer); cbn [fst]; [|apply heuristic_invariant].
    apply safety_check_invariant, parse_spelling_invariant.
Qed.

Lemma safety_check_accepts (q : str) (r : SpellCorrectionResult) :
  _looks_like_name q = true -> is_influencer (safety_check q r) = true.
Proof.
  intros H. unfold safety_check. rewrite H, andb_true_r.
  destruct (is_influencer r) eqn:Hr; simpl; [exact Hr | reflexivity].
Qed.

(** X20.  A query that looks like a name is never turned down: both
    forms of the resolver answer [is_influencer = True] for it, whether
    the model answered, answered no, or did not answer at all. *)
Theorem name_like_query_is_accepted (E : services) (query : str)
    (available : list known_influencer) (w : world) :
  _looks_like_name query = true ->
  is_influencer (fst (spell_correct_influencer_name E query available w))
  = true /\
  is_influencer
    (fst (spell_correct_influencer_name_async E query available w)) = true.
Proof.
  intros H. split.
  - unfold spell_correct_influencer_name.
    destruct (message_model E w) as [[answer|] w1]; cbn [fst];
      [|exact H].
    destruct (truthy answer); cbn [fst]; [|exact H].
    now apply safety_check_accepts.
  - unfold spell_correct_influencer_name_async.
    destruct (get_session E (trace w)); cbn [fst]; [|exact H].
    destruct (message_model_async E w) as [[answer|] w1]; cbn [fst];
      [|exact H].
    destruct (truthy answer); cbn [fst]; [|exact H].
    now apply safety_check_accepts.
Qed.

Lemma name_like_query_is_accepted_witness :
  is_influencer
    (fst (spell_correct_influencer_name Samples.refusing (s "dhruv rathi")
            [] Samples.cached_world)) = true /\
  is_influencer
    (fst (spell_correct_influencer_name_async Samples.refusing
            (s "dhruv rathi") [] Samples.cached_world)) = true.
Proof.
  apply (name_like_query_is_accepted Samples.refusing (s "dhruv rathi")).
  reflexivity.
Defined.

(** X22.  [parse_normalization_response] always returns at least two
    aliases and at least two handles, and never claims a database
    match. *)
Theorem normalization_keeps_two_of_each (response_text original_query : str) :
  let r := parse_normalization_response response_text original_query in
  (2 <= length (aliases r))%nat /\ (2 <= length (handles r))%nat /\
  database_match r = false.
Proof.
  cbv zeta. unfold parse_normalization_response.
  destruct (negb (truthy response_text)); [simpl; repeat split; lia|].
  set (parsed := fst (fold_left normalization_line _ _)).
  assert (Hdb : database_match parsed = false).
  { unfold parsed.
    apply (fold_invariant (fun st => database_match (fst st) = false));
      [|reflexivity].
    intros [r sec] line Hr. unfold normalization_line.
    repeat match goal with
           | |- context [if ?b then _ else _] => destruct b
           | |- context [match ?o with Some _ => _ | None => _ end] =>
               destruct o
           | |- context [match ?o with InAliases => _ | InHandles => _ end] =>
               destruct o
           end; exact Hr. }
  destruct (Nat.ltb_spec (length (aliases parsed)) 2) as [Ha | Ha];
    cbn [aliases handles database_match].
  - destruct (Nat.ltb_spec (length (handles parsed)) 2) as [Hh | Hh];
      cbn [aliases handles database_match length]; repeat split; try lia;
      exact Hdb.
  - destruct (Nat.ltb_spec (length (handles parsed)) 2) as [Hh | Hh];
      cbn [aliases handles database_match length]; repeat split; try lia;
      exact Hdb.
Qed.

Lemma min_max_percent (v : Q) :
  0 <= py_min 100 (py_max 0 v) /\ py_min 100 (py_max 0 v) <= 100.
Proof.
  unfold py_min, py_max.
  destruct (Qltb 0 v) eqn:H1;
    [apply Qltb_true in H1 | apply Qltb_false in H1];
  match goal with
  | |- context [Qltb ?a ?b] =>
      let H := fresh "H" in
      destruct (Qltb a b) eqn:H;
      [apply Qltb_true in H | apply Qltb_false in H]
  end; split; lra.
Qed.

(** X23.  Whatever the model answers, the four scores of
    [parse_scoring_response] lie between 0 and 100, and the user name and
    the number of analyzed posts are those of the call, not of the
    answer. *)
Theorem parsed_scores_in_range (response_text username : str)
    (metrics_data : option metrics) :
  let sc := parse_scoring_response response_text username metrics_data in
  scores_in_range sc /\
  s_username sc = username /\
  s_postsAnalyzed sc
  = match metrics_data with Some m => m_postsAnalyzed m | None => O end.
Proof.
  cbv zeta. unfold parse_scoring_response.
  match goal with
  | |- context [if ?b then ?d else _] =>
      assert (Hd : scores_in_range d /\ s_username d = username /\
                   s_postsAnalyzed d
                   = match metrics_data with
                     | Some m => m_postsAnalyzed m
                     | None => O
                     end)
        by (unfold scores_in_range, percent;
            cbn [Authenticity BrandSafety AudienceMatch ContentQuality
                 s_username s_postsAnalyzed];
            repeat split; lra);
      destruct b; [exact Hd|]
  end.
  apply (fold_invariant
           (fun sc => scores_in_range sc /\ s_username sc = username /\
                      s_postsAnalyzed sc
                      = match metrics_data with
                        | Some m => m_postsAnalyzed m
                        | None => O
                        end)); [|exact Hd].
  intros sc line ((Ha & Hb & Hc & Hq) & Hu & Hn). unfold scoring_line.
  destruct (search_score line) as [[int_part frac_part]|];
    [|unfold scores_in_range; tauto].
  pose proof (min_max_percent (float_of_decimal int_part frac_part)) as Hv.
  fold (percent (py_min 100 (py_max 0 (float_of_decimal int_part frac_part))))
    in Hv.
  repeat match goal with
         | |- context [if ?b then _ else _] => destruct b
         end;
    unfold scores_in_range, with_quality_scores;
    cbn [Authenticity BrandSafety AudienceMatch ContentQuality
         s_username s_postsAnalyzed];
    tauto.
Qed.

End AnswerFacts.

(** ** Requests to the language model and to the scrapers *)

Module RequestFacts.
Import PyFacts NameMore.

Lemma attempts_spec (E : services) (n : nat) (w : world) :
  let r := message_model_attempts E n w in
  exists k,
    k <= n /\
    trace (snd r) = trace w ++ repeat (LlmRequest false) k /\
    store (snd r) = store w /\
    match fst r with
    | Some text => 1 <= k /\ text <> [] /\ strip text = text
    | None => k = n
    end.
Proof.
  cbv zeta. revert w. induction n as [|n IH]; intros w.
  - exists 0. simpl. rewrite app_nil_r. auto.
  - cbn [message_model_attempts].
    assert (Hnext :
      exists k,
        k <= S n /\
        trace (snd (message_model_attempts E n (log (LlmRequest false) w)))
        = trace w ++ repeat (LlmRequest false) k /\
        store (snd (message_model_attempts E n (log (LlmRequest false) w)))
        = store w /\
        match fst (message_model_attempts E n (log (LlmRequest false) w)) with
        | Some text => 1 <= k /\ text <> [] /\ strip text = text
        | None => k = S n
        end).
    { destruct (IH (log (LlmRequest false) w)) as (k & Hk & Ht & Hs & Hr).
      exists (S k). split; [lia|]. split.
      - rewrite Ht. simpl. now rewrite <- app_assoc.
      - split; [exact Hs|].
        destruct (fst (message_model_attempts E n _)); [|lia].
        split; [lia | tauto]. }
    destruct (chat_completion E (trace w)) as [content|]; [|exact Hnext].
    destruct (truthy content && truthy (strip content)) eqn:Hc;
      [|exact Hnext].
    exists 1. cbn [fst snd]. split; [lia|]. split; [reflexivity|].
    split; [reflexivity|]. split; [lia|]. split.
    + apply andb_true_iff in Hc. destruct Hc as [_ Hc].
      now destruct (strip content).
    + apply strip_idem.
Qed.

Lemma async_attempts_spec (E : services) (n : nat) (w : world) :
  let r := message_model_async_attempts E n w in
  exists k,
    k <= n /\
    trace (snd r) = trace w ++ repeat (LlmRequest true) k /\
    store (snd r) = store w /\
    match fst r with
    | Some text => 1 <= k /\ text <> [] /\ strip text = text
    | None => k = n
    end.
Proof.
  cbv zeta. revert w. induction n as [|n IH]; intros w.
  - exists 0. simpl. rewrite app_nil_r. auto.
  - cbn [message_model_async_attempts].
    assert (Hnext :
      exists k,
        k <= S n /\
        trace (snd (message_model_async_attempts E n
                      (log (LlmRequest true) w)))
        = trace w ++ repeat (LlmRequest true) k /\
        store (snd (message_model_async_attempts E n
                      (log (LlmRequest true) w)))
        = store w /\
        match fst (message_model_async_attempts E n
                     (log (LlmRequest true) w)) with
        | Some text => 1 <= k /\ text <> [] /\ strip text = text
        | None => k = S n
        end).
    { destruct (IH (log (LlmRequest true) w)) as (k & Hk & Ht & Hs & Hr).
      exists (S k). split; [lia|]. split.
      - rewrite Ht. simpl. now rewrite <- app_assoc.
      - split; [exact Hs|].
        destruct (fst (message_model_async_attempts E n _)); [|lia].
        split; [lia | tauto]. }
    destruct (chat_completion_async E (trace w)) as [content|];
      [|exact Hnext].
    destruct (truthy content && truthy (strip content)) eqn:Hc;
      [|exact Hnext].
    exists 1. cbn [fst snd]. split; [lia|]. split; [reflexivity|].
    split; [reflexivity|]. split; [lia|]. split.
    + apply andb_true_iff in Hc. destruct Hc as [_ Hc].
      now destruct (strip content).
    + apply strip_idem.
Qed.

(** X21.  One call of [message_model] or [message_model_async] sends at
    most three requests to the language model and does nothing else; an
    answer it returns is not blank and has no surrounding white space; it
    returns [None] only after three requests or, when the client or the
    key is missing, without any request. *)
Theorem message_model_retries (E : services) (w : world) :
  model_call false (openrouter_client E && OPENROUTER_API_KEY E) w
    (message_model E w) /\
  model_call true (OPENROUTER_API_KEY E) w (message_model_async E w).
Proof.
  unfold model_call, message_model, message_model_async. split.
  - destruct (openrouter_client E), (OPENROUTER_API_KEY E); cbn [negb orb andb];
      try (exists 0; cbn [fst snd repeat]; rewrite app_nil_r;
           repeat split; lia).
    apply attempts_spec.
  - destruct (OPENROUTER_API_KEY E); cbn [negb];
      [apply async_attempts_spec|].
    exists 0. cbn [fst snd repeat]. rewrite app_nil_r. repeat split; lia.
Qed.

(** X24.  The blocking complete scrape asks the post scraper, then the
    profile scraper, and the combined scraper exactly when the post
    scraper returned no posts; posts of the post scraper are returned as
    they are; without a token nothing is requested and the result is
    [(None, [])]. *)
Theorem complete_scrape_requests (E : services) (username : str) (w : world) :
  let r := scrape_complete_instagram_profile E username w in
  store (snd r) = store w /\
  if APIFY_API_TOKEN E then
    trace (snd r)
    = trace w ++ [ScrapePosts false username; ScrapeProfile false username]
      ++ match apify_posts E (trace w) with
         | [] => [ScrapeCombined username]
         | _ => []
         end /\
    match apify_posts E (trace w) with
    | [] => True
    | posts => snd (fst r) = posts
    end
  else r = ((None, []), w).
Proof.
  cbv zeta. unfold scrape_complete_instagram_profile,
    scrape_instagram_posts_primary, scrape_profile_info_only,
    scrape_profile_and_posts_alternative.
  destruct (APIFY_API_TOKEN E); cbn [negb]; [|now split].
  destruct (apify_posts E (trace w)) as [|p ps].
  - destruct (apify_combined E _) as [profile_alt posts_alt].
    cbn [fst snd log store trace]. split; [reflexivity|].
    split; [|exact I]. now rewrite <- !app_assoc.
  - cbn [fst snd log store trace]. split; [reflexivity|].
    split; [|reflexivity]. now rewrite <- !app_assoc.
Qed.

End RequestFacts.

(** ** The search of the two stores, and auto-scraping *)

Module ManagerFacts.
Import PyFacts DictFacts TraceFacts SearchFacts StoreMore.

Lemma search_locally_appends (E : services) (terms : list str) (w : world) :
  appends is_lookup w (snd (search_locally E terms w)).
Proof.
  revert w. induction terms as [|term rest IH]; intros w.
  - apply appends_refl.
  - cbn [search_locally].
    assert (H1 : appends is_lookup w (snd (_search_main_database E term w)))
      by (unfold _search_main_database; cbn [snd]; now apply appends_log).
    destruct (_search_main_database E term w) as [[[data username]|] w1];
      cbn [snd] in *; [exact H1|].
    assert (H2 : appends is_lookup w1
                   (snd (_search_embeddings_database term w1)))
      by (unfold _search_embeddings_database; cbn [snd];
          now apply appends_log).
    destruct (_search_embeddings_database term w1)
      as [[[data username]|] w2]; cbn [snd] in *.
    + eapply appends_trans; eassumption.
    + eapply appends_trans; [|apply IH].
      eapply appends_trans; eassumption.
Qed.

Lemma search_locally_outcome (E : services) (terms : list str) (w : world)
    (o : outcome) :
  fst (search_locally E terms w) = Some o ->
  exists record username,
    o = (true, Some record, s "main_db:@" ++ username) \/
    o = (true, Some record, s "embeddings:@" ++ username).
Proof.
  revert w. induction terms as [|term rest IH]; intros w; [discriminate|].
  cbn [search_locally].
  destruct (_search_main_database E term w) as [[[data username]|] w1].
  - intros [= <-]. exists data, username. now left.
  - destruct (_search_embeddings_database term w1)
      as [[[data username]|] w2]; [|apply IH].
    intros [= <-]. exists data, username. now right.
Qed.

Lemma scrape_and_save_persisted (E : services)
    (scrape : str -> world
              -> (option scraped_profile * list raw_post) * world)
    (original_name : str) (selection_text : option str) (w : world) :
  persisted E (scrape_and_save E scrape original_name selection_text w).
Proof.
  unfold scrape_and_save, persisted.
  destruct selection_text as [text|]; [|now split].
  destruct (negb (truthy text)); [now split|].
  match goal with
  | |- context [if ?c then (failed "scraping_failed", w) else _] =>
      destruct c; [now split|]
  end.
  destruct (entry_get (pi_username _)) as [username|]; [|now split].
  destruct (negb (truthy username)); [now split|].
  destruct (scrape username w) as [[scraped_profile posts_raw] w1].
  destruct scraped_profile as [scraped|]; [|now split].
  assert (Hwritten : forall i p m sc w2,
             insert_complete_profile E i p m sc w1 = inr (true, w2) ->
             trace w2 = trace w1 ++ [StoreWrite true]).
  { intros i p m sc w2 Hi.
    unfold insert_complete_profile, save_database in Hi.
    destruct (username_key i); [discriminate|].
    destruct (negb (truthy _)); [discriminate|].
    destruct (disk_write E (trace w1)); [|discriminate].
    now injection Hi as <-. }
  destruct posts_raw as [|p ps]; cbv beta iota zeta;
    match goal with
    | |- context [insert_complete_profile E ?i ?p ?m ?sc w1] =>
        pose proof (Hwritten i p m sc) as Hw;
        destruct (insert_complete_profile E i p m sc w1)
          as [e|[ok w2]] eqn:Hi
    end;
    try (now split);
    (destruct ok; [|now split]);
    (destruct (get_profile_from_cache E username w2) as [final_data|] eqn:Hg;
     [|now split]);
    cbn [fst snd]; exists username, final_data, (trace w1);
    repeat split; try assumption; now apply Hw.
Qed.

Lemma auto_scrape_sync_persisted (E : services) (a b : str)
    (c : NormalizationResult) (w : world) :
  persisted E (_auto_scrape_and_save_sync E a b c w).
Proof.
  unfold _auto_scrape_and_save_sync.
  destruct (search_google E (search_name c) w) as [[organic|] w1];
    [|now split].
  destruct (snd (build_search_query_and_filter_candidates E c a organic));
    [now split|].
  destruct (message_model E w1) as [selection_text w2].
  apply scrape_and_save_persisted.
Qed.

Lemma auto_scrape_async_persisted (E : services) (a b : str)
    (c : NormalizationResult) (w : world) :
  persisted E (_auto_scrape_and_save_async E a b c w).
Proof.
  unfold _auto_scrape_and_save_async.
  destruct (search_google_async E (search_name c) w) as [[organic|] w1];
    [|now split].
  destruct (snd (build_search_query_and_filter_candidates E c a organic));
    [now split|].
  destruct (if get_session E (trace w1) then _ else _)
    as [selection_text w2].
  apply scrape_and_save_persisted.
Qed.

(** X25.  Auto-scraping, blocking or suspending, reports a record only
    when it has been persisted: the record returned is the one the
    profile store holds for the scraped user name, under the source
    auto_scraped:@ followed by that name, and the run ends with a
    successful write of the store; every other run returns no record with
    the reason scraping_failed. *)
Theorem auto_scraped_record_is_persisted (E : services)
    (original_name corrected_name : str)
    (normalized_data : NormalizationResult) (w : world) :
  persisted E
    (_auto_scrape_and_save_sync E original_name corrected_name
       normalized_data w) /\
  persisted E
    (_auto_scrape_and_save_async E original_name corrected_name
       normalized_data w).
Proof.
  split; [apply auto_scrape_sync_persisted|].
  apply auto_scrape_async_persisted.
Qed.

Lemma persisted_well_formed (E : services) (r : outcome * world) :
  persisted E r -> well_formed (fst r).
Proof.
  unfold persisted, well_formed.
  destruct (fst r) as [[[] data] tag].
  - intros (username & record & earlier & -> & -> & _). eauto.
  - intros [-> ->]. tauto.
Qed.

Lemma find_with_outcome (E : services)
    (spell : str -> list known_influencer -> world
             -> SpellCorrectionResult * world)
    (auto_scrape_with : str -> str -> NormalizationResult -> world
                        -> outcome * world)
    (influencer_name : str) (auto_scrape : bool) (w : world) :
  (forall q a w0, appends is_llm w0 (snd (spell q a w0))) ->
  (forall a b c w0, well_formed (fst (auto_scrape_with a b c w0))) ->
  let r := find_with E spell auto_scrape_with influencer_name auto_scrape w in
  well_formed (fst r) /\
  (auto_scrape = false -> appends is_local w (snd r)).
Proof.
  intros Hspell Hauto. cbv zeta. unfold find_with.
  pose proof (prepare_search_appends E spell influencer_name w Hspell) as Hp.
  apply (appends_weaken is_llm is_local) in Hp;
    [|intros e He; unfold is_local; now rewrite He].
  destruct (prepare_search E spell influencer_name w)
    as [[[[corrected normalized] terms]|] w3]; cbn [snd] in Hp.
  - pose proof (search_locally_appends E terms w3) as Hl.
    apply (appends_weaken is_lookup is_local) in Hl;
      [|intros e He; unfold is_local; rewrite He; apply orb_true_r].
    pose proof (search_locally_outcome E terms w3) as Ho.
    destruct (search_locally E terms w3) as [[found|] w4];
      cbn [fst snd] in *.
    + split; [|intros _; eapply appends_trans; eassumption].
      destruct (Ho found eq_refl) as (record & username & [-> | ->]);
        simpl; eauto.
    + destruct auto_scrape; cbn [andb].
      * split; [|discriminate].
        destruct (auto_scraping_enabled (udm w4)); [apply Hauto|].
        simpl. tauto.
      * split; [simpl; tauto|]. intros _. eapply appends_trans; eassumption.
  - split; [simpl; tauto|]. intros _. exact Hp.
Qed.

(** X26.  Both searches return either [True] with a record and a source
    main_db:@, embeddings:@ or auto_scraped:@ followed by a user name, or
    [False] without a record and with one of the reasons not_influencer,
    not_found and scraping_failed. *)
Theorem search_outcomes (E : services) (influencer_name : str)
    (auto_scrape : bool) (w : world) :
  well_formed
    (fst (_find_influencer_anywhere_sync E influencer_name auto_scrape w)) /\
  well_formed
    (fst (find_influencer_anywhere_async E influencer_name auto_scrape w)).
Proof.
  split.
  - apply find_with_outcome.
    + intros. apply spell_correct_appends.
    + intros. eapply persisted_well_formed, auto_scrape_sync_persisted.
  - apply find_with_outcome.
    + intros. apply spell_correct_async_appends.
    + intros. eapply persisted_well_formed, auto_scrape_async_persisted.
Qed.

(** X27.  A search with [auto_scrape=False], blocking or suspending,
    only asks the language model and looks into the two local stores: it
    sends no web search, calls no scraper and leaves the store file as it
    is. *)
Theorem search_without_auto_scrape (E : services) (influencer_name : str)
    (w : world) :
  appends is_local w
    (snd (_find_influencer_anywhere_sync E influencer_name false w)) /\
  appends is_local w
    (snd (find_influencer_anywhere_async E influencer_name false w)).
Proof.
  split.
  - apply find_with_outcome; [| |reflexivity].
    + intros. apply spell_correct_appends.
    + intros. eapply persisted_well_formed, auto_scrape_sync_persisted.
  - apply find_with_outcome; [| |reflexivity].
    + intros. apply spell_correct_async_appends.
    + intros. eapply persisted_well_formed, auto_scrape_async_persisted.
Qed.

End ManagerFacts.

(** ** The orchestrator *)

Module RunFacts.
Import PyFacts DictFacts NameMore StoreMore.

Lemma check_returns_stored (E : services) (username : str) (w : world) :
  snd (check_profile_exists E username w)
  = get_profile_from_cache E username w.
Proof.
  unfold check_profile_exists, get_profile_from_cache.
  destruct (Dict.get _ _) as [record|]; [|reflexivity].
  destruct (fromisoformat E _) as [[scraped [off|]]|]; try reflexivity.
  now destruct (_ <? _)%Z.
Qed.

Lemma enrich_returns_stored (E : services) (profile_data : profile_info)
    (username : str) (w : world) (record : profile) :
  fst (enrich E profile_data username w) = Some record ->
  get_profile_from_cache E username (snd (enrich E profile_data username w))
  = Some record.
Proof.
  unfold enrich.
  destruct (scrape_complete_instagram_profile E username w)
    as [[scraped_profile posts_raw] w1].
  assert (Hrest : forall (info : profile_info) (posts : list post)
                         (m : option metrics) (sc : scores) (w2 : world),
    let r :=
      match insert_complete_profile E info posts m (Some sc) w2 with
      | inl _ => (None, w2)
      | inr (success, w3) =>
          if success then (get_profile_from_cache E username w3, w3)
          else (None, w3)
      end in
    fst r = Some record ->
    get_profile_from_cache E username (snd r) = Some record).
  { intros info posts m sc w2. cbv zeta.
    destruct (insert_complete_profile E info posts m (Some sc) w2)
      as [e|[[] w3]]; cbn [fst snd]; [discriminate | easy | discriminate]. }
  destruct scraped_profile as [scraped|], posts_raw as [|p ps];
    cbv beta iota zeta; try discriminate;
    try (destruct (message_model E w1) as [scoring_text w2]);
    apply Hrest.
Qed.

(** X28.  [run_workflow] returns [None] on a blank query without doing
    anything, and a record it returns is always the one the profile store
    holds, at the end of the run, for the user name that steps 1 to 5
    have selected. *)
Theorem run_workflow_returns_stored (E : services) (chat_message : str)
    (w : world) :
  let r := run_workflow E chat_message w in
  match strip chat_message with
  | [] => r = (None, w)
  | _ =>
      match fst r with
      | Some record =>
          exists profile_data username w1,
            select_profile E chat_message w
            = (Some (profile_data, username), w1) /\
            get_profile_from_cache E username (snd r) = Some record
      | None => True
      end
  end.
Proof.
  cbv zeta. unfold run_workflow.
  destruct (strip chat_message) as [|c rest] eqn:Hs.
  - cbn [truthy negb]. now rewrite orb_true_r.
  - assert (Hq : truthy chat_message = true).
    { destruct chat_message; [discriminate Hs | reflexivity]. }
    rewrite Hq. cbn [truthy negb orb].
    destruct (select_profile E chat_message w)
      as [[[profile_data username]|] w1]; cbn [fst]; [|exact I].
    pose proof (check_returns_stored E username w1) as Hc.
    destruct (check_profile_exists E username w1) as [[] [cached|]];
      cbn [fst snd] in *;
      try (now exists profile_data, username, w1);
      (destruct (fst (enrich E profile_data username w1)) eqn:He;
       [|exact I]);
      exists profile_data, username, w1;
      (split; [reflexivity | now apply enrich_returns_stored]).
Qed.

(** X29.  Insert, then search: after [insert_complete_profile] has
    stored a profile under a non-empty user name, a local search whose
    first term is that user name finds exactly the stored record in the
    profile store, under its lower-cased key. *)
Theorem inserted_profile_is_found (E : services) info posts m sc w
    (u : str) (rest : list str) :
  pi_username info = PyStr u -> u <> [] ->
  disk_write E (trace w) = true ->
  exists w',
    insert_complete_profile E info posts m sc w = inr (true, w') /\
    fst (search_locally E (u :: rest) w')
    = Some (true, Some (complete_profile E info posts m sc w),
            s "main_db:@" ++ lower u).
Proof.
  intros Hu Hne Hdisk.
  assert (Hok : exists w',
             insert_complete_profile E info posts m sc w = inr (true, w')).
  { unfold insert_complete_profile, username_key, save_database.
    rewrite Hu, (lower_nonempty u Hne), Hdisk. cbn [negb]. now eexists. }
  destruct Hok as [w' Hok]. exists w'. split; [exact Hok|].
  destruct (insert_success E info posts m sc w w' Hok)
    as (u' & Hu' & _ & Hstore).
  rewrite Hu in Hu'. injection Hu' as <-.
  assert (Hget : get_profile_from_cache E (lower u) w'
                 = Some (complete_profile E info posts m sc w)).
  { unfold get_profile_from_cache, get_database. rewrite Hstore.
    cbn [profiles]. rewrite lower_idem. apply get_set_same. }
  cbn [search_locally]. unfold _search_main_database.
  rewrite Hget. reflexivity.
Qed.

Lemma inserted_profile_is_found_witness :
  exists w',
    insert_complete_profile Scripted.quiet
      (Samples.info (PyStr (s "Someone"))) Samples.single_post None None
      (Samples.world_with []) = inr (true, w') /\
    fst (search_locally Scripted.quiet [s "Someone"; s "someone else"] w')
    = Some (true,
            Some (complete_profile Scripted.quiet
                    (Samples.info (PyStr (s "Someone"))) Samples.single_post
                    None None (Samples.world_with [])),
            s "main_db:@" ++ lower (s "Someone")).
Proof.
  apply (inserted_profile_is_found Scripted.quiet
           (Samples.info (PyStr (s "Someone"))));
    [reflexivity | discriminate | reflexivity].
Defined.

End RunFacts.

(** ** The keyword fallback of the matcher *)

Module KeywordFacts.
Import PyFacts NumFacts CountFacts.
Local Open Scope Q_scope.

Lemma insert_by_score_perm x l : Permutation (insert_by_score x l) (x :: l).
Proof.
  induction l as [|y l IH]; simpl; [reflexivity|].
  destruct (Qltb _ _); [|reflexivity].
  rewrite IH. apply perm_swap.
Qed.

Lemma sort_by_score_perm l : Permutation (fold_right insert_by_score [] l) l.
Proof.
  induction l as [|x l IH]; simpl; [reflexivity|].
  rewrite insert_by_score_perm. now constructor.
Qed.

Lemma insert_by_score_sorted x l :
  StronglySorted
    (fun a b => semantic_match_score b <= semantic_match_score a) l ->
  StronglySorted
    (fun a b => semantic_match_score b <= semantic_match_score a)
    (insert_by_score x l).
Proof.
  induction l as [|y l IH]; simpl; intros H.
  - repeat constructor.
  - inversion H as [|? ? Hs Hall]; subst.
    destruct (Qltb (semantic_match_score x) (semantic_match_score y)) eqn:Hc;
      [apply Qltb_true in Hc | apply Qltb_false in Hc].
    + constructor; [now apply IH|].
      apply Forall_forall. intros z Hz.
      apply (Permutation_in _ (insert_by_score_perm x l)) in Hz.
      destruct Hz as [<- | Hz]; [lra|].
      now apply (proj1 (Forall_forall _ _) Hall).
    + constructor; [exact H|].
      constructor; [exact Hc|].
      apply Forall_forall. intros z Hz.
      pose proof (proj1 (Forall_forall _ _) Hall z Hz) as Hz'.
      cbv beta in Hz'. lra.
Qed.

Lemma sort_by_score_sorted l :
  StronglySorted
    (fun a b => semantic_match_score b <= semantic_match_score a)
    (fold_right insert_by_score [] l).
Proof.
  induction l as [|x l IH]; simpl; [constructor|].
  now apply insert_by_score_sorted.
Qed.

Lemma sorted_firstn {A : Type} (R : A -> A -> Prop) (n : nat) (l : list A) :
  StronglySorted R l -> StronglySorted R (firstn n l).
Proof.
  revert n. induction l as [|x l IH]; intros n H.
  - rewrite firstn_nil. constructor.
  - destruct n as [|n]; simpl; [constructor|].
    inversion H as [|? ? Hs Hall]; subst.
    constructor; [now apply IH|].
    apply Forall_forall. intros z Hz.
    apply (proj1 (Forall_forall _ _) Hall). eapply in_firstn; eauto.
Qed.

(** X30.  The keyword fallback returns at most eight matches, by
    non-increasing score; each is one of the given influencers, with a
    positive score and a confidence between 1 and 100; a description
    without any word matches nobody. *)
Theorem keyword_matches_spec (product_description : str)
    (influencers : list summary) :
  let matches := _fallback_keyword_matching product_description influencers in
  (length matches <= 8)%nat /\
  StronglySorted
    (fun a b => semantic_match_score b <= semantic_match_score a) matches /\
  Forall (fun m =>
            In (km_influencer m) influencers /\
            (1 <= match_confidence m <= 100)%nat /\
            0 < semantic_match_score m) matches /\
  match split product_description with
  | [] => matches = []
  | _ => True
  end.
Proof.
  cbv zeta. unfold _fallback_keyword_matching.
  set (keywords := split (lower product_description)).
  set (found := flat_map _ influencers).
  split; [apply firstn_le_length|].
  split; [apply sorted_firstn, sort_by_score_sorted|]. split.
  - apply Forall_forall. intros m Hm. apply in_firstn in Hm.
    apply (Permutation_in _ (sort_by_score_perm found)) in Hm.
    unfold found in Hm. apply in_flat_map in Hm.
    destruct Hm as (influencer & Hin & Hm).
    destruct (Nat.ltb_spec 0 (keyword_score keywords influencer)) as [Hp | Hp];
      [|easy].
    destruct Hm as [<- | []].
    cbn [km_influencer match_confidence semantic_match_score].
    split; [exact Hin|]. split; [lia|].
    apply Qlt_shift_div_l; [reflexivity|]. rewrite Qmult_0_l.
    change 0 with (inject_Z 0). rewrite <- Zlt_Qlt. lia.
  - destruct (split product_description) eqn:Hs; [|exact I].
    assert (Hk : keywords = []).
    { unfold keywords. now rewrite split_lower, Hs. }
    assert (Hf : found = []).
    { unfold found. rewrite Hk. clear.
      induction influencers as [|i l IH]; [reflexivity|]. simpl.
      unfold keyword_score at 1. simpl.
      destruct (truthy _), (truthy _); simpl; exact IH. }
    now rewrite Hf.
Qed.

End KeywordFacts.

(** ** Local lookups and scraping *)

Module LookupFacts.
Import PyFacts DictFacts TraceFacts SearchFacts NameMore.



Lemma same_stores_log (w w' : world) (e : event) :
  same_stores w w' -> same_stores w (log e w').
Proof. intros H. exact H. Qed.













End LookupFacts.
